(** * nfstest.host: a shallow embedding of the [Host] class

    The Python class [Host] (nfstest/host.py) runs shell commands on the
    local machine or, through ssh, on a remote one, keeps a registry of
    the commands it left running in the background, and mounts and
    unmounts an NFS export.

    The embedding follows the source method by method.  The object is a
    record [Host] whose fields are the attributes assigned in [__init__]
    and in [run_cmd]; a method is a function from the record to a result
    and the updated record, where a result is either a value or a raised
    exception.  Everything the methods obtain from the operating system
    (the children they spawn, their output and exit status, the file
    system probes) is read from an oracle [OS] indexed by a clock that
    ticks at every interaction, so a run against any environment, however
    it changes over time, is a run against some oracle.  What the methods
    do to the outside world is appended to a trace of events. *)

From Stdlib Require Import ZArith String Ascii List Bool Lia DecimalString.
From stdpp Require Import base gmap strings list.
Import ListNotations.

Open Scope Z_scope.
Open Scope string_scope.
Open Scope list_scope.

(** ** Python strings *)

Module PyStr.

(** The double quote character, and the two-character text backslash,
    double quote that [run_cmd] substitutes for it. *)
Definition dquote : ascii := ascii_of_nat 34.
Definition backslash : ascii := ascii_of_nat 92.
Definition newline : ascii := ascii_of_nat 10.

Definition of_char (c : ascii) : string := String c EmptyString.

(** [s.rstrip(c)] for a single character [c]. *)
Fixpoint rstrip (c : ascii) (s : string) : string :=
  match s with
  | EmptyString => EmptyString
  | String a s' =>
      match rstrip c s' with
      | EmptyString => if Ascii.eqb a c then EmptyString else of_char a
      | r => String a r
      end
  end.

(** [s[-1]]: the last character, [None] where Python raises IndexError. *)
Fixpoint last (s : string) : option ascii :=
  match s with
  | EmptyString => None
  | String a EmptyString => Some a
  | String _ s' => last s'
  end.

(** [s.replace(c, t)] for a single character [c]. *)
Fixpoint replace (c : ascii) (t : string) (s : string) : string :=
  match s with
  | EmptyString => EmptyString
  | String a s' =>
      (if Ascii.eqb a c then t else of_char a) +:+ replace c t s'
  end.

(** [s.startswith(c)] and [s.endswith(c)] for a single character. *)
Definition startswith (c : ascii) (s : string) : bool :=
  match s with
  | String a _ => Ascii.eqb a c
  | EmptyString => false
  end.

Definition endswith (c : ascii) (s : string) : bool :=
  match last s with
  | Some a => Ascii.eqb a c
  | None => false
  end.

(** [len(s) > 0], the truth value of a string. *)
Definition nonempty (s : string) : bool :=
  match s with
  | EmptyString => false
  | String _ _ => true
  end.

(** [len(s) > 1]. *)
Definition longer_than_one (s : string) : bool :=
  match s with
  | String _ (String _ _) => true
  | _ => false
  end.

(** ["%d" % n] for an integer [n]: its decimal digits, after a minus
    sign when it is negative. *)
Definition fmt_d (n : Z) : string := NilZero.string_of_int (Z.to_int n).

(** [os.path.join(a, b)] of posixpath, for two components: an absolute
    [b] replaces [a]; otherwise [b] is appended, after a separator
    unless [a] is empty or already ends in one. *)
Definition path_join (a b : string) : string :=
  if startswith "/" b then b
  else if negb (nonempty a) || endswith "/" a then a +:+ b
  else a +:+ "/" +:+ b.

End PyStr.

(** ** Regular expressions

    The two patterns of the module are searched with a backtracking
    matcher of the kind Python's [re] is: alternatives are tried left to
    right, quantifiers are greedy and give characters back one at a
    time, the search takes the leftmost start that admits a match, and a
    group that took no part in the match is [None]. *)

Module Re.

Inductive regex : Type :=
| Eps
| Cls (p : ascii -> bool)          (* one character of a class *)
| Cat (r1 r2 : regex)
| Alt (r1 r2 : regex)              (* r1|r2 *)
| Opt (r : regex)                  (* r? *)
| Star (p : ascii -> bool)         (* c* for a character class c *)
| Grp (n : nat) (r : regex).       (* the n-th parenthesis *)

Definition Plus (p : ascii -> bool) : regex := Cat (Cls p) (Star p).

Fixpoint Lit (s : string) : regex :=
  match s with
  | EmptyString => Eps
  | String a s' => Cat (Cls (Ascii.eqb a)) (Lit s')
  end.

(** [\s] on a byte string: space, \t, \n, \v, \f, \r. *)
Definition space (c : ascii) : bool :=
  let n := nat_of_ascii c in
  (Nat.eqb n 32 || (Nat.leb 9 n && Nat.leb n 13))%bool.

(** [\S]. *)
Definition nonspace (c : ascii) : bool := negb (space c).

(** [.] without DOTALL: anything but a newline. *)
Definition dot (c : ascii) : bool := negb (Ascii.eqb c PyStr.newline).

(** The groups of a match, by number. *)
Abbreviation groups := (list (option string)) (only parsing).

(** Greedy iteration of a class, giving back one character at a time. *)
Fixpoint star {R : Type} (p : ascii -> bool) (s : string)
    (k : string -> option R) : option R :=
  match s with
  | String c s' =>
      if p c then
        match star p s' k with
        | Some r => Some r
        | None => k s
        end
      else k s
  | EmptyString => k s
  end.

(** The text consumed between the input [s] and its suffix [s']. *)
Definition consumed (s s' : string) : string :=
  substring 0 (String.length s - String.length s') s.

(** [rmatch r s g k]: match [r] at the head of [s] and hand the rest of
    the input and the groups to the continuation [k]; the first way of
    matching that [k] accepts wins. *)
Fixpoint rmatch (r : regex) (s : string) (g : groups)
    (k : string -> groups -> option groups) : option groups :=
  match r with
  | Eps => k s g
  | Cls p =>
      match s with
      | String c s' => if p c then k s' g else None
      | EmptyString => None
      end
  | Cat r1 r2 => rmatch r1 s g (fun s' g' => rmatch r2 s' g' k)
  | Alt r1 r2 =>
      match rmatch r1 s g k with
      | Some x => Some x
      | None => rmatch r2 s g k
      end
  | Opt r1 =>
      match rmatch r1 s g k with
      | Some x => Some x
      | None => k s g
      end
  | Star p => star p s (fun s' => k s' g)
  | Grp n r1 =>
      rmatch r1 s g (fun s' g' => k s' (<[n := Some (consumed s s')]> g'))
  end.

(** [re.search(r, s)]: the groups of the leftmost match, numbered from
    1 as in Python (index 0 is unused), or [None]. *)
Fixpoint search_from (r : regex) (ngroups : nat) (s : string) : option groups :=
  match rmatch r s (replicate (S ngroups) None) (fun _ g => Some g) with
  | Some g => Some g
  | None =>
      match s with
      | String _ s' => search_from r ngroups s'
      | EmptyString => None
      end
  end.

Definition search (r : regex) (ngroups : nat) (s : string) : option groups :=
  search_from r ngroups s.

(** [m.groups()]: groups 1 to the last. *)
Definition groups_of (g : groups) : list (option string) := drop 1 g.

End Re.

(** ** The operating system *)

(** A [subprocess.Popen] object.  Python compares such objects by
    identity; [proc_id] is that identity (the clock tick at which the
    object was made) and [pid] is the attribute read by [wait_cmd]. *)
Record Proc := mkProc { proc_id : nat; pid : Z }.

#[global] Instance Proc_eq_dec : EqDecision Proc.
Proof. solve_decision. Defined.

(** What becomes of a child once it is spawned: its process id, what it
    writes on its two pipes, and its exit status. *)
Record Child := mkChild {
  c_pid : Z;
  c_stdout : string;
  c_stderr : string;
  c_returncode : Z
}.

(** The environment.  Every answer may depend on the time of asking. *)
Record OS := mkOS {
  getuid : Z;                           (* os.getuid() *)
  popen : nat -> string -> Child;       (* the child of a command line *)
  proc_wait : nat -> Proc -> Z;         (* proc.wait() of a background child *)
  path_exists : nat -> string -> bool;  (* os.path.exists *)
  path_isdir : nat -> string -> bool;   (* os.path.isdir *)
  mkdir_ok : nat -> string -> bool      (* whether os.mkdir succeeds *)
}.

(** What a method does to the outside world. *)
Inductive Event : Type :=
| EvDprint (dlevel : option string) (text : string)  (* self.dprint *)
| EvPopen (cmd : string)            (* subprocess.Popen(cmd, shell=True) *)
| EvTerminate (p : Proc)            (* proc.terminate() *)
| EvWait (p : Proc)                 (* proc.wait() in wait_cmd *)
| EvSleep (seconds : Z)             (* time.sleep *)
| EvSync                            (* self.libc.sync() *)
| EvExists (path : string)          (* os.path.exists *)
| EvIsdir (path : string)           (* os.path.isdir *)
| EvMkdir (path : string) (mode : Z). (* os.mkdir *)

#[global] Instance Event_eq_dec : EqDecision Event.
Proof. solve_decision. Defined.

(** ** The object *)

(** The attributes of a [Host], in the order [__init__] assigns them,
    then those [run_cmd] assigns, then the clock and the trace of the
    environment.  The attributes [fqdn], [ipaddr] and [libc] are left
    out: no method below reads the first two, and the third is used for
    [sync] alone, which is an event. *)
Record Host := mkHost {
  host : string;
  user : string;
  server : string;
  nfsversion : Z;
  minorversion : Z;
  proto : string;
  port : Z;
  sec : string;
  export : string;
  mtpoint : string;
  datadir : string;
  mtopts : string;
  interface : string;
  nomount : bool;
  iptables : string;
  sudo : string;
  mtdir : string;
  mounted : bool;
  process_list : list Proc;
  process_smap : gmap Z Z;
  process_dmap : gmap Z (option string);
  _checkmtpoint : list string;
  _invalidmtpoint : list string;
  _mtpoint_created : list string;
  need_network_reset : bool;
  _localhost : bool;
  process : option Proc;
  pstdout : string;
  pstderr : string;
  perror : string;
  returncode : Z;
  clock : nat;
  trace : list Event
}.

Definition set_mtpoint (v : string) (h : Host) : Host :=
  mkHost (host h) (user h) (server h) (nfsversion h) (minorversion h) (proto
    h) (port h) (sec h) (export h) v (datadir h) (mtopts h) (interface h)
    (nomount h) (iptables h) (sudo h) (mtdir h) (mounted h) (process_list h)
    (process_smap h) (process_dmap h) (_checkmtpoint h) (_invalidmtpoint h)
    (_mtpoint_created h) (need_network_reset h) (_localhost h) (process h)
    (pstdout h) (pstderr h) (perror h) (returncode h) (clock h) (trace h).

Definition set_mtdir (v : string) (h : Host) : Host :=
  mkHost (host h) (user h) (server h) (nfsversion h) (minorversion h) (proto
    h) (port h) (sec h) (export h) (mtpoint h) (datadir h) (mtopts h)
    (interface h) (nomount h) (iptables h) (sudo h) v (mounted h)
    (process_list h) (process_smap h) (process_dmap h) (_checkmtpoint h)
    (_invalidmtpoint h) (_mtpoint_created h) (need_network_reset h)
    (_localhost h) (process h) (pstdout h) (pstderr h) (perror h) (returncode
    h) (clock h) (trace h).

Definition set_mounted (v : bool) (h : Host) : Host :=
  mkHost (host h) (user h) (server h) (nfsversion h) (minorversion h) (proto
    h) (port h) (sec h) (export h) (mtpoint h) (datadir h) (mtopts h)
    (interface h) (nomount h) (iptables h) (sudo h) (mtdir h) v (process_list
    h) (process_smap h) (process_dmap h) (_checkmtpoint h) (_invalidmtpoint h)
    (_mtpoint_created h) (need_network_reset h) (_localhost h) (process h)
    (pstdout h) (pstderr h) (perror h) (returncode h) (clock h) (trace h).

Definition set_process_list (v : list Proc) (h : Host) : Host :=
  mkHost (host h) (user h) (server h) (nfsversion h) (minorversion h) (proto
    h) (port h) (sec h) (export h) (mtpoint h) (datadir h) (mtopts h)
    (interface h) (nomount h) (iptables h) (sudo h) (mtdir h) (mounted h) v
    (process_smap h) (process_dmap h) (_checkmtpoint h) (_invalidmtpoint h)
    (_mtpoint_created h) (need_network_reset h) (_localhost h) (process h)
    (pstdout h) (pstderr h) (perror h) (returncode h) (clock h) (trace h).

Definition set_process_smap (v : gmap Z Z) (h : Host) : Host :=
  mkHost (host h) (user h) (server h) (nfsversion h) (minorversion h) (proto
    h) (port h) (sec h) (export h) (mtpoint h) (datadir h) (mtopts h)
    (interface h) (nomount h) (iptables h) (sudo h) (mtdir h) (mounted h)
    (process_list h) v (process_dmap h) (_checkmtpoint h) (_invalidmtpoint h)
    (_mtpoint_created h) (need_network_reset h) (_localhost h) (process h)
    (pstdout h) (pstderr h) (perror h) (returncode h) (clock h) (trace h).

Definition set_process_dmap (v : gmap Z (option string)) (h : Host) : Host :=
  mkHost (host h) (user h) (server h) (nfsversion h) (minorversion h) (proto
    h) (port h) (sec h) (export h) (mtpoint h) (datadir h) (mtopts h)
    (interface h) (nomount h) (iptables h) (sudo h) (mtdir h) (mounted h)
    (process_list h) (process_smap h) v (_checkmtpoint h) (_invalidmtpoint h)
    (_mtpoint_created h) (need_network_reset h) (_localhost h) (process h)
    (pstdout h) (pstderr h) (perror h) (returncode h) (clock h) (trace h).

Definition set_checkmtpoint (v : list string) (h : Host) : Host :=
  mkHost (host h) (user h) (server h) (nfsversion h) (minorversion h) (proto
    h) (port h) (sec h) (export h) (mtpoint h) (datadir h) (mtopts h)
    (interface h) (nomount h) (iptables h) (sudo h) (mtdir h) (mounted h)
    (process_list h) (process_smap h) (process_dmap h) v (_invalidmtpoint h)
    (_mtpoint_created h) (need_network_reset h) (_localhost h) (process h)
    (pstdout h) (pstderr h) (perror h) (returncode h) (clock h) (trace h).

Definition set_invalidmtpoint (v : list string) (h : Host) : Host :=
  mkHost (host h) (user h) (server h) (nfsversion h) (minorversion h) (proto
    h) (port h) (sec h) (export h) (mtpoint h) (datadir h) (mtopts h)
    (interface h) (nomount h) (iptables h) (sudo h) (mtdir h) (mounted h)
    (process_list h) (process_smap h) (process_dmap h) (_checkmtpoint h) v
    (_mtpoint_created h) (need_network_reset h) (_localhost h) (process h)
    (pstdout h) (pstderr h) (perror h) (returncode h) (clock h) (trace h).

Definition set_mtpoint_created (v : list string) (h : Host) : Host :=
  mkHost (host h) (user h) (server h) (nfsversion h) (minorversion h) (proto
    h) (port h) (sec h) (export h) (mtpoint h) (datadir h) (mtopts h)
    (interface h) (nomount h) (iptables h) (sudo h) (mtdir h) (mounted h)
    (process_list h) (process_smap h) (process_dmap h) (_checkmtpoint h)
    (_invalidmtpoint h) v (need_network_reset h) (_localhost h) (process h)
    (pstdout h) (pstderr h) (perror h) (returncode h) (clock h) (trace h).

Definition set_need_network_reset (v : bool) (h : Host) : Host :=
  mkHost (host h) (user h) (server h) (nfsversion h) (minorversion h) (proto
    h) (port h) (sec h) (export h) (mtpoint h) (datadir h) (mtopts h)
    (interface h) (nomount h) (iptables h) (sudo h) (mtdir h) (mounted h)
    (process_list h) (process_smap h) (process_dmap h) (_checkmtpoint h)
    (_invalidmtpoint h) (_mtpoint_created h) v (_localhost h) (process h)
    (pstdout h) (pstderr h) (perror h) (returncode h) (clock h) (trace h).

Definition set_process (v : option Proc) (h : Host) : Host :=
  mkHost (host h) (user h) (server h) (nfsversion h) (minorversion h) (proto
    h) (port h) (sec h) (export h) (mtpoint h) (datadir h) (mtopts h)
    (interface h) (nomount h) (iptables h) (sudo h) (mtdir h) (mounted h)
    (process_list h) (process_smap h) (process_dmap h) (_checkmtpoint h)
    (_invalidmtpoint h) (_mtpoint_created h) (need_network_reset h)
    (_localhost h) v (pstdout h) (pstderr h) (perror h) (returncode h) (clock
    h) (trace h).

Definition set_pstdout (v : string) (h : Host) : Host :=
  mkHost (host h) (user h) (server h) (nfsversion h) (minorversion h) (proto
    h) (port h) (sec h) (export h) (mtpoint h) (datadir h) (mtopts h)
    (interface h) (nomount h) (iptables h) (sudo h) (mtdir h) (mounted h)
    (process_list h) (process_smap h) (process_dmap h) (_checkmtpoint h)
    (_invalidmtpoint h) (_mtpoint_created h) (need_network_reset h)
    (_localhost h) (process h) v (pstderr h) (perror h) (returncode h) (clock
    h) (trace h).

Definition set_pstderr (v : string) (h : Host) : Host :=
  mkHost (host h) (user h) (server h) (nfsversion h) (minorversion h) (proto
    h) (port h) (sec h) (export h) (mtpoint h) (datadir h) (mtopts h)
    (interface h) (nomount h) (iptables h) (sudo h) (mtdir h) (mounted h)
    (process_list h) (process_smap h) (process_dmap h) (_checkmtpoint h)
    (_invalidmtpoint h) (_mtpoint_created h) (need_network_reset h)
    (_localhost h) (process h) (pstdout h) v (perror h) (returncode h) (clock
    h) (trace h).

Definition set_perror (v : string) (h : Host) : Host :=
  mkHost (host h) (user h) (server h) (nfsversion h) (minorversion h) (proto
    h) (port h) (sec h) (export h) (mtpoint h) (datadir h) (mtopts h)
    (interface h) (nomount h) (iptables h) (sudo h) (mtdir h) (mounted h)
    (process_list h) (process_smap h) (process_dmap h) (_checkmtpoint h)
    (_invalidmtpoint h) (_mtpoint_created h) (need_network_reset h)
    (_localhost h) (process h) (pstdout h) (pstderr h) v (returncode h) (clock
    h) (trace h).

Definition set_returncode (v : Z) (h : Host) : Host :=
  mkHost (host h) (user h) (server h) (nfsversion h) (minorversion h) (proto
    h) (port h) (sec h) (export h) (mtpoint h) (datadir h) (mtopts h)
    (interface h) (nomount h) (iptables h) (sudo h) (mtdir h) (mounted h)
    (process_list h) (process_smap h) (process_dmap h) (_checkmtpoint h)
    (_invalidmtpoint h) (_mtpoint_created h) (need_network_reset h)
    (_localhost h) (process h) (pstdout h) (pstderr h) (perror h) v (clock h)
    (trace h).

Definition set_clock (v : nat) (h : Host) : Host :=
  mkHost (host h) (user h) (server h) (nfsversion h) (minorversion h) (proto
    h) (port h) (sec h) (export h) (mtpoint h) (datadir h) (mtopts h)
    (interface h) (nomount h) (iptables h) (sudo h) (mtdir h) (mounted h)
    (process_list h) (process_smap h) (process_dmap h) (_checkmtpoint h)
    (_invalidmtpoint h) (_mtpoint_created h) (need_network_reset h)
    (_localhost h) (process h) (pstdout h) (pstderr h) (perror h) (returncode
    h) v (trace h).

Definition set_trace (v : list Event) (h : Host) : Host :=
  mkHost (host h) (user h) (server h) (nfsversion h) (minorversion h) (proto
    h) (port h) (sec h) (export h) (mtpoint h) (datadir h) (mtopts h)
    (interface h) (nomount h) (iptables h) (sudo h) (mtdir h) (mounted h)
    (process_list h) (process_smap h) (process_dmap h) (_checkmtpoint h)
    (_invalidmtpoint h) (_mtpoint_created h) (need_network_reset h)
    (_localhost h) (process h) (pstdout h) (pstderr h) (perror h) (returncode
    h) (clock h) v.

(** ** Methods as state transformers that may raise *)

Inductive exn : Type :=
| Exception (msg : string)
| IndexError (msg : string)
| TypeError (msg : string)
| OSError (msg : string).

Inductive Res (A : Type) : Type :=
| Ok (a : A)
| Raise (e : exn).

Arguments Ok {A} a.
Arguments Raise {A} e.

(** A method: the object before, the outcome and the object after.  An
    assignment made before an exception is raised stays made. *)
Definition M (A : Type) : Type := Host -> Res A * Host.

Definition ret {A : Type} (a : A) : M A := fun h => (Ok a, h).

Definition bind {A B : Type} (m : M A) (k : A -> M B) : M B :=
  fun h =>
    match m h with
    | (Ok a, h') => k a h'
    | (Raise e, h') => (Raise e, h')
    end.

Definition raise {A : Type} (e : exn) : M A := fun h => (Raise e, h).

(** [self], read. *)
Definition get : M Host := fun h => (Ok h, h).

(** An assignment to an attribute of [self]. *)
Definition upd (f : Host -> Host) : M unit := fun h => (Ok tt, f h).

(** [try: m / except: pass]. *)
Definition try_pass {A : Type} (m : M A) : M unit :=
  fun h => (Ok tt, snd (m h)).

(** [try: m / except: handler], where [m] ends in a return or falls
    through with [None]. *)
Definition try_except {A : Type} (m : M A) (handler : M A) : M A :=
  fun h =>
    match m h with
    | (Ok a, h') => (Ok a, h')
    | (Raise _, h') => handler h'
    end.

Declare Scope host_scope.
Delimit Scope host_scope with host.
Bind Scope host_scope with M.

Notation "x <- c1 ;; c2" := (bind c1 (fun x => c2))
  (at level 100, c1 at next level, c2 at level 200, right associativity)
  : host_scope.
Notation "c1 ;; c2" := (bind c1 (fun _ => c2))
  (at level 100, c2 at level 200, right associativity) : host_scope.

Open Scope host_scope.

(** [when b m]: an [if] without [else]. *)
Definition when (b : bool) (m : M unit) : M unit := if b then m else ret tt.

(** A [for] loop over a list, left to right. *)
Fixpoint for_each {A : Type} (l : list A) (body : A -> M unit) : M unit :=
  match l with
  | [] => ret tt
  | x :: l' => body x ;; for_each l' body
  end.

(** [l.remove(x)]: the first occurrence goes. *)
Fixpoint list_remove {A : Type} `{EqDecision A} (x : A) (l : list A) : list A :=
  match l with
  | [] => []
  | y :: l' => if decide (x = y) then l' else y :: list_remove x l'
  end.

(** What [run_cmd] returns: [None] or the standard output. *)
Inductive RunResult : Type :=
| RNone
| RStdout (out : string).

(** The keyword arguments of [mount]; an absent one is [None]. *)
Record MountArgs := mkMountArgs {
  kw_server : option string;
  kw_nfsversion : option Z;
  kw_minorversion : option Z;
  kw_proto : option string;
  kw_port : option Z;
  kw_sec : option string;
  kw_export : option string;
  kw_mtpoint : option string;
  kw_datadir : option string;
  kw_mtopts : option string
}.

(** [mount()] with no keyword argument. *)
Definition no_args : MountArgs :=
  mkMountArgs None None None None None None None None None None.

(** [kwargs.pop(name, fallback)]. *)
Definition kwargs_pop {A : Type} (arg : option A) (fallback : A) : A :=
  match arg with
  | Some v => v
  | None => fallback
  end.

(** The pattern ['not (mounted|found)'] of [umount]. *)
Definition re_not_mounted : Re.regex :=
  Re.Cat (Re.Lit "not ") (Re.Grp 1 (Re.Alt (Re.Lit "mounted") (Re.Lit "found"))).

(** The pattern [(\svia\s+(\S+))?\sdev\s+(\S+).*\ssrc\s+(\S+)] of
    [get_route], in two parts: the group [(\svia\s+(\S+))] and what
    follows the question mark. *)
Definition re_route_via : Re.regex :=
  Re.Grp 1
    (Re.Cat (Re.Cls Re.space)
    (Re.Cat (Re.Lit "via")
    (Re.Cat (Re.Plus Re.space)
            (Re.Grp 2 (Re.Plus Re.nonspace))))).

Definition re_route_dev_src : Re.regex :=
  Re.Cat (Re.Cls Re.space)
 (Re.Cat (Re.Lit "dev")
 (Re.Cat (Re.Plus Re.space)
 (Re.Cat (Re.Grp 3 (Re.Plus Re.nonspace))
 (Re.Cat (Re.Star Re.dot)
 (Re.Cat (Re.Cls Re.space)
 (Re.Cat (Re.Lit "src")
 (Re.Cat (Re.Plus Re.space)
         (Re.Grp 4 (Re.Plus Re.nonspace))))))))).

Definition re_route : Re.regex :=
  Re.Cat (Re.Opt re_route_via) re_route_dev_src.

Section Methods.

Context (os : OS).

(** *** Interactions with the environment *)

Definition emit (e : Event) : M unit :=
  upd (fun h => set_trace (trace h ++ [e]) h).

(** The time of an interaction; the clock moves on. *)
Definition tick : M nat :=
  fun h => (Ok (clock h), set_clock (S (clock h)) h).

(** [self.dprint(dlevel, text)] of the base class: a log line. *)
Definition dprint (dlevel : option string) (text : string) : M unit :=
  emit (EvDprint dlevel text).

(** [subprocess.Popen(cmd, shell=True, ...)]: the new object and the
    child behind it. *)
Definition Popen (cmd : string) : M (Proc * Child) :=
  t <- tick ;;
  emit (EvPopen cmd) ;;
  let child := popen os t cmd in
  ret (mkProc t (c_pid child), child).

Definition os_path_exists (path : string) : M bool :=
  t <- tick ;;
  emit (EvExists path) ;;
  ret (path_exists os t path).

Definition os_path_isdir (path : string) : M bool :=
  t <- tick ;;
  emit (EvIsdir path) ;;
  ret (path_isdir os t path).

Definition os_mkdir (path : string) (mode : Z) : M unit :=
  t <- tick ;;
  emit (EvMkdir path mode) ;;
  if mkdir_ok os t path then ret tt else raise (OSError path).

(** *** sudo_cmd *)

Definition sudo_cmd (self : Host) (cmd : string) : string :=
  if negb (getuid os =? 0)%Z then sudo self +:+ " " +:+ cmd else cmd.

(** *** run_cmd *)

(** The command line [run_cmd] hands to the shell for [cmd]: prefixed
    with sudo when asked, then wrapped for ssh when the host is remote,
    every double quote of it escaped. *)
Definition command_line (self : Host) (cmd : string) (sudo : bool) : string :=
  let user := if PyStr.nonempty (user self) then user self +:+ "@" else "" in
  (* Add sudo command if specified *)
  let cmd := if sudo then sudo_cmd self cmd else cmd in
  if negb (_localhost self) then
    "ssh -t -t " +:+ user +:+ host self +:+ " " +:+ PyStr.of_char PyStr.dquote
      +:+ PyStr.replace PyStr.dquote
            (String PyStr.backslash (PyStr.of_char PyStr.dquote)) cmd
      +:+ PyStr.of_char PyStr.dquote
  else cmd.

Definition run_cmd (cmd : string) (sudo : bool) (dlevel : option string)
    (msg : string) (wait : bool) : M RunResult :=
  upd (set_process None) ;;
  upd (set_pstdout "") ;;
  upd (set_pstderr "") ;;
  upd (set_perror "") ;;
  upd (set_returncode 0) ;;
  self <- get ;;
  let cmd := command_line self cmd sudo in
  dprint dlevel (msg +:+ cmd) ;;
  pc <- Popen cmd ;;
  let proc := fst pc in
  let child := snd pc in
  upd (set_process (Some proc)) ;;
  if negb wait then
    upd (fun h => set_process_list (process_list h ++ [proc]) h) ;;
    upd (fun h => set_process_dmap (<[pid proc := dlevel]> (process_dmap h)) h) ;;
    when sudo
      (upd (fun h => set_process_smap (<[pid proc := 1]> (process_smap h)) h)) ;;
    ret RNone
  else
    upd (set_pstdout (c_stdout child)) ;;
    upd (set_pstderr (c_stderr child)) ;;
    upd (set_returncode (c_returncode child)) ;;
    self <- get ;;
    if _localhost self then
      if negb (c_returncode child =? 0)%Z then
        (* Error on local command *)
        upd (set_perror (pstderr self)) ;;
        raise (Exception (pstderr self))
      else ret (RStdout (pstdout self))
    else
      if (c_returncode child =? 255)%Z then
        (* Error on ssh command *)
        raise (Exception (pstderr self))
      else if negb (c_returncode child =? 0)%Z then
        (* Error on command sent *)
        upd (set_perror (pstdout self)) ;;
        raise (Exception (pstdout self))
      else ret (RStdout (pstdout self)).

(** *** wait_cmd and stop_cmd *)

(** The body of [for proc in plist]; [dlevel] and [out] are the local
    variables the loop assigns. *)
Fixpoint wait_loop (plist : list Proc) (terminate : bool)
    (dlevel : option string) (msg : string) (out : option Z) : M (option Z) :=
  match plist with
  | [] => ret out
  | proc :: plist' =>
      self <- get ;;
      if bool_decide (proc ∈ process_list self) then
        let dlevel :=
          match dlevel with
          | None =>
              match process_dmap self !! pid proc with
              | Some (Some _dlevel) => Some _dlevel
              | _ => None
              end
          | Some d => Some d
          end in
        (if terminate then
           if bool_decide (is_Some (process_smap self !! pid proc)) then
             (* started with sudo, so killed with sudo *)
             run_cmd ("kill " +:+ PyStr.fmt_d (pid proc)) true dlevel msg true ;;
             upd (fun h => set_process_smap (delete (pid proc) (process_smap h)) h)
           else
             dprint dlevel (msg +:+ "stopping process " +:+ PyStr.fmt_d (pid proc)) ;;
             emit (EvTerminate proc)
         else
           dprint dlevel (msg +:+ "waiting for process " +:+ PyStr.fmt_d (pid proc))) ;;
        t <- tick ;;
        emit (EvWait proc) ;;
        upd (fun h => set_process_list (list_remove proc (process_list h)) h) ;;
        wait_loop plist' terminate dlevel msg (Some (proc_wait os t proc))
      else wait_loop plist' terminate dlevel msg out
  end.

Definition wait_cmd (process : option Proc) (terminate : bool)
    (dlevel : option string) (msg : string) : M (option Z) :=
  self <- get ;;
  let plist :=
    match process with
    | None => process_list self
    | Some p => [p]
    end in
  wait_loop plist terminate dlevel msg None.

Definition stop_cmd (process : option Proc) (dlevel : option string)
    (msg : string) : M (option Z) :=
  wait_cmd process true dlevel msg.

(** *** _check_mtpoint *)

(** The probes of [_check_mtpoint]: the values of the local variables
    [exist] and [isdir] when they are done. *)
Definition probe_mtpoint (mtpoint : string) : M (bool * bool) :=
  self <- get ;;
  if _localhost self then
    (* Locally check if mount point exists and is a directory *)
    exist <- os_path_exists mtpoint ;;
    if exist then
      isdir <- os_path_isdir mtpoint ;;
      ret (exist, isdir)
    else ret (exist, true)
  else
    (* Remotely check if mount point exists and is a directory *)
    try_pass (run_cmd ("test -e '" +:+ mtpoint +:+ "'") false (Some "DBG4")
                "Check if mount point directory exists: " true) ;;
    self <- get ;;
    let exist := (returncode self =? 0)%Z in
    if exist then
      try_pass (run_cmd ("test -d '" +:+ mtpoint +:+ "'") false (Some "DBG4")
                  "Check if mount point is a directory: " true) ;;
      self <- get ;;
      ret (exist, (returncode self =? 0)%Z)
    else ret (exist, true).

Definition _check_mtpoint (mtpoint : string) : M unit :=
  self <- get ;;
  if bool_decide (mtpoint ∈ _checkmtpoint self) then
    (* Run this method once per mount point *)
    ret tt
  else
    upd (fun h => set_checkmtpoint (_checkmtpoint h ++ [mtpoint]) h) ;;
    probe <- probe_mtpoint mtpoint ;;
    let exist := fst probe in
    let isdir := snd probe in
    if negb exist then
      run_cmd ("mkdir -p " +:+ mtpoint) true (Some "DBG3")
        "Creating mount point directory: " true ;;
      upd (fun h => set_mtpoint_created (_mtpoint_created h ++ [mtpoint]) h)
    else if negb isdir then
      upd (fun h => set_invalidmtpoint (_invalidmtpoint h ++ [mtpoint]) h) ;;
      raise (Exception ("Mount point " +:+ mtpoint +:+ " is not a directory"))
    else ret tt.

(** *** mount *)

(** The mount command line, or [None] where [mtopts[-1]] raises. *)
Definition mount_cmd (server : string) (nfsversion minorversion : Z)
    (proto : string) (port : Z) (sec export mtpoint mtopts : string)
    : option string :=
  match PyStr.last mtopts with
  | None => None
  | Some c =>
      let mtopts := if negb (Ascii.eqb c ",") then mtopts +:+ "," else mtopts in
      (* Using the proper version of NFS *)
      let minorversion_str :=
        if (nfsversion =? 4)%Z
        then "minorversion=" +:+ PyStr.fmt_d minorversion +:+ ","
        else "" in
      Some ("mount -o vers=" +:+ PyStr.fmt_d nfsversion +:+ "," +:+ minorversion_str
              +:+ mtopts +:+ "proto=" +:+ proto +:+ ",sec=" +:+ sec
              +:+ ",port=" +:+ PyStr.fmt_d port +:+ " " +:+ server +:+ ":"
              +:+ export +:+ " " +:+ mtpoint)
  end.

(** The data directory is made if it does not exist. *)
Definition create_datadir : M unit :=
  self <- get ;;
  if _localhost self then
    exist <- os_path_exists (mtdir self) ;;
    when (negb exist) (os_mkdir (mtdir self) 511)
  else
    try_pass (run_cmd ("test -e '" +:+ mtdir self +:+ "'") false (Some "DBG4")
                "Check if data directory exists: " true) ;;
    self <- get ;;
    when (negb (returncode self =? 0)%Z)
      (run_cmd ("mkdir -m 0777 -p " +:+ mtdir self) false (Some "DBG3")
         "Creating data directory: " true ;;
       ret tt).

Definition mount (kwargs : MountArgs) : M (option string) :=
  self <- get ;;
  (* Get options *)
  let server := kwargs_pop (kw_server kwargs) (server self) in
  let nfsversion := kwargs_pop (kw_nfsversion kwargs) (nfsversion self) in
  let minorversion := kwargs_pop (kw_minorversion kwargs) (minorversion self) in
  let proto := kwargs_pop (kw_proto kwargs) (proto self) in
  let port := kwargs_pop (kw_port kwargs) (port self) in
  let sec := kwargs_pop (kw_sec kwargs) (sec self) in
  let export := kwargs_pop (kw_export kwargs) (export self) in
  let mtpoint := kwargs_pop (kw_mtpoint kwargs) (mtpoint self) in
  let datadir := kwargs_pop (kw_datadir kwargs) (datadir self) in
  let mtopts := kwargs_pop (kw_mtopts kwargs) (mtopts self) in
  (* Remove trailing '/' on mount point *)
  let mtpoint := PyStr.rstrip "/" mtpoint in
  upd (set_mtdir (if PyStr.nonempty datadir
                  then PyStr.path_join mtpoint datadir
                  else mtpoint)) ;;
  _check_mtpoint mtpoint ;;
  self <- get ;;
  if nomount self || bool_decide (mtpoint ∈ _invalidmtpoint self) then
    ret None
  else
    (* Remove trailing '/' on export path if is not the root directory *)
    let export :=
      if PyStr.longer_than_one export then PyStr.rstrip "/" export else export in
    match mount_cmd server nfsversion minorversion proto port sec export
            mtpoint mtopts with
    | None => raise (IndexError "string index out of range")
    | Some cmd =>
        run_cmd cmd true (Some "DBG2") "Mount volume: " true ;;
        upd (set_mounted true) ;;
        upd (set_mtpoint mtpoint) ;;
        (* Create data directory if it does not exist *)
        create_datadir ;;
        (* Return the mount point *)
        ret (Some mtpoint)
    end.

(** *** umount *)

(** [self.returncode == 0 or re.search('not (mounted|found)', self.perror)] *)
Definition umount_done (self : Host) : bool :=
  (returncode self =? 0)%Z
  || bool_decide (is_Some (Re.search re_not_mounted 1 (perror self))).

(** [for i in range(n)]: the retry loop, [n] rounds left. *)
Fixpoint umount_loop (n : nat) (cmd : string) : M unit :=
  match n with
  | O => ret tt
  | S n' =>
      emit (EvSleep 1) ;;
      try_pass (run_cmd cmd true (Some "DBG2") "Unmount volume: " true) ;;
      self <- get ;;
      if umount_done self then
        (* Unmount succeeded or directory not mounted *)
        upd (set_mounted false)
      else
        dprint (Some "DBG2") (perror self) ;;
        umount_loop n' cmd
  end.

Definition umount : M unit :=
  self <- get ;;
  if nomount self then ret tt
  else
    _check_mtpoint (mtpoint self) ;;
    self <- get ;;
    if bool_decide (mtpoint self ∈ _invalidmtpoint self) then ret tt
    else
      dprint (Some "DBG3") "Sync all buffers to disk" ;;
      emit EvSync ;;
      (* Try to umount 5 times *)
      umount_loop 5 ("umount -f " +:+ mtpoint self).

(** *** network_drop, network_reset, get_route *)

Definition network_drop (ipaddr : string) (port : Z) : M unit :=
  upd (set_need_network_reset true) ;;
  self <- get ;;
  run_cmd (iptables self +:+ " -A OUTPUT -p tcp -d " +:+ ipaddr +:+ " --dport "
             +:+ PyStr.fmt_d port +:+ " -j DROP")
    true (Some "DBG6") "Network drop: " true ;;
  ret tt.

Definition network_reset : M unit :=
  self <- get ;;
  try_except
    (run_cmd (iptables self +:+ " --flush") true (Some "DBG6")
       "Network reset: " true ;;
     ret tt)
    (self <- get ;;
     dprint (Some "DBG6") ("Network reset error <" +:+ perror self +:+ ">")) ;;
  self <- get ;;
  try_except
    (run_cmd (iptables self +:+ " --delete-chain") true (Some "DBG6")
       "Network reset: " true ;;
     ret tt)
    (self <- get ;;
     dprint (Some "DBG6") ("Network reset error <" +:+ perror self +:+ ">")).

(** The tuple [get_route] returns, as the list of its components. *)
Definition get_route (ipaddr : string) : M (list (option string)) :=
  let no_route := [None; None; None] in
  try_except
    (out <- run_cmd ("ip route get " +:+ ipaddr) false (Some "DBG1")
              "Get routing info: " true ;;
     match out with
     | RStdout out =>
         match Re.search re_route 4 out with
         | Some regex => ret (drop 1 (Re.groups_of regex))
         | None => ret no_route
         end
     | RNone => raise (TypeError "expected string or buffer")
     end)
    (self <- get ;;
     dprint (Some "DBG7") (perror self) ;;
     ret no_route).

(** *** __del__ *)

Definition __del__ : M unit :=
  self <- get ;;
  when (need_network_reset self) network_reset ;;
  self <- get ;;
  when (mounted self) umount ;;
  self <- get ;;
  for_each (_mtpoint_created self)
    (fun mtpoint =>
       try_pass (run_cmd ("rmdir " +:+ mtpoint) true (Some "DBG3")
                   "Removing mount point directory: " true)).

End Methods.

(** ** Construction *)

(** The object [__init__] leaves behind when it returns, from the values
    of its keyword arguments.  (The address look-up it also makes, which
    may raise, and the loading of libc are in [__init__] below.) *)
Definition init (host user server : string) (nfsversion minorversion : Z)
    (proto : string) (port : Z) (sec export mtpoint datadir mtopts interface : string)
    (nomount : bool) (iptables sudo : string) : Host :=
  {| host := host; user := user; server := server;
     nfsversion := nfsversion; minorversion := minorversion;
     proto := proto; port := port; sec := sec; export := export;
     mtpoint := mtpoint; datadir := datadir; mtopts := mtopts;
     interface := interface; nomount := nomount;
     iptables := iptables; sudo := sudo;
     (* Initialize object variables *)
     mtdir := mtpoint;
     mounted := false;
     process_list := [];
     process_smap := ∅;
     process_dmap := ∅;
     _checkmtpoint := [];
     _invalidmtpoint := [];
     _mtpoint_created := [];
     need_network_reset := false;
     _localhost := negb (PyStr.nonempty host);
     process := None; pstdout := ""; pstderr := ""; perror := "";
     returncode := 0;
     clock := O; trace := [] |}.

(** Modelled from the spec: the defaults of the module nfstest_config,
    which is not part of the sources at hand; the values are those the
    docstring of [__init__] documents.  [Host(host=.., server=..)]. *)
Definition default_host (host server : string) : Host :=
  init host "" server 4 1 "tcp" 2049 "sys" "/" "/mnt/t" ""
       "hard,rsize=4096,wsize=4096" "eth0" false
       "/usr/sbin/iptables" "/usr/bin/sudo".

(** ** Derived notions used in the statements *)

(** The child [run_cmd] gets for [cmd] when called on [self]. *)
Definition child_of (os : OS) (self : Host) (cmd : string) (sudo : bool) : Child :=
  popen os (clock self) (command_line os self cmd sudo).

(** What a blocking [run_cmd] leaves in [self.perror]. *)
Definition run_payload (localhost : bool) (c : Child) : string :=
  if localhost then
    if negb (c_returncode c =? 0)%Z then c_stderr c else ""
  else if (c_returncode c =? 255)%Z then ""
  else if negb (c_returncode c =? 0)%Z then c_stdout c
  else "".

(** How a blocking [run_cmd] ends. *)
Definition run_outcome (localhost : bool) (c : Child) : Res RunResult :=
  if localhost then
    if negb (c_returncode c =? 0)%Z then Raise (Exception (c_stderr c))
    else Ok (RStdout (c_stdout c))
  else if (c_returncode c =? 255)%Z then Raise (Exception (c_stderr c))
  else if negb (c_returncode c =? 0)%Z then Raise (Exception (c_stdout c))
  else Ok (RStdout (c_stdout c)).

(** The two events of every [run_cmd]: the log line and the spawn. *)
Definition run_events (dlevel : option string) (msg cl : string) : list Event :=
  [EvDprint dlevel (msg +:+ cl); EvPopen cl].

(** The object a blocking [run_cmd] leaves behind. *)
Definition ran (os : OS) (cmd : string) (sudo : bool) (dlevel : option string)
    (msg : string) (h : Host) : Host :=
  let cl := command_line os h cmd sudo in
  let c := popen os (clock h) cl in
  set_perror (run_payload (_localhost h) c)
    (set_returncode (c_returncode c)
      (set_pstderr (c_stderr c)
        (set_pstdout (c_stdout c)
          (set_process (Some (mkProc (clock h) (c_pid c)))
            (set_trace (trace h ++ run_events dlevel msg cl)
              (set_clock (S (clock h)) h)))))).

(** The object a non-blocking [run_cmd] leaves behind. *)
Definition started (os : OS) (cmd : string) (sudo : bool) (dlevel : option string)
    (msg : string) (h : Host) : Host :=
  let cl := command_line os h cmd sudo in
  let p := mkProc (clock h) (c_pid (popen os (clock h) cl)) in
  set_process_smap
    (if sudo then <[pid p := 1]> (process_smap h) else process_smap h)
    (set_process_dmap (<[pid p := dlevel]> (process_dmap h))
      (set_process_list (process_list h ++ [p])
        (set_process (Some p)
          (set_returncode 0
            (set_perror ""
              (set_pstderr ""
                (set_pstdout ""
                  (set_trace (trace h ++ run_events dlevel msg cl)
                    (set_clock (S (clock h)) h))))))))).

(** Two objects with the same configuration: what [__init__] takes from
    its arguments, other than the mount point. *)
Definition same_config (h h' : Host) : Prop :=
  host h' = host h /\ user h' = user h /\ server h' = server h
  /\ nfsversion h' = nfsversion h /\ minorversion h' = minorversion h
  /\ proto h' = proto h /\ port h' = port h /\ sec h' = sec h
  /\ export h' = export h /\ datadir h' = datadir h /\ mtopts h' = mtopts h
  /\ interface h' = interface h /\ nomount h' = nomount h
  /\ iptables h' = iptables h /\ sudo h' = sudo h
  /\ _localhost h' = _localhost h.

(** Two objects with the same mount bookkeeping. *)
Definition same_mounts (h h' : Host) : Prop :=
  mtpoint h' = mtpoint h /\ mtdir h' = mtdir h /\ mounted h' = mounted h
  /\ _checkmtpoint h' = _checkmtpoint h
  /\ _invalidmtpoint h' = _invalidmtpoint h
  /\ _mtpoint_created h' = _mtpoint_created h
  /\ need_network_reset h' = need_network_reset h.

(** Two objects with the same registry of background processes. *)
Definition same_registry (h h' : Host) : Prop :=
  process_list h' = process_list h
  /\ process_smap h' = process_smap h
  /\ process_dmap h' = process_dmap h.

(** *** Sessions

    A session is a sequence of calls of the methods of one object. *)
Inductive Call : Type :=
| CallRunCmd (cmd : string) (sudo : bool) (dlevel : option string)
    (msg : string) (wait : bool)
| CallWaitCmd (process : option Proc) (terminate : bool)
    (dlevel : option string) (msg : string)
| CallStopCmd (process : option Proc) (dlevel : option string) (msg : string)
| CallCheckMtpoint (mtpoint : string)
| CallMount (kwargs : MountArgs)
| CallUmount
| CallNetworkDrop (ipaddr : string) (port : Z)
| CallNetworkReset
| CallGetRoute (ipaddr : string).

(** The object after a call, whether it returned or raised. *)
Definition call (os : OS) (c : Call) (h : Host) : Host :=
  match c with
  | CallRunCmd cmd sudo dlevel msg wait => snd (run_cmd os cmd sudo dlevel msg wait h)
  | CallWaitCmd p terminate dlevel msg => snd (wait_cmd os p terminate dlevel msg h)
  | CallStopCmd p dlevel msg => snd (stop_cmd os p dlevel msg h)
  | CallCheckMtpoint mtpoint => snd (_check_mtpoint os mtpoint h)
  | CallMount kwargs => snd (mount os kwargs h)
  | CallUmount => snd (umount os h)
  | CallNetworkDrop ipaddr port => snd (network_drop os ipaddr port h)
  | CallNetworkReset => snd (network_reset os h)
  | CallGetRoute ipaddr => snd (get_route os ipaddr h)
  end.

Definition session (os : OS) (calls : list Call) (h : Host) : Host :=
  fold_left (fun h c => call os c h) calls h.

(** The events a method added to the trace of [h] on the way to [h']. *)
Definition new_events (h h' : Host) : list Event :=
  drop (length (trace h)) (trace h').

(** *** The shape of a run of unmount attempts

    [attempts cl k evs]: the events [evs] are [k] attempts to run the
    command line [cl], each one a sleep of one second, then the log line
    and the spawn of [run_cmd]; after an attempt at most log lines. *)
Definition is_dprint (e : Event) : Prop :=
  match e with
  | EvDprint _ _ => True
  | _ => False
  end.

Inductive attempts (cl : string) : nat -> list Event -> Prop :=
| attempts_none : attempts cl O []
| attempts_more k log evs :
    Forall is_dprint log ->
    attempts cl k evs ->
    attempts cl (S k)
      (EvSleep 1 :: run_events (Some "DBG2") "Unmount volume: " cl ++ log ++ evs).

(** The registry holds objects made before now: the next [Popen] makes a
    new one. *)
Definition registry_fresh (h : Host) : Prop :=
  forall q, q ∈ process_list h -> (proc_id q < clock h)%nat.

(** ** Environments and objects for worked examples *)

(** A child with the given exit status and output; its process id is
    [1000] plus the time of its birth when it comes from [scripted]. *)
Definition exits (code : Z) (out err : string) : Child :=
  mkChild 1000 out err code.

(** An environment whose [t]-th interaction, when it is a spawn, yields
    the [t]-th child of [script] ([rest] past its end), with process id
    [1000 + t]; every background child is reaped with status [status];
    every path probed exists or not, and is a directory or not, as
    [exist] and [isdir] say. *)
Definition scripted (uid : Z) (script : list Child) (rest : Child)
    (status : Z) (exist isdir : bool) : OS :=
  {| getuid := uid;
     popen := fun t _ =>
       let c := nth t script rest in
       mkChild (1000 + Z.of_nat t) (c_stdout c) (c_stderr c) (c_returncode c);
     proc_wait := fun _ _ => status;
     path_exists := fun _ _ => exist;
     path_isdir := fun _ _ => isdir;
     mkdir_ok := fun _ _ => true |}.

(** [Host(server='10.0.0.1')]: the local machine. *)
Definition local_host : Host := default_host "" "10.0.0.1".

(** [Host(host='192.168.0.11', server='10.0.0.1')]: a remote machine. *)
Definition remote_host : Host := default_host "192.168.0.11" "10.0.0.1".

(** The local machine, as root; the mount point exists; the first two
    interactions are the probes of it, then the unmount command fails
    four times and succeeds the fifth. *)
Definition umount_fifth_time : OS :=
  let busy := exits 32 "" "umount: /mnt/t: target is busy" in
  scripted 0 [exits 0 "" ""; exits 0 "" ""; busy; busy; busy; busy]
    (exits 0 "" "") 0 true true.

(** *** The arguments of a call of [mount], once defaulted and
    normalised as the method does *)

Definition eff_mtpoint (kwargs : MountArgs) (self : Host) : string :=
  PyStr.rstrip "/" (kwargs_pop (kw_mtpoint kwargs) (mtpoint self)).

Definition eff_mtdir (kwargs : MountArgs) (self : Host) : string :=
  let datadir := kwargs_pop (kw_datadir kwargs) (datadir self) in
  if PyStr.nonempty datadir
  then PyStr.path_join (eff_mtpoint kwargs self) datadir
  else eff_mtpoint kwargs self.

Definition eff_export (kwargs : MountArgs) (self : Host) : string :=
  let export := kwargs_pop (kw_export kwargs) (export self) in
  if PyStr.longer_than_one export then PyStr.rstrip "/" export else export.

Definition eff_mtopts (kwargs : MountArgs) (self : Host) : string :=
  kwargs_pop (kw_mtopts kwargs) (mtopts self).

Definition eff_nfsversion (kwargs : MountArgs) (self : Host) : Z :=
  kwargs_pop (kw_nfsversion kwargs) (nfsversion self).

Definition eff_minorversion (kwargs : MountArgs) (self : Host) : Z :=
  kwargs_pop (kw_minorversion kwargs) (minorversion self).

(** The command of a call of [mount], or [None] where building it
    raises. *)
Definition eff_mount_cmd (kwargs : MountArgs) (self : Host) : option string :=
  mount_cmd (kwargs_pop (kw_server kwargs) (server self))
    (eff_nfsversion kwargs self) (eff_minorversion kwargs self)
    (kwargs_pop (kw_proto kwargs) (proto self))
    (kwargs_pop (kw_port kwargs) (port self))
    (kwargs_pop (kw_sec kwargs) (sec self))
    (eff_export kwargs self) (eff_mtpoint kwargs self)
    (eff_mtopts kwargs self).

(** The object when the check of the mount point begins. *)
Definition mount_entry (kwargs : MountArgs) (self : Host) : Host :=
  set_mtdir (eff_mtdir kwargs self) self.

(** The command as the specification writes it:
    [mount -o vers=<major>,[minorversion=<minor>,]<mtopts,>proto=<proto>,sec=<sec>,port=<port> <server>:<export> <mountpath>]. *)
Definition spec_mount_cmd (kwargs : MountArgs) (self : Host) : string :=
  let mtopts := eff_mtopts kwargs self in
  "mount -o vers=" +:+ PyStr.fmt_d (eff_nfsversion kwargs self) +:+ ","
  +:+ (if (eff_nfsversion kwargs self =? 4)%Z
       then "minorversion=" +:+ PyStr.fmt_d (eff_minorversion kwargs self) +:+ ","
       else "")
  +:+ (if PyStr.endswith "," mtopts then mtopts else mtopts +:+ ",")
  +:+ "proto=" +:+ kwargs_pop (kw_proto kwargs) (proto self)
  +:+ ",sec=" +:+ kwargs_pop (kw_sec kwargs) (sec self)
  +:+ ",port=" +:+ PyStr.fmt_d (kwargs_pop (kw_port kwargs) (port self))
  +:+ " " +:+ kwargs_pop (kw_server kwargs) (server self)
  +:+ ":" +:+ eff_export kwargs self
  +:+ " " +:+ eff_mtpoint kwargs self.

(** [mount(nfsversion=4, minorversion=1, proto='tcp', sec='sys',
    port=2049, server='10.0.0.1', export='/x', mtpoint='/mnt/t')]. *)
Definition example_mount_args : MountArgs :=
  {| kw_server := Some "10.0.0.1"; kw_nfsversion := Some 4;
     kw_minorversion := Some 1; kw_proto := Some "tcp";
     kw_port := Some 2049; kw_sec := Some "sys"; kw_export := Some "/x";
     kw_mtpoint := Some "/mnt/t"; kw_datadir := None; kw_mtopts := None |}.

(** [mount(mtopts='')]. *)
Definition empty_mtopts_args : MountArgs :=
  {| kw_server := None; kw_nfsversion := None; kw_minorversion := None;
     kw_proto := None; kw_port := None; kw_sec := None; kw_export := None;
     kw_mtpoint := None; kw_datadir := None; kw_mtopts := Some "" |}.

(** [mount(datadir='data')]. *)
Definition datadir_args : MountArgs :=
  {| kw_server := None; kw_nfsversion := None; kw_minorversion := None;
     kw_proto := None; kw_port := None; kw_sec := None; kw_export := None;
     kw_mtpoint := None; kw_datadir := Some "data"; kw_mtopts := None |}.

(** [Host(server='10.0.0.1', nomount=True)]. *)
Definition nomount_host : Host :=
  init "" "" "10.0.0.1" 4 1 "tcp" 2049 "sys" "/" "/mnt/t" ""
       "hard,rsize=4096,wsize=4096" "eth0" true
       "/usr/sbin/iptables" "/usr/bin/sudo".

(** An environment in which every command succeeds and every path
    probed is a directory; the caller is root. *)
Definition all_well : OS := scripted 0 [] (exits 0 "" "") 0 true true.

(** An environment in which every path probed exists and is not a
    directory. *)
Definition plain_files : OS := scripted 0 [] (exits 0 "" "") 0 true false.

(** ** Notions used in the proofs *)

(** ** What a method leaves alone

    [keeps R m]: whatever the object before, [m] leaves one related to
    it by [R], whether it returns or raises. *)
Definition keeps {A : Type} (R : relation Host) (m : M A) : Prop :=
  forall h, R h (snd (m h)).

(** The mount bookkeeping only grows: what was checked stays checked. *)
Definition checked_grows (h h' : Host) : Prop :=
  forall p, p ∈ _checkmtpoint h -> p ∈ _checkmtpoint h'.

(** Steps that touch neither the configuration nor the mount
    bookkeeping, for any relation that such steps respect. *)
Definition quiet (R : relation Host) : Prop :=
  forall h h', same_config h h' -> same_mounts h h' -> R h h'.

(** Relations that hold between two objects as soon as the
    configuration is the same and nothing checked is forgotten. *)
Definition lax (R : relation Host) : Prop :=
  forall h h', same_config h h' -> checked_grows h h' -> R h h'.

(** What follows the membership test of [_check_mtpoint]. *)
Definition check_fresh (os : OS) (mtpoint : string) : M unit :=
  upd (fun h => set_checkmtpoint (_checkmtpoint h ++ [mtpoint]) h) ;;
  probe <- probe_mtpoint os mtpoint ;;
  if negb (fst probe) then
    run_cmd os ("mkdir -p " +:+ mtpoint) true (Some "DBG3")
      "Creating mount point directory: " true ;;
    upd (fun h => set_mtpoint_created (_mtpoint_created h ++ [mtpoint]) h)
  else if negb (snd probe) then
    upd (fun h => set_invalidmtpoint (_invalidmtpoint h ++ [mtpoint]) h) ;;
    raise (Exception ("Mount point " +:+ mtpoint +:+ " is not a directory"))
  else ret tt.

(** The object after one round of the retry loop: the sleep, then the
    command, its failure swallowed. *)
Definition umount_attempt (os : OS) (cmd : string) (h : Host) : Host :=
  ran os cmd true (Some "DBG2") "Unmount volume: "
    (set_trace (trace h ++ [EvSleep 1]) h).

(** A failed round ends with a log line of what was recorded. *)
Definition umount_logged (h : Host) : Host :=
  set_trace (trace h ++ [EvDprint (Some "DBG2") (perror h)]) h.

(** The events of the probes of [_check_mtpoint]: file system queries,
    and commands announced at level DBG4. *)
Definition is_probe_event (e : Event) : Prop :=
  match e with
  | EvExists _ | EvIsdir _ | EvPopen _ => True
  | EvDprint d _ => d = Some "DBG4"
  | _ => False
  end.

(** The log line with which [_check_mtpoint] announces its mkdir
    command. *)
Definition mkdir_announced (os : OS) (self : Host) (p : string) : Event :=
  EvDprint (Some "DBG3")
    ("Creating mount point directory: "
     +:+ command_line os self ("mkdir -p " +:+ p) true).

(** The events of the removal of one directory by [__del__]. *)
Definition rmdir_events (os : OS) (self : Host) (p : string) : list Event :=
  run_events (Some "DBG3") "Removing mount point directory: "
    (command_line os self ("rmdir " +:+ p) true).

(** What [__del__] does before it removes directories. *)
Definition teardown_mounts (os : OS) : M unit :=
  self <- get ;;
  when (need_network_reset self) (network_reset os) ;;
  self <- get ;;
  when (mounted self) (umount os).

(** A remote machine on which nothing exists yet but every command
    other than the probes succeeds: the interactions of a first
    [mount(datadir='data')] are the probe of the mount point (fails),
    its mkdir, the mount command, the probe of the data directory
    (fails) and its mkdir. *)
Definition remote_bare : OS :=
  scripted 0 [exits 1 "" ""; exits 0 "" ""; exits 0 "" ""; exits 1 "" ""]
    (exits 0 "" "") 0 true true.

(** A command line as ssh gets it for [remote_host]: between double
    quotes. *)
Definition over_ssh (cmd : string) : string :=
  "ssh -t -t 192.168.0.11 " +:+ PyStr.of_char PyStr.dquote +:+ cmd
  +:+ PyStr.of_char PyStr.dquote.

(** The debug level [wait_cmd] logs with: the one it is given, or else
    the one recorded when the process was started. *)
Definition wait_dlevel (dlevel : option string) (self : Host) (proc : Proc)
    : option string :=
  match dlevel with
  | Some d => Some d
  | None =>
      match process_dmap self !! pid proc with
      | Some (Some d) => Some d
      | _ => None
      end
  end.

(** The object once [wait_cmd] has waited for a process and removed it
    from the list: the clock ticks, the wait is traced, the handle
    goes. *)
Definition reaped (proc : Proc) (h : Host) : Host :=
  let h1 := set_clock (S (clock h)) h in
  let h2 := set_trace (trace h1 ++ [EvWait proc]) h1 in
  set_process_list (list_remove proc (process_list h2)) h2.

(** The object once [wait_cmd] has logged that it stops a process and
    sent it the signal. *)
Definition terminated (d : option string) (msg : string) (proc : Proc)
    (h : Host) : Host :=
  let h1 :=
    set_trace
      (trace h ++
       [EvDprint d (msg +:+ "stopping process " +:+ PyStr.fmt_d (pid proc))])
      h in
  set_trace (trace h1 ++ [EvTerminate proc]) h1.

(** The object once [wait_cmd] has killed with sudo a process started
    with sudo, the kill command having succeeded. *)
Definition killed (os : OS) (d : option string) (msg : string) (proc : Proc)
    (h : Host) : Host :=
  let hk := ran os ("kill " +:+ PyStr.fmt_d (pid proc)) true d msg h in
  set_process_smap (delete (pid proc) (process_smap hk)) hk.

(** The local machine, not as root; the first interaction starts a
    command in the background, the second is a kill command that fails
    because the process is gone already. *)
Definition kill_fails : OS :=
  scripted 500
    [exits 0 "" ""; exits 1 "" "kill: (1000) - No such process"]
    (exits 0 "" "") 0 true true.

(** ** Notions about texts and patterns *)

(** The text [t] occurs in [s]. *)
Definition occurs (t s : string) : Prop := exists a b, s = a +:+ t +:+ b.

(** [s'] is what is left of [s] after some prefix of it. *)
Definition rest_of (s' s : string) : Prop := exists a, s = a +:+ s'.

(** Group [n] took part in the match. *)
Definition is_set (g : Re.groups) (n : nat) : Prop :=
  exists c, g !! n = Some (Some c).

(** The groups a pattern may set. *)
Fixpoint writes (r : Re.regex) : list nat :=
  match r with
  | Re.Eps | Re.Cls _ | Re.Star _ => []
  | Re.Cat r1 r2 | Re.Alt r1 r2 => writes r1 ++ writes r2
  | Re.Opt r1 => writes r1
  | Re.Grp n r1 => n :: writes r1
  end.

(** Groups that every match of a pattern sets. *)
Fixpoint must (r : Re.regex) : list nat :=
  match r with
  | Re.Eps | Re.Cls _ | Re.Star _ | Re.Alt _ _ | Re.Opt _ => []
  | Re.Cat r1 r2 => must r1 ++ must r2
  | Re.Grp n r1 => n :: must r1
  end.

(** An environment in which every command succeeds and prints [out]. *)
Definition prints (out : string) : OS :=
  scripted 1000 [] (exits 0 out "") 0 true true.

(** ** Addresses and construction *)

(** One entry of [socket.getaddrinfo]: the address family [info[0]] and
    the address [info[4][0]]. *)
Record AddrInfo := mkAddrInfo { ai_family : Z; ai_addr : string }.

(** [socket.AF_INET] and [socket.AF_INET6]. *)
Definition AF_INET : Z := 2.
Definition AF_INET6 : Z := 10.

(** What [__init__] and [get_ip_address] obtain from the machine:
    [socket.gethostname()], [socket.getfqdn(name)], the answer of
    [socket.getaddrinfo(name, 2049, 0, 0, socket.SOL_TCP)], [None] when
    it raises, and the exception of [ctypes.CDLL(find_library('c'))] if
    it raises one. *)
Record Net := mkNet {
  gethostname : string;
  getfqdn : string -> string;
  getaddrinfo : string -> option (list AddrInfo);
  load_libc : option exn
}.

(** [info[0] == family and info[4][0] not in ('127.0.0.1', '::1')] *)
Definition usable (family : Z) (info : AddrInfo) : bool :=
  (ai_family info =? family)%Z
  && negb (bool_decide (ai_addr info ∈ ["127.0.0.1"; "::1"])).

(** The loop of [get_ip_address]: [Some] where it returns. *)
Fixpoint first_address (family : Z) (infolist : list AddrInfo) : option string :=
  match infolist with
  | [] => None
  | info :: infolist' =>
      (* Ignore loopback addresses *)
      if usable family info then Some (ai_addr info)
      else first_address family infolist'
  end.

Definition get_ip_address (net : Net) (host : string) (ipv6 : bool) : Res string :=
  let lstr := if PyStr.nonempty host then "" else "local " in
  let ipstr := if ipv6 then "v6" else "v4" in
  let family := if ipv6 then AF_INET6 else AF_INET in
  let host := if PyStr.nonempty host then host else gethostname net in
  let infolist :=
    match getaddrinfo net host with
    | Some l => l
    | None => []
    end in
  match first_address family infolist with
  | Some addr => Ok addr
  | None =>
      Raise (Exception ("Unable to get IP" +:+ ipstr +:+ " address for "
                        +:+ lstr +:+ "host '" +:+ host +:+ "'"))
  end.

(** A constructed object: the attributes of [Host], and the two that
    record leaves out. *)
Record HostObject := mkHostObject {
  attrs : Host;
  fqdn : string;
  ipaddr : string
}.

(** [Host(host=.., user=.., ...)], every keyword argument given. *)
Definition __init__ (net : Net) (host user server : string)
    (nfsversion minorversion : Z) (proto : string) (port : Z)
    (sec export mtpoint datadir mtopts interface : string)
    (nomount : bool) (iptables sudo : string) : Res HostObject :=
  let self := init host user server nfsversion minorversion proto port sec
                export mtpoint datadir mtopts interface nomount iptables sudo in
  let fqdn := getfqdn net host in
  match PyStr.last proto with
  | None => Raise (IndexError "string index out of range")
  | Some c =>
      let ipv6 := Ascii.eqb c "6" in
      match get_ip_address net host ipv6 with
      | Raise e => Raise e
      | Ok ipaddr =>
          (* Load share library *)
          match load_libc net with
          | Some e => Raise e
          | None => Ok (mkHostObject self fqdn ipaddr)
          end
      end
  end.

(** An entry that the loop of [get_ip_address] passes over. *)
Definition skipped (family : Z) (info : AddrInfo) : Prop :=
  ai_family info <> family \/ ai_addr info ∈ ["127.0.0.1"; "::1"].

(** An example: the machine [client] has a loopback entry, an IPv6
    entry and an IPv4 entry, in this order. *)
Definition example_net : Net :=
  {| gethostname := "client";
     getfqdn := fun name =>
       if bool_decide (name = "") then "client.example.com" else name;
     getaddrinfo := fun name =>
       if bool_decide (name = "client") then
         Some [mkAddrInfo AF_INET "127.0.0.1";
               mkAddrInfo AF_INET6 "fe80::1";
               mkAddrInfo AF_INET "10.0.0.5"]
       else None;
     load_libc := None |}.


(** ** Relations that the steps of the methods respect

    [core_steps R]: [R] holds from an object to the same object after
    any of the elementary steps that the methods other than [mount] and
    [network_drop] are made of: an event, a tick of the clock, an
    assignment to one of the attributes of [run_cmd], a change of the
    registry (the debug levels by insertion only), a path appended to
    one of the three lists of mount points, [mounted] set to false. *)
Record core_steps (R : relation Host) : Prop := {
  st_trace : forall h e, R h (set_trace (trace h ++ [e]) h);
  st_clock : forall h, R h (set_clock (S (clock h)) h);
  st_process : forall h v, R h (set_process v h);
  st_pstdout : forall h v, R h (set_pstdout v h);
  st_pstderr : forall h v, R h (set_pstderr v h);
  st_perror : forall h v, R h (set_perror v h);
  st_returncode : forall h v, R h (set_returncode v h);
  st_process_list : forall h v, R h (set_process_list v h);
  st_process_smap : forall h v, R h (set_process_smap v h);
  st_process_dmap :
    forall h k v, R h (set_process_dmap (<[k := v]> (process_dmap h)) h);
  st_checked :
    forall h p, R h (set_checkmtpoint (_checkmtpoint h ++ [p]) h);
  st_invalid :
    forall h p, R h (set_invalidmtpoint (_invalidmtpoint h ++ [p]) h);
  st_created :
    forall h p, R h (set_mtpoint_created (_mtpoint_created h ++ [p]) h);
  st_unmounted : forall h, R h (set_mounted false h)
}.

(** [all_steps R]: moreover the assignments of [mount] and of
    [network_drop]. *)
Record all_steps (R : relation Host) : Prop := {
  st_core : core_steps R;
  st_mtdir : forall h v, R h (set_mtdir v h);
  st_mounted : forall h, R h (set_mounted true h);
  st_mtpoint : forall h v, R h (set_mtpoint v h);
  st_flag : forall h, R h (set_need_network_reset true h)
}.

(** The trace is only added to. *)
Definition trace_grows (h h' : Host) : Prop :=
  exists evs, trace h' = trace h ++ evs.

(** Once set, [need_network_reset] stays set. *)
Definition flag_stays (h h' : Host) : Prop :=
  need_network_reset h = true -> need_network_reset h' = true.

(** The three lists of mount points are only appended to, and the map
    of debug levels keeps its keys. *)
Definition records_grow (h h' : Host) : Prop :=
  (exists l, _checkmtpoint h' = _checkmtpoint h ++ l)
  /\ (exists l, _invalidmtpoint h' = _invalidmtpoint h ++ l)
  /\ (exists l, _mtpoint_created h' = _mtpoint_created h ++ l)
  /\ (forall k, is_Some (process_dmap h !! k) -> is_Some (process_dmap h' !! k)).

(** A mounted object has had its mount point checked. *)
Definition mounted_checked (h : Host) : Prop :=
  mounted h = true -> mtpoint h ∈ _checkmtpoint h.

(** Nothing new is mounted, the mount point is the same and nothing
    checked is forgotten. *)
Definition no_new_mount (h h' : Host) : Prop :=
  (mounted h' = true -> mounted h = true)
  /\ mtpoint h' = mtpoint h
  /\ checked_grows h h'.

(** ** Notions about the network methods and the destructor *)

(** The object after one command of [network_reset], [<iptables><args>]:
    the command has run, and its failure, if it failed, is logged. *)
Definition reset_step (os : OS) (args : string) (h : Host) : Host :=
  let hr := ran os (iptables h +:+ args) true (Some "DBG6") "Network reset: " h in
  match run_outcome (_localhost h) (child_of os h (iptables h +:+ args) true) with
  | Ok _ => hr
  | Raise _ =>
      set_trace
        (trace hr ++
         [EvDprint (Some "DBG6") ("Network reset error <" +:+ perror hr +:+ ">")])
        hr
  end.

(** The events of one command of [network_reset] run at time [t]. *)
Definition reset_events (os : OS) (self : Host) (t : nat) (args : string)
    : list Event :=
  let cl := command_line os self (iptables self +:+ args) true in
  let c := popen os t cl in
  run_events (Some "DBG6") "Network reset: " cl
  ++ match run_outcome (_localhost self) c with
     | Ok _ => []
     | Raise _ =>
         [EvDprint (Some "DBG6")
            ("Network reset error <" +:+ run_payload (_localhost self) c +:+ ">")]
     end.

(** The command of [network_drop]. *)
Definition drop_cmd (self : Host) (ipaddr : string) (port : Z) : string :=
  iptables self +:+ " -A OUTPUT -p tcp -d " +:+ ipaddr +:+ " --dport "
  +:+ PyStr.fmt_d port +:+ " -j DROP".

(** What [__del__] does once the network is reset. *)
Definition del_after_reset (os : OS) : M unit :=
  self <- get ;;
  when (mounted self) (umount os) ;;
  self <- get ;;
  for_each (_mtpoint_created self)
    (fun mtpoint =>
       try_pass (run_cmd os ("rmdir " +:+ mtpoint) true (Some "DBG3")
                   "Removing mount point directory: " true)).

(** An environment in which the commands fail with exit status 1 and
    the message [denied]; the caller is not root. *)
Definition all_fail : OS :=
  scripted 500 [] (exits 1 "" "denied") 0 true true.

(** ** Notions about waiting for all the processes *)

(** The object once [wait_cmd] has logged that it waits for a
    process. *)
Definition waiting (d : option string) (msg : string) (proc : Proc)
    (h : Host) : Host :=
  set_trace
    (trace h ++
     [EvDprint d (msg +:+ "waiting for process " +:+ PyStr.fmt_d (pid proc))])
    h.

(** What [wait_cmd] does to a process before it waits for it, when it
    runs no kill command: the log line, and the signal if it is to
    terminate. *)
Definition announce_events (terminate : bool) (d : option string) (msg : string)
    (proc : Proc) : list Event :=
  if terminate then
    [EvDprint d (msg +:+ "stopping process " +:+ PyStr.fmt_d (pid proc));
     EvTerminate proc]
  else
    [EvDprint d (msg +:+ "waiting for process " +:+ PyStr.fmt_d (pid proc))].

(** The events of a loop of [wait_cmd] over [plist] that runs no kill
    command.  The debug level is the one given; when none is given, the
    first level found recorded for a process of the list is used from
    that process on. *)
Fixpoint wait_events (dmap : gmap Z (option string)) (plist : list Proc)
    (terminate : bool) (dlevel : option string) (msg : string) : list Event :=
  match plist with
  | [] => []
  | proc :: plist' =>
      let d :=
        match dlevel with
        | Some d => Some d
        | None =>
            match dmap !! pid proc with
            | Some (Some d) => Some d
            | _ => None
            end
        end in
      announce_events terminate d msg proc ++ [EvWait proc]
      ++ wait_events dmap plist' terminate d msg
  end.

(** An environment in which every child has the process id 4242. *)
Definition one_pid : OS :=
  {| getuid := 500;
     popen := fun _ _ => mkChild 4242 "" "" 0;
     proc_wait := fun _ _ => 0;
     path_exists := fun _ _ => true;
     path_isdir := fun _ _ => true;
     mkdir_ok := fun _ _ => true |}.

(** ** Environments for the examples of [mount] *)

(** The local machine, as root: the mount point [/mnt/t] exists, the
    data directory does not and cannot be made; every command
    succeeds. *)
Definition no_datadir : OS :=
  {| getuid := 0;
     popen := fun t _ => mkChild (1000 + Z.of_nat t) "" "" 0;
     proc_wait := fun _ _ => 0;
     path_exists := fun _ path => bool_decide (path = "/mnt/t");
     path_isdir := fun _ _ => true;
     mkdir_ok := fun _ _ => false |}.


(** [mount(mtpoint='/mnt/t///')]. *)
Definition slashes_args : MountArgs :=
  {| kw_server := None; kw_nfsversion := None; kw_minorversion := None;
     kw_proto := None; kw_port := None; kw_sec := None; kw_export := None;
     kw_mtpoint := Some "/mnt/t///"; kw_datadir := None; kw_mtopts := None |}.

(** The object once [umount] has logged and made the sync. *)
Definition synced (h : Host) : Host :=
  set_trace
    (trace h ++ [EvDprint (Some "DBG3") "Sync all buffers to disk"; EvSync]) h.

(** ** Routing information as [ip route get] prints it *)

(** Every character of [s] is of the class [p]. *)
Fixpoint all_chars (p : ascii -> bool) (s : string) : bool :=
  match s with
  | EmptyString => true
  | String c s' => p c && all_chars p s'
  end.

(** A word: at least one character, none of them white space. *)
Definition is_word (s : string) : bool :=
  PyStr.nonempty s && all_chars Re.nonspace s.

(** A text at which a word ends: it is empty or begins with white
    space. *)
Definition ends_word (s : string) : bool :=
  match s with
  | EmptyString => true
  | String c _ => Re.space c
  end.

(** The line [<pre> via <gw> dev <dev> src <src><rest>], without its
    [via] clause when there is no gateway. *)
Definition route_line (pre : string) (gw : option string)
    (dev src rest : string) : string :=
  pre
  +:+ match gw with
      | Some g => " via " +:+ g
      | None => ""
      end
  +:+ " dev " +:+ dev +:+ " src " +:+ src +:+ rest.

(** [s.startswith(t)] and [t in s]. *)
Fixpoint starts_with (t s : string) : bool :=
  match t, s with
  | EmptyString, _ => true
  | String a t', String b s' => Ascii.eqb a b && starts_with t' s'
  | String _ _, EmptyString => false
  end.

Fixpoint contains (t s : string) : bool :=
  starts_with t s
  || match s with
     | String _ s' => contains t s'
     | EmptyString => false
     end.



(** * Proofs *)

(** ** Simplification *)

(** Projections of updated objects. *)
Ltac fields :=
  cbn [set_mtpoint set_mtdir set_mounted set_process_list set_process_smap
       set_process_dmap set_checkmtpoint set_invalidmtpoint
       set_mtpoint_created set_need_network_reset set_process set_pstdout
       set_pstderr set_perror set_returncode set_clock set_trace
       host user server nfsversion minorversion proto port sec export
       mtpoint datadir mtopts interface nomount iptables sudo mtdir mounted
       process_list process_smap process_dmap _checkmtpoint _invalidmtpoint
       _mtpoint_created need_network_reset _localhost process pstdout
       pstderr perror returncode clock trace].

(** The plumbing of [M]. *)
Ltac monad :=
  cbv beta iota zeta delta
    [bind upd get ret raise emit tick dprint Popen when fst snd try_pass
     try_except os_path_exists os_path_isdir os_mkdir].

Ltac hsimpl := repeat progress (monad; cbn [negb andb orb]; fields).

(** ** run_cmd *)

Lemma command_line_frame os h h' cmd su :
  user h' = user h -> host h' = host h ->
  _localhost h' = _localhost h -> sudo h' = sudo h ->
  command_line os h' cmd su = command_line os h cmd su.
Proof.
  intros Hu Hh Hl Hs. unfold command_line, sudo_cmd.
  rewrite Hu, Hh, Hl, Hs. reflexivity.
Qed.

Lemma command_line_config os h h' cmd su :
  same_config h h' -> command_line os h' cmd su = command_line os h cmd su.
Proof.
  intros C. unfold same_config in C. apply command_line_frame; tauto.
Qed.

(** A blocking [run_cmd], in one step. *)
Lemma run_cmd_wait os cmd su dlevel msg h :
  run_cmd os cmd su dlevel msg true h =
  (run_outcome (_localhost h) (child_of os h cmd su), ran os cmd su dlevel msg h).
Proof.
  unfold run_cmd, ran, run_outcome, run_payload, run_events, child_of.
  hsimpl.
  rewrite (command_line_frame os h) by reflexivity.
  set (c := popen os _ (command_line os h cmd su)).
  rewrite <- app_assoc. cbn [app].
  destruct (_localhost h) eqn:EL; destruct (c_returncode c =? 0)%Z eqn:E0;
    destruct (c_returncode c =? 255)%Z eqn:E1; cbn [negb]; reflexivity.
Qed.

(** A non-blocking [run_cmd], in one step. *)
Lemma run_cmd_nowait os cmd su dlevel msg h :
  run_cmd os cmd su dlevel msg false h = (Ok RNone, started os cmd su dlevel msg h).
Proof.
  unfold run_cmd, started, run_events.
  hsimpl.
  rewrite (command_line_frame os h) by reflexivity.
  rewrite <- app_assoc. cbn [app].
  destruct su; reflexivity.
Qed.

Lemma ran_config os cmd su dlevel msg h : same_config h (ran os cmd su dlevel msg h).
Proof. repeat split. Qed.

Lemma ran_mounts os cmd su dlevel msg h : same_mounts h (ran os cmd su dlevel msg h).
Proof. repeat split. Qed.

Lemma ran_registry os cmd su dlevel msg h : same_registry h (ran os cmd su dlevel msg h).
Proof. repeat split. Qed.

Lemma started_config os cmd su dlevel msg h : same_config h (started os cmd su dlevel msg h).
Proof. repeat split. Qed.

Lemma started_mounts os cmd su dlevel msg h : same_mounts h (started os cmd su dlevel msg h).
Proof. repeat split. Qed.

Lemma run_cmd_config os cmd su dlevel msg w h :
  same_config h (snd (run_cmd os cmd su dlevel msg w h)).
Proof.
  destruct w; [rewrite run_cmd_wait | rewrite run_cmd_nowait]; repeat split.
Qed.

Lemma run_cmd_mounts os cmd su dlevel msg w h :
  same_mounts h (snd (run_cmd os cmd su dlevel msg w h)).
Proof.
  destruct w; [rewrite run_cmd_wait | rewrite run_cmd_nowait]; repeat split.
Qed.

(** ** Laws of the plumbing, for rewriting *)

Lemma bind_ret {A B} (a : A) (k : A -> M B) h : bind (ret a) k h = k a h.
Proof. reflexivity. Qed.

Lemma bind_get {B} (k : Host -> M B) h : bind get k h = k h h.
Proof. reflexivity. Qed.

Lemma bind_upd {B} f (k : unit -> M B) h : bind (upd f) k h = k tt (f h).
Proof. reflexivity. Qed.

Lemma bind_emit {B} e (k : unit -> M B) h :
  bind (emit e) k h = k tt (set_trace (trace h ++ [e]) h).
Proof. reflexivity. Qed.

Lemma bind_tick {B} (k : nat -> M B) h :
  bind tick k h = k (clock h) (set_clock (S (clock h)) h).
Proof. reflexivity. Qed.

Lemma bind_raise {A B} e (k : A -> M B) h : bind (raise e) k h = (Raise e, h).
Proof. reflexivity. Qed.

Lemma bind_bind {A B C} (m : M A) (k : A -> M B) (k' : B -> M C) h :
  bind (bind m k) k' h = bind m (fun a => bind (k a) k') h.
Proof. unfold bind. destruct (m h) as [[a|e] h']; reflexivity. Qed.

Lemma bind_try_pass {A B} (m : M A) (k : unit -> M B) h :
  bind (try_pass m) k h = k tt (snd (m h)).
Proof. reflexivity. Qed.

Lemma bind_run_cmd_wait {B} os cmd su dlevel msg (k : RunResult -> M B) h :
  bind (run_cmd os cmd su dlevel msg true) k h =
  match run_outcome (_localhost h) (child_of os h cmd su) with
  | Ok a => k a (ran os cmd su dlevel msg h)
  | Raise e => (Raise e, ran os cmd su dlevel msg h)
  end.
Proof. unfold bind. rewrite run_cmd_wait. reflexivity. Qed.

(** C1.  A blocking [run_cmd] records the two pipes and the exit status
    of its child, and then: on exit status zero it returns the standard
    output; on the local host a non-zero status raises with the standard
    error, which is also what [perror] records; on a remote host status
    255 raises with the standard error, and any other non-zero status
    raises with the standard output, which is also what [perror]
    records. *)
Theorem run_cmd_blocking_outcome os self cmd su dlevel msg :
  let child := child_of os self cmd su in
  let r := run_cmd os cmd su dlevel msg true self in
  (pstdout (snd r) = c_stdout child
   /\ pstderr (snd r) = c_stderr child
   /\ returncode (snd r) = c_returncode child)
  /\ (c_returncode child = 0 -> fst r = Ok (RStdout (c_stdout child)))
  /\ (_localhost self = true -> c_returncode child <> 0 ->
      fst r = Raise (Exception (c_stderr child))
      /\ perror (snd r) = c_stderr child)
  /\ (_localhost self = false -> c_returncode child = 255 ->
      fst r = Raise (Exception (c_stderr child)))
  /\ (_localhost self = false -> c_returncode child <> 0 ->
      c_returncode child <> 255 ->
      fst r = Raise (Exception (c_stdout child))
      /\ perror (snd r) = c_stdout child).
Proof.
  intros child r. subst r. rewrite run_cmd_wait. fold child.
  cbn [fst snd]. unfold ran, run_outcome, run_payload. fields.
  fold (child_of os self cmd su). fold child.
  split; [auto|].
  split; [intros ->; destruct (_localhost self); reflexivity|].
  split.
  { intros -> Hrc. apply Z.eqb_neq in Hrc. rewrite Hrc. auto. }
  split.
  { intros -> Hrc. rewrite Hrc. reflexivity. }
  intros -> H0 H255. apply Z.eqb_neq in H0, H255. rewrite H0, H255. auto.
Qed.

(** C1, on a local machine: [false] exits with status 1 and the text
    [boom] on its standard error. *)
Example run_cmd_local_failure :
  let os := scripted 0 [exits 1 "" "boom"] (exits 0 "" "") 0 true true in
  let r := run_cmd os "false" false (Some "DBG1") "" true local_host in
  fst r = Raise (Exception "boom") /\ perror (snd r) = "boom".
Proof. vm_compute. auto. Qed.

(** C10.  On a remote host, a blocking [run_cmd] whose child exits with
    status 255 raises with the standard error and leaves [perror] the
    empty string it was set to when the call began; a local failure
    records the standard error there and any other remote failure the
    standard output. *)
Theorem run_cmd_ssh_failure_perror os self cmd su dlevel msg :
  _localhost self = false ->
  c_returncode (child_of os self cmd su) = 255 ->
  let r := run_cmd os cmd su dlevel msg true self in
  fst r = Raise (Exception (c_stderr (child_of os self cmd su)))
  /\ perror (snd r) = ""
  /\ pstderr (snd r) = c_stderr (child_of os self cmd su).
Proof.
  intros Hl Hrc r. subst r. rewrite run_cmd_wait. cbn [fst snd].
  unfold ran, run_outcome, run_payload. fields.
  fold (child_of os self cmd su). rewrite Hl, Hrc. auto.
Qed.

Lemma run_cmd_ssh_failure_perror_witness :
  let os := scripted 500 [exits 255 "" "ssh: connect to host 192.168.0.11 port 22: Connection refused"]
              (exits 0 "" "") 0 true true in
  let r := run_cmd os "ls -l" false (Some "DBG1") "" true remote_host in
  fst r = Raise (Exception "ssh: connect to host 192.168.0.11 port 22: Connection refused")
  /\ perror (snd r) = ""
  /\ pstderr (snd r) = "ssh: connect to host 192.168.0.11 port 22: Connection refused".
Proof.
  exact (run_cmd_ssh_failure_perror
           (scripted 500 [exits 255 "" "ssh: connect to host 192.168.0.11 port 22: Connection refused"]
              (exits 0 "" "") 0 true true)
           remote_host "ls -l" false (Some "DBG1") "" eq_refl eq_refl).
Defined.

(** C6, as the code has it.  A non-blocking [run_cmd] returns [None]; the
    handle of the child is left in the attribute [process].  It does not
    wait: no output is read and the recorded exit status stays 0.  The
    handle is appended to [process_list], its process id is mapped to the
    debug level in [process_dmap], and to 1 in [process_smap] when the
    command was started with sudo; [process_smap] is otherwise left as
    it was. *)
Theorem run_cmd_nonblocking os self cmd su dlevel msg :
  let r := run_cmd os cmd su dlevel msg false self in
  let p := mkProc (clock self) (c_pid (child_of os self cmd su)) in
  fst r = Ok RNone
  /\ process (snd r) = Some p
  /\ process_list (snd r) = process_list self ++ [p]
  /\ process_dmap (snd r) = <[pid p := dlevel]> (process_dmap self)
  /\ process_smap (snd r) =
       (if su then <[pid p := 1]> (process_smap self) else process_smap self)
  /\ pstdout (snd r) = "" /\ pstderr (snd r) = "" /\ returncode (snd r) = 0
  /\ trace (snd r) =
       trace self ++ run_events dlevel msg (command_line os self cmd su).
Proof.
  intros r p. subst r. rewrite run_cmd_nowait. cbn [fst snd].
  unfold started. fields. repeat split.
Qed.

(** C6 as stated fails: started in the background, [tcpdump] makes
    [run_cmd] return [None], not a handle; the handle is the attribute
    [process]. *)
Lemma run_cmd_nonblocking_returns_none :
  let os := scripted 500 [] (exits 0 "" "") 0 true true in
  let r := run_cmd os "tcpdump" true (Some "DBG1") "" false local_host in
  fst r = Ok RNone /\ process (snd r) = Some (mkProc 0 1000).
Proof. vm_compute. auto. Qed.



Section Keeps.

Context (R : relation Host) `{!PreOrder R}.

Lemma keeps_ret {A} (a : A) : keeps R (ret a).
Proof. intros h. reflexivity. Qed.

Lemma keeps_raise {A} e : keeps R (@raise A e).
Proof. intros h. reflexivity. Qed.

Lemma keeps_get : keeps R get.
Proof. intros h. reflexivity. Qed.

Lemma keeps_upd f : (forall h, R h (f h)) -> keeps R (upd f).
Proof. intros H h. apply H. Qed.

Lemma keeps_bind {A B} (m : M A) (k : A -> M B) :
  keeps R m -> (forall a, keeps R (k a)) -> keeps R (bind m k).
Proof.
  intros Hm Hk h. unfold bind. specialize (Hm h).
  destruct (m h) as [[a|e] h']; cbn [snd] in *; [|assumption].
  etransitivity; [eassumption | apply Hk].
Qed.

Lemma keeps_try_pass {A} (m : M A) : keeps R m -> keeps R (try_pass m).
Proof. intros Hm h. apply Hm. Qed.

Lemma keeps_try_except {A} (m handler : M A) :
  keeps R m -> keeps R handler -> keeps R (try_except m handler).
Proof.
  intros Hm Hh h. unfold try_except. specialize (Hm h).
  destruct (m h) as [[a|e] h']; cbn [snd] in *; [assumption|].
  etransitivity; [eassumption | apply Hh].
Qed.

Lemma keeps_when b m : keeps R m -> keeps R (when b m).
Proof. intros Hm. destruct b; [assumption | apply keeps_ret]. Qed.

Lemma keeps_for_each {A} (l : list A) body :
  (forall x, keeps R (body x)) -> keeps R (for_each l body).
Proof.
  intros Hb. induction l as [|x l IH]; cbn [for_each].
  - apply keeps_ret.
  - apply keeps_bind; [apply Hb | intros _; exact IH].
Qed.

End Keeps.



#[local] Instance same_config_preorder : PreOrder same_config.
Proof.
  split.
  - intros h. repeat split.
  - intros a b c H1 H2. unfold same_config in *.
    repeat match goal with H : _ /\ _ |- _ => destruct H end.
    repeat split; congruence.
Qed.

#[local] Instance same_mounts_preorder : PreOrder same_mounts.
Proof.
  split.
  - intros h. repeat split.
  - intros a b c H1 H2. unfold same_mounts in *.
    repeat match goal with H : _ /\ _ |- _ => destruct H end.
    repeat split; congruence.
Qed.

#[local] Instance checked_grows_preorder : PreOrder checked_grows.
Proof.
  split.
  - intros h p Hp. exact Hp.
  - intros a b c H1 H2 p Hp. apply H2, H1, Hp.
Qed.

Lemma same_mounts_checked h h' : same_mounts h h' -> checked_grows h h'.
Proof. intros (_ & _ & _ & E & _) p Hp. rewrite E. exact Hp. Qed.



Lemma quiet_same_config : quiet same_config.
Proof. intros h h' C _. exact C. Qed.

Lemma quiet_same_mounts : quiet same_mounts.
Proof. intros h h' _ S. exact S. Qed.

Lemma quiet_checked_grows : quiet checked_grows.
Proof. intros h h' _ S. apply same_mounts_checked, S. Qed.

Section Frames.

Context (os : OS) (R : relation Host) `{!PreOrder R} (Q : quiet R).

Ltac quiet_step := apply Q; repeat split.

Lemma keeps_emit e : keeps R (emit e).
Proof. apply keeps_upd. intros h. quiet_step. Qed.

Lemma keeps_tick : keeps R tick.
Proof. intros h. quiet_step. Qed.

Lemma keeps_dprint d t : keeps R (dprint d t).
Proof. apply keeps_emit. Qed.

Lemma keeps_run_cmd cmd su dlevel msg w : keeps R (run_cmd os cmd su dlevel msg w).
Proof.
  intros h. apply Q; [apply run_cmd_config | apply run_cmd_mounts].
Qed.

Lemma keeps_os_path_exists p : keeps R (os_path_exists os p).
Proof. intros h. quiet_step. Qed.

Lemma keeps_os_path_isdir p : keeps R (os_path_isdir os p).
Proof. intros h. quiet_step. Qed.

Lemma keeps_os_mkdir p mode : keeps R (os_mkdir os p mode).
Proof.
  intros h. unfold os_mkdir. hsimpl.
  destruct (mkdir_ok os (clock h) p); quiet_step.
Qed.

End Frames.



Lemma lax_quiet R : lax R -> quiet R.
Proof. intros L h h' C S. apply L; [exact C | apply same_mounts_checked, S]. Qed.

Lemma lax_same_config : lax same_config.
Proof. intros h h' C _. exact C. Qed.

Lemma lax_checked_grows : lax checked_grows.
Proof. intros h h' _ G. exact G. Qed.

(** One step of a proof that a method body keeps a relation. *)
Ltac keeps_step Q :=
  lazymatch goal with
  | |- keeps _ (ret _) => apply keeps_ret; typeclasses eauto
  | |- keeps _ (raise _) => apply keeps_raise; typeclasses eauto
  | |- keeps _ get => apply keeps_get; typeclasses eauto
  | |- keeps _ (run_cmd _ _ _ _ _ _) => apply (keeps_run_cmd _ _ Q)
  | |- keeps _ (dprint _ _) => apply (keeps_dprint _ Q)
  | |- keeps _ (emit _) => apply (keeps_emit _ Q)
  | |- keeps _ tick => apply (keeps_tick _ Q)
  | |- keeps _ (os_path_exists _ _) => apply (keeps_os_path_exists _ _ Q)
  | |- keeps _ (os_path_isdir _ _) => apply (keeps_os_path_isdir _ _ Q)
  | |- keeps _ (os_mkdir _ _ _) => apply (keeps_os_mkdir _ _ Q)
  | |- keeps _ (try_pass _) => apply keeps_try_pass
  | |- keeps _ (when _ _) => apply keeps_when; [typeclasses eauto|]
  | |- keeps _ (try_except _ _) => apply keeps_try_except; [typeclasses eauto| |]
  | |- keeps _ (for_each _ _) => apply keeps_for_each; [typeclasses eauto|]; intros ?
  | |- keeps _ (bind _ _) => apply keeps_bind; [typeclasses eauto| |intros ?]
  | |- keeps _ (if ?b then _ else _) => destruct b
  | |- keeps _ (match ?x with _ => _ end) => destruct x
  end.

(** An assignment that a relation respects. *)
Ltac keeps_assign tac :=
  lazymatch goal with
  | |- keeps _ (upd _) => apply keeps_upd; intros ?; tac
  end.

Section MethodFrames.

Context (os : OS) (R : relation Host) `{!PreOrder R} (Q : quiet R).

Lemma keeps_wait_loop plist terminate dlevel msg out :
  keeps R (wait_loop os plist terminate dlevel msg out).
Proof.
  revert dlevel out.
  induction plist as [|proc plist IH]; intros dlevel out; cbn [wait_loop].
  - apply keeps_ret; typeclasses eauto.
  - apply keeps_bind; [typeclasses eauto|apply keeps_get; typeclasses eauto|].
    intros self. destruct (bool_decide _); [|apply IH].
    repeat first
      [ apply IH
      | keeps_assign ltac:(apply Q; repeat split)
      | keeps_step Q ].
Qed.

Lemma keeps_wait_cmd p terminate dlevel msg :
  keeps R (wait_cmd os p terminate dlevel msg).
Proof.
  unfold wait_cmd.
  apply keeps_bind; [typeclasses eauto|apply keeps_get; typeclasses eauto|].
  intros self. apply keeps_wait_loop.
Qed.

Lemma keeps_stop_cmd p dlevel msg : keeps R (stop_cmd os p dlevel msg).
Proof. apply keeps_wait_cmd. Qed.

Lemma keeps_probe_mtpoint p : keeps R (probe_mtpoint os p).
Proof. unfold probe_mtpoint. repeat keeps_step Q. Qed.

Lemma keeps_create_datadir : keeps R (create_datadir os).
Proof. unfold create_datadir. repeat keeps_step Q. Qed.

Lemma keeps_network_reset : keeps R (network_reset os).
Proof. unfold network_reset. repeat keeps_step Q. Qed.

Lemma keeps_get_route ip : keeps R (get_route os ip).
Proof. unfold get_route. repeat keeps_step Q. Qed.

(** The retry loop of [umount] touches [mounted] and nothing else of
    the bookkeeping. *)
Lemma keeps_umount_loop_quiet n cmd :
  (forall h b, R h (set_mounted b h)) -> keeps R (umount_loop os n cmd).
Proof.
  intros Hm. induction n as [|n IH]; cbn [umount_loop].
  - apply keeps_ret; typeclasses eauto.
  - repeat first
      [ apply IH | keeps_assign ltac:(apply Hm) | keeps_step Q ].
Qed.

End MethodFrames.

Section MountFrames.

Context (os : OS) (R : relation Host) `{!PreOrder R} (L : lax R).

Let Q : quiet R := lax_quiet R L.

Ltac lax_upd :=
  keeps_assign
    ltac:(apply L;
          [ repeat split
          | intros ? ?; fields; rewrite ?elem_of_app; auto ]).

Lemma keeps_check_mtpoint p : keeps R (_check_mtpoint os p).
Proof.
  unfold _check_mtpoint.
  repeat first [ lax_upd | apply (keeps_probe_mtpoint os R Q) | keeps_step Q ].
Qed.

Lemma keeps_umount_loop n cmd : keeps R (umount_loop os n cmd).
Proof.
  apply (keeps_umount_loop_quiet os R Q).
  intros h b. apply L; [repeat split | intros ? ?; assumption].
Qed.

Lemma keeps_umount : keeps R (umount os).
Proof.
  unfold umount.
  repeat first
    [ apply keeps_umount_loop | apply keeps_check_mtpoint | keeps_step Q ].
Qed.

Lemma keeps_mount kwargs : keeps R (mount os kwargs).
Proof.
  unfold mount.
  repeat first
    [ lax_upd | apply keeps_check_mtpoint
    | apply (keeps_create_datadir os R Q) | keeps_step Q ].
Qed.

Lemma keeps_network_drop ip port : keeps R (network_drop os ip port).
Proof. unfold network_drop. repeat first [ lax_upd | keeps_step Q ]. Qed.

Lemma keeps_call c : forall h, R h (call os c h).
Proof.
  destruct c; cbn [call].
  - apply (keeps_run_cmd os R Q).
  - apply (keeps_wait_cmd os R Q).
  - apply (keeps_stop_cmd os R Q).
  - apply keeps_check_mtpoint.
  - apply keeps_mount.
  - apply keeps_umount.
  - apply keeps_network_drop.
  - apply (keeps_network_reset os R Q).
  - apply (keeps_get_route os R Q).
Qed.

Lemma keeps_session calls : forall h, R h (session os calls h).
Proof.
  unfold session. induction calls as [|c calls IH]; intros h; cbn [fold_left].
  - reflexivity.
  - etransitivity; [apply keeps_call | apply IH].
Qed.

End MountFrames.

(** ** _check_mtpoint *)

(** A path already checked: the method returns at once. *)
Lemma check_mtpoint_checked os p h :
  p ∈ _checkmtpoint h -> _check_mtpoint os p h = (Ok tt, h).
Proof.
  intros Hp. unfold _check_mtpoint, bind, get.
  rewrite bool_decide_eq_true_2 by exact Hp. reflexivity.
Qed.



Lemma check_mtpoint_unchecked os p h :
  p ∉ _checkmtpoint h -> _check_mtpoint os p h = check_fresh os p h.
Proof.
  intros Hp. unfold _check_mtpoint, check_fresh.
  unfold bind at 1. unfold get at 1. cbv beta iota.
  rewrite bool_decide_eq_false_2 by exact Hp. reflexivity.
Qed.

Lemma check_mtpoint_records os p h : p ∈ _checkmtpoint (snd (_check_mtpoint os p h)).
Proof.
  destruct (decide (p ∈ _checkmtpoint h)) as [Hp|Hp].
  - rewrite check_mtpoint_checked by exact Hp. exact Hp.
  - rewrite check_mtpoint_unchecked by exact Hp.
    unfold check_fresh. unfold bind at 1. unfold upd at 1. cbv beta iota.
    match goal with
    | |- _ ∈ _checkmtpoint (snd (?k ?h0)) =>
        assert (K : keeps checked_grows k); [|apply (K h0)]
    end.
    + pose proof quiet_checked_grows as Q.
      repeat first
        [ apply (keeps_probe_mtpoint os _ Q)
        | keeps_assign ltac:(intros ? ?; fields; rewrite ?elem_of_app; auto)
        | keeps_step Q ].
    + fields. rewrite elem_of_app, list_elem_of_singleton. auto.
Qed.

(** C5.  Once [_check_mtpoint] has been called for a path, whatever the
    outcome of that call and whatever methods are called afterwards, in
    whatever environments, a further call for the same path returns at
    once: it leaves the object, its clock and its trace as they are, so
    it probes nothing, creates nothing and raises nothing. *)
Theorem check_mtpoint_once os os' os'' self p calls :
  let h1 := snd (_check_mtpoint os p self) in
  let h2 := session os' calls h1 in
  p ∈ _checkmtpoint h1
  /\ _check_mtpoint os'' p h2 = (Ok tt, h2).
Proof.
  intros h1 h2.
  assert (H1 : p ∈ _checkmtpoint h1) by apply check_mtpoint_records.
  split; [exact H1|].
  apply check_mtpoint_checked.
  apply (keeps_session os' checked_grows lax_checked_grows calls h1 p H1).
Qed.

(** The probes never raise, and touch neither the configuration nor the
    mount bookkeeping. *)
Lemma probe_mtpoint_ok os p h :
  exists exist isdir hp,
    probe_mtpoint os p h = (Ok (exist, isdir), hp)
    /\ same_config h hp /\ same_mounts h hp.
Proof.
  pose proof (keeps_probe_mtpoint os same_config quiet_same_config p h) as C.
  pose proof (keeps_probe_mtpoint os same_mounts quiet_same_mounts p h) as S.
  revert C S. unfold probe_mtpoint. hsimpl.
  destruct (_localhost h).
  - destruct (path_exists os (clock h) p); intros C S; eauto 10.
  - rewrite !run_cmd_wait. hsimpl.
    match goal with |- context [if ?b then _ else _] => destruct b end.
    + rewrite !run_cmd_wait. hsimpl. intros C S. eauto 10.
    + intros C S. eauto 10.
Qed.

(** [_check_mtpoint] on a path not yet checked, case by case. *)
Lemma check_fresh_cases os p h :
  let h0 := set_checkmtpoint (_checkmtpoint h ++ [p]) h in
  let mk := "mkdir -p " +:+ p in
  let announce := "Creating mount point directory: " in
  exists exist isdir hp,
    probe_mtpoint os p h0 = (Ok (exist, isdir), hp)
    /\ same_config h0 hp /\ same_mounts h0 hp
    /\ check_fresh os p h =
       if negb exist then
         match run_outcome (_localhost hp) (child_of os hp mk true) with
         | Ok _ =>
             (Ok tt,
              set_mtpoint_created (_mtpoint_created h ++ [p])
                (ran os mk true (Some "DBG3") announce hp))
         | Raise e => (Raise e, ran os mk true (Some "DBG3") announce hp)
         end
       else if negb isdir then
         (Raise (Exception ("Mount point " +:+ p +:+ " is not a directory")),
          set_invalidmtpoint (_invalidmtpoint h ++ [p]) hp)
       else (Ok tt, hp).
Proof.
  intros h0 mk announce.
  destruct (probe_mtpoint_ok os p h0) as (e & d & hp & Hp & C & S).
  exists e, d, hp. repeat split; try assumption; try apply C; try apply S.
  unfold check_fresh. unfold bind at 1. unfold upd at 1. cbv beta iota.
  fold h0. unfold bind at 1. rewrite Hp. cbn [fst snd].
  destruct S as (_ & _ & _ & _ & Si & Sc & _).
  destruct e; cbn [negb].
  - destruct d; cbn [negb]; [reflexivity|].
    unfold bind, upd, raise. rewrite Si. reflexivity.
  - unfold bind. rewrite run_cmd_wait. fold mk announce.
    destruct (run_outcome _ _); [|reflexivity].
    unfold upd.
    change (_mtpoint_created (ran os mk true (Some "DBG3") announce hp))
      with (_mtpoint_created hp).
    rewrite Sc. reflexivity.
Qed.

(** What [_check_mtpoint] never touches, and what it leaves alone when
    it returns. *)
Lemma check_mtpoint_frame os p h :
  let r := _check_mtpoint os p h in
  same_config h (snd r)
  /\ mtpoint (snd r) = mtpoint h /\ mtdir (snd r) = mtdir h
  /\ mounted (snd r) = mounted h
  /\ (forall u, fst r = Ok u -> _invalidmtpoint (snd r) = _invalidmtpoint h).
Proof.
  intros r. subst r.
  destruct (decide (p ∈ _checkmtpoint h)) as [Hp|Hp].
  { rewrite check_mtpoint_checked by exact Hp. cbn [fst snd].
    repeat split. }
  rewrite check_mtpoint_unchecked by exact Hp.
  destruct (check_fresh_cases os p h) as (e & d & hp & _ & C & S & ->).
  destruct S as (S1 & S2 & S3 & S4 & S5 & S6 & S7).
  assert (C' : same_config h hp) by exact C.
  assert (Frame : mtpoint hp = mtpoint h /\ mtdir hp = mtdir h
                  /\ mounted hp = mounted h).
  { split; [exact S1|]. split; [exact S2 | exact S3]. }
  destruct e; cbn [negb].
  - destruct d; cbn [negb fst snd].
    + split; [exact C'|]. repeat split; try apply Frame. intros _ _. exact S5.
    + split; [exact C'|]. repeat split; try apply Frame.
      intros u Hu. discriminate Hu.
  - destruct (run_outcome _ _); cbn [fst snd].
    + split; [exact C'|]. repeat split; try apply Frame. intros _ _. exact S5.
    + split; [exact C'|]. repeat split; try apply Frame.
      intros u Hu. discriminate Hu.
Qed.

(** ** umount *)





Lemma umount_loop_step os n cmd h :
  umount_loop os (S n) cmd h =
  if umount_done (umount_attempt os cmd h)
  then (Ok tt, set_mounted false (umount_attempt os cmd h))
  else umount_loop os n cmd (umount_logged (umount_attempt os cmd h)).
Proof.
  cbn [umount_loop]. unfold umount_attempt, umount_logged.
  unfold bind at 1. unfold emit at 1, upd at 1. cbv beta iota.
  unfold bind at 1. unfold try_pass at 1. rewrite run_cmd_wait.
  cbn [fst snd]. unfold bind at 1. unfold get at 1. cbv beta iota.
  destruct (umount_done _); [reflexivity|].
  unfold bind, dprint, emit, upd. reflexivity.
Qed.

Lemma umount_loop_runs os cmd n :
  forall h,
    let cl := command_line os h cmd true in
    exists posts evs final,
      umount_loop os n cmd h = (Ok tt, final)
      /\ (length posts <= n)%nat
      /\ (n <> O -> posts <> [])
      /\ trace final = trace h ++ evs
      /\ attempts cl (length posts) evs
      /\ (forall i s, posts !! i = Some s ->
            returncode s = c_returncode (popen os (clock h + i) cl)
            /\ perror s = run_payload (_localhost h) (popen os (clock h + i) cl)
            /\ (S i < length posts -> umount_done s = false)%nat)
      /\ (forall s, last posts = Some s ->
            umount_done s = true /\ mounted final = false
            \/ length posts = n /\ umount_done s = false
               /\ mounted final = mounted h).
Proof.
  induction n as [|n IH]; intros h cl.
  - exists [], [], h. cbn [umount_loop length]. unfold ret.
    split; [reflexivity|]. split; [lia|]. split; [intros H; elim H; reflexivity|].
    split; [rewrite app_nil_r; reflexivity|]. split; [constructor|].
    split; intros; discriminate.
  - rewrite umount_loop_step.
    set (a := umount_attempt os cmd h).
    assert (Ha : returncode a = c_returncode (popen os (clock h) cl)
                 /\ perror a = run_payload (_localhost h) (popen os (clock h) cl)).
    { split; reflexivity. }
    destruct (umount_done a) eqn:Hd.
    + exists [a], (EvSleep 1 :: run_events (Some "DBG2") "Unmount volume: " cl ++ [] ++ []),
        (set_mounted false a).
      split; [reflexivity|]. split; [cbn; lia|]. split; [discriminate|].
      split.
      { subst a. unfold umount_attempt, ran. fields.
        rewrite <- app_assoc. reflexivity. }
      split; [apply attempts_more; constructor|].
      split.
      { intros i s Hi. destruct i as [|i]; [|discriminate Hi].
        injection Hi as <-. rewrite Nat.add_0_r.
        split; [apply Ha|]. split; [apply Ha|]. cbn. lia. }
      intros s Hs. injection Hs as <-. left. split; [exact Hd | reflexivity].
    + destruct (IH (umount_logged a)) as (posts & evs & final & Hrun & Hlen & Hne
                                         & Htr & Hatt & Hposts & Hlast).
      change (command_line os (umount_logged a) cmd true) with cl in *.
      exists (a :: posts),
        (EvSleep 1 :: run_events (Some "DBG2") "Unmount volume: " cl
           ++ [EvDprint (Some "DBG2") (perror a)] ++ evs),
        final.
      split; [exact Hrun|]. split; [cbn; lia|]. split; [discriminate|].
      split.
      { rewrite Htr. subst a. unfold umount_logged, umount_attempt, ran. fields.
        rewrite <- !app_assoc. reflexivity. }
      split.
      { cbn [length]. apply attempts_more; [|exact Hatt].
        constructor; [exact I | constructor]. }
      split.
      { intros i s Hi. destruct i as [|i].
        - injection Hi as <-. rewrite Nat.add_0_r.
          split; [apply Ha|]. split; [apply Ha|]. intros _. exact Hd.
        - cbn in Hi. destruct (Hposts i s Hi) as (H1 & H2 & H3).
          change (clock (umount_logged a)) with (S (clock h)) in H1, H2.
          change (_localhost (umount_logged a)) with (_localhost h) in H2.
          replace (clock h + S i)%nat with (S (clock h) + i)%nat by lia.
          split; [exact H1|]. split; [exact H2|].
          cbn [length]. intros Hlt. apply H3. lia. }
      intros s Hs.
      destruct posts as [|s0 posts'].
      * destruct n as [|n']; [|exfalso; apply Hne; [discriminate | reflexivity]].
        injection Hs as <-. right. cbn [length].
        split; [reflexivity|]. split; [exact Hd|].
        cbn [umount_loop] in Hrun. injection Hrun as <-. reflexivity.
      * change (last (a :: s0 :: posts')) with (last (s0 :: posts')) in Hs.
        destruct (Hlast s Hs) as [[H1 H2]|(H1 & H2 & H3)].
        -- left. split; assumption.
        -- right. cbn [length] in *. split; [lia|]. split; [exact H2|].
           rewrite H3. reflexivity.
Qed.

(** C2.  A call of [umount] with [nomount] unset, for a mount point not
    recorded invalid.  If the check of the mount point raises, so does
    [umount], before any attempt.  Otherwise [umount] returns normally,
    having logged and synced and then made between one and five
    attempts at the forced unmount command, each right after a sleep of
    one second.  [posts] are the objects as each attempt left them: the
    exit status and error text they record are those of the child of
    that attempt; every attempt but the last failed, that is, its exit
    status is not zero and its error text does not match
    [not (mounted|found)]; and either the last one succeeded and
    [mounted] is now false, or there were five, the last failed too, and
    [mounted] is as it was. *)
Theorem umount_retries os self :
  nomount self = false ->
  mtpoint self ∉ _invalidmtpoint self ->
  let chk := _check_mtpoint os (mtpoint self) self in
  let h1 := snd chk in
  let cl := command_line os self ("umount -f " +:+ mtpoint self) true in
  match fst chk with
  | Raise e => umount os self = (Raise e, h1)
  | Ok _ =>
      exists (posts : list Host) (evs : list Event) (final : Host),
        umount os self = (Ok tt, final)
        /\ (1 <= length posts <= 5)%nat
        /\ trace final =
             trace h1
             ++ [EvDprint (Some "DBG3") "Sync all buffers to disk"; EvSync]
             ++ evs
        /\ attempts cl (length posts) evs
        /\ (forall i s, posts !! i = Some s ->
              returncode s = c_returncode (popen os (clock h1 + i) cl)
              /\ perror s =
                   run_payload (_localhost self) (popen os (clock h1 + i) cl)
              /\ (S i < length posts -> umount_done s = false)%nat)
        /\ (exists s, last posts = Some s
              /\ (umount_done s = true /\ mounted final = false
                  \/ length posts = 5%nat /\ umount_done s = false
                     /\ mounted final = mounted self))
  end.
Proof.
  intros Hnm Hinv chk h1 cl.
  destruct (check_mtpoint_frame os (mtpoint self) self)
    as (C & Hmt & _ & Hmd & Hi).
  fold chk in C, Hmt, Hmd, Hi. fold h1 in C, Hmt, Hmd, Hi.
  assert (Hum : umount os self =
                match fst chk with
                | Raise e => (Raise e, h1)
                | Ok _ =>
                    umount_loop os 5 ("umount -f " +:+ mtpoint self)
                      (set_trace
                         (trace h1 ++
                          [EvDprint (Some "DBG3") "Sync all buffers to disk";
                           EvSync]) h1)
                end).
  { unfold umount. unfold bind at 1. unfold get at 1. cbv beta iota.
    rewrite Hnm. unfold bind at 1. fold chk.
    subst h1. destruct chk as [[u|e] h1']; cbn [fst snd] in *; [|reflexivity].
    unfold bind at 1. unfold get at 1. cbv beta iota.
    rewrite Hmt, (Hi u eq_refl).
    rewrite bool_decide_eq_false_2 by exact Hinv.
    unfold bind, dprint, emit, upd. fields.
    rewrite <- app_assoc. reflexivity. }
  destruct (fst chk) as [u|e]; [|exact Hum].
  set (h2 := set_trace _ h1) in Hum.
  destruct (umount_loop_runs os ("umount -f " +:+ mtpoint self) 5 h2)
    as (posts & evs & final & Hrun & Hlen & Hne & Htr & Hatt & Hposts & Hlast).
  assert (Hcl : command_line os h2 ("umount -f " +:+ mtpoint self) true = cl).
  { apply command_line_config. exact C. }
  rewrite Hcl in Hatt, Hposts.
  assert (Hloc : _localhost h2 = _localhost self) by apply C.
  exists posts, evs, final.
  split; [rewrite Hum; exact Hrun|].
  assert (Hpos : posts <> []) by (apply Hne; discriminate).
  split.
  { split; [|exact Hlen]. destruct posts; [congruence | cbn; lia]. }
  split; [rewrite Htr; subst h2; fields; rewrite <- app_assoc; reflexivity|].
  split; [exact Hatt|].
  split.
  { intros i s Hi'. destruct (Hposts i s Hi') as (H1 & H2 & H3).
    rewrite Hloc in H2. auto. }
  destruct (last posts) as [s|] eqn:Hs.
  - exists s. split; [reflexivity|].
    destruct (Hlast s eq_refl) as [?|(H1 & H2 & H3)]; [left; assumption|].
    right. split; [exact H1|]. split; [exact H2|].
    rewrite H3. exact Hmd.
  - apply last_None in Hs. congruence.
Qed.

(** The criterion of [umount], spelled out. *)
Lemma umount_done_iff s :
  umount_done s = true <->
  returncode s = 0 \/ is_Some (Re.search re_not_mounted 1 (perror s)).
Proof.
  unfold umount_done. rewrite orb_true_iff, Z.eqb_eq, bool_decide_eq_true.
  reflexivity.
Qed.

Lemma umount_retries_witness :
  let os := umount_fifth_time in
  let self := set_mounted true local_host in
  let h1 := snd (_check_mtpoint os (mtpoint self) self) in
  let cl := command_line os self ("umount -f " +:+ mtpoint self) true in
  exists (posts : list Host) (evs : list Event) (final : Host),
    umount os self = (Ok tt, final)
    /\ (1 <= length posts <= 5)%nat
    /\ trace final =
         trace h1
         ++ [EvDprint (Some "DBG3") "Sync all buffers to disk"; EvSync]
         ++ evs
    /\ attempts cl (length posts) evs
    /\ (forall i s, posts !! i = Some s ->
          returncode s = c_returncode (popen os (clock h1 + i) cl)
          /\ perror s =
               run_payload (_localhost self) (popen os (clock h1 + i) cl)
          /\ (S i < length posts -> umount_done s = false)%nat)
    /\ (exists s, last posts = Some s
          /\ (umount_done s = true /\ mounted final = false
              \/ length posts = 5%nat /\ umount_done s = false
                 /\ mounted final = mounted self)).
Proof.
  exact (umount_retries umount_fifth_time (set_mounted true local_host)
           eq_refl (not_elem_of_nil _)).
Defined.

(** C2, on the example of the specification: the command fails four
    times and succeeds the fifth; [umount] returns, [mounted] is false,
    and the trace shows five sleeps and five spawns. *)
Example umount_fifth_attempt :
  let r := umount umount_fifth_time (set_mounted true local_host) in
  fst r = Ok tt
  /\ mounted (snd r) = false
  /\ length (filter (fun e => bool_decide (e = EvSleep 1)) (trace (snd r))) = 5%nat
  /\ length (filter (fun e => bool_decide (e = EvPopen "umount -f /mnt/t"))
               (trace (snd r))) = 5%nat.
Proof. vm_compute. auto. Qed.

(** C2: when the command keeps failing, [umount] still returns, after
    five attempts, and [mounted] stays true. *)
Example umount_never :
  let os := scripted 0 [] (exits 32 "" "umount: /mnt/t: target is busy") 0 true true in
  let r := umount os (set_mounted true local_host) in
  fst r = Ok tt
  /\ mounted (snd r) = true
  /\ length (filter (fun e => bool_decide (e = EvPopen "umount -f /mnt/t"))
               (trace (snd r))) = 5%nat.
Proof. vm_compute. auto. Qed.

(** C2: an error text saying the path is not mounted counts as success. *)
Example umount_not_mounted :
  let os := scripted 0 [] (exits 32 "" "umount: /mnt/t: not mounted") 0 true true in
  let r := umount os (set_mounted true local_host) in
  fst r = Ok tt
  /\ mounted (snd r) = false
  /\ length (filter (fun e => bool_decide (e = EvPopen "umount -f /mnt/t"))
               (trace (snd r))) = 1%nat.
Proof. vm_compute. auto. Qed.

(** ** mount *)

(** [mount], step by step. *)
Lemma mount_unfold os kwargs self :
  mount os kwargs self =
  let mt := eff_mtpoint kwargs self in
  match _check_mtpoint os mt (mount_entry kwargs self) with
  | (Raise e, h1) => (Raise e, h1)
  | (Ok _, h1) =>
      if nomount h1 || bool_decide (mt ∈ _invalidmtpoint h1)
      then (Ok None, h1)
      else
        match eff_mount_cmd kwargs self with
        | None => (Raise (IndexError "string index out of range"), h1)
        | Some cmd =>
            let h2 := ran os cmd true (Some "DBG2") "Mount volume: " h1 in
            match run_outcome (_localhost h1) (child_of os h1 cmd true) with
            | Raise e => (Raise e, h2)
            | Ok _ =>
                match create_datadir os (set_mtpoint mt (set_mounted true h2)) with
                | (Raise e, h3) => (Raise e, h3)
                | (Ok _, h3) => (Ok (Some mt), h3)
                end
            end
        end
  end.
Proof.
  unfold mount. unfold bind at 1. unfold get at 1. cbv beta iota zeta.
  unfold bind at 1. unfold upd at 1. cbv beta iota.
  fold (eff_mtpoint kwargs self). fold (eff_mtdir kwargs self).
  fold (mount_entry kwargs self).
  unfold bind at 1.
  destruct (_check_mtpoint os (eff_mtpoint kwargs self) (mount_entry kwargs self))
    as [[u|e] h1]; [|reflexivity].
  unfold bind at 1. unfold get at 1. cbv beta iota.
  destruct (nomount h1 || _); [reflexivity|].
  fold (eff_export kwargs self).
  change (mount_cmd _ _ _ _ _ _ _ _ _) with (eff_mount_cmd kwargs self).
  destruct (eff_mount_cmd kwargs self) as [cmd|]; [|reflexivity].
  unfold bind at 1. rewrite run_cmd_wait.
  destruct (run_outcome _ _); [|reflexivity].
  unfold bind at 1. unfold upd at 1. cbv beta iota.
  unfold bind at 1. unfold upd at 1. cbv beta iota.
  unfold bind at 1.
  destruct (create_datadir os _) as [[u'|e] h3]; reflexivity.
Qed.

(** The command the method builds is the one the specification writes,
    whenever the option string has a last character. *)
Lemma mount_cmd_spec kwargs self c :
  PyStr.last (eff_mtopts kwargs self) = Some c ->
  eff_mount_cmd kwargs self = Some (spec_mount_cmd kwargs self).
Proof.
  intros Hc. unfold eff_mount_cmd, mount_cmd, spec_mount_cmd, PyStr.endswith.
  rewrite Hc. destruct (Ascii.eqb c ","); reflexivity.
Qed.

Lemma mount_cmd_empty kwargs self :
  eff_mtopts kwargs self = "" -> eff_mount_cmd kwargs self = None.
Proof. intros H. unfold eff_mount_cmd, mount_cmd. rewrite H. reflexivity. Qed.

Lemma last_none_empty s : PyStr.last s = None -> s = "".
Proof.
  induction s as [|a s IH]; [reflexivity|]. cbn [PyStr.last].
  destruct s; [discriminate|]. intros H. specialize (IH H). discriminate IH.
Qed.

(** Making the data directory only adds events. *)
Lemma create_datadir_trace os h :
  exists rest, trace (snd (create_datadir os h)) = trace h ++ rest.
Proof.
  unfold create_datadir. hsimpl.
  destruct (_localhost h).
  - destruct (path_exists os (clock h) (mtdir h)); cbn [negb]; hsimpl.
    + eexists. reflexivity.
    + destruct (mkdir_ok os _ _); hsimpl; rewrite <- app_assoc;
        eexists; reflexivity.
  - rewrite run_cmd_wait. hsimpl.
    match goal with |- context [if ?b then _ else _] => destruct b end; hsimpl.
    + rewrite run_cmd_wait.
      match goal with
      | |- context [run_outcome ?a ?b] => destruct (run_outcome a b)
      end; hsimpl; unfold ran; fields; rewrite <- app_assoc;
        eexists; reflexivity.
    + unfold ran. fields. eexists. reflexivity.
Qed.

(** When the check of the mount point returns, the flags that decide
    whether [mount] goes on are those of the object at the call. *)
Lemma mount_gate os kwargs self h1 :
  _check_mtpoint os (eff_mtpoint kwargs self) (mount_entry kwargs self)
    = (Ok tt, h1) ->
  nomount h1 = nomount self
  /\ _invalidmtpoint h1 = _invalidmtpoint self
  /\ same_config self h1
  /\ mtdir h1 = eff_mtdir kwargs self
  /\ mounted h1 = mounted self
  /\ mtpoint h1 = mtpoint self.
Proof.
  intros Hchk.
  destruct (check_mtpoint_frame os (eff_mtpoint kwargs self) (mount_entry kwargs self))
    as (C & Hmt & Hmd & Hmo & Hi).
  rewrite Hchk in C, Hmt, Hmd, Hmo, Hi. cbn [fst snd] in *.
  split; [apply C|]. split; [exact (Hi tt eq_refl)|].
  split; [exact C|]. split; [exact Hmd|]. split; assumption.
Qed.

(** C3.  A call of [mount] that gets as far as its command: the check of
    the mount point returns, [nomount] is unset and the mount point is
    not recorded invalid.  When the option string is not empty, the next
    thing the call does is to run, with sudo, exactly the command
    [mount -o vers=V,[minorversion=M,]OPTS,proto=P,sec=S,port=N SERVER:EXPORT MTPOINT],
    where the clause in brackets is there if and only if [V] is 4 and
    [OPTS,] is the option string with a comma added unless it ends in
    one.  When the option string is empty, reading its last character
    raises [IndexError]: no command is run. *)
Theorem mount_command os self kwargs h1 :
  _check_mtpoint os (eff_mtpoint kwargs self) (mount_entry kwargs self)
    = (Ok tt, h1) ->
  nomount self = false ->
  eff_mtpoint kwargs self ∉ _invalidmtpoint self ->
  let r := mount os kwargs self in
  match PyStr.last (eff_mtopts kwargs self) with
  | Some _ =>
      exists rest,
        trace (snd r) =
          trace h1
          ++ run_events (Some "DBG2") "Mount volume: "
               (command_line os self (spec_mount_cmd kwargs self) true)
          ++ rest
  | None =>
      eff_mtopts kwargs self = ""
      /\ r = (Raise (IndexError "string index out of range"), h1)
  end.
Proof.
  intros Hchk Hnm Hinv r. subst r.
  destruct (mount_gate os kwargs self h1 Hchk) as (Gn & Gi & C & _).
  rewrite mount_unfold. cbv zeta. rewrite Hchk, Gn, Gi, Hnm.
  rewrite bool_decide_eq_false_2 by exact Hinv. cbn [orb].
  destruct (PyStr.last (eff_mtopts kwargs self)) as [c|] eqn:Hl.
  - rewrite (mount_cmd_spec kwargs self c Hl).
    set (cmd := spec_mount_cmd kwargs self).
    rewrite <- (command_line_config os self h1 cmd true C).
    destruct (run_outcome _ _).
    + destruct (create_datadir_trace os
                  (set_mtpoint (eff_mtpoint kwargs self)
                     (set_mounted true
                        (ran os cmd true (Some "DBG2") "Mount volume: " h1))))
        as (rest & Hrest).
      destruct (create_datadir os _) as [[u|e] h3]; cbn [snd] in *;
        exists rest; rewrite Hrest; unfold ran; fields;
        rewrite <- app_assoc; reflexivity.
    + exists []. cbn [snd]. unfold ran. fields. rewrite app_nil_r. reflexivity.
  - apply last_none_empty in Hl. rewrite (mount_cmd_empty kwargs self Hl).
    split; [exact Hl | reflexivity].
Qed.

Lemma mount_command_witness :
  let h1 := snd (_check_mtpoint all_well "/mnt/t"
                   (mount_entry empty_mtopts_args local_host)) in
  eff_mtopts empty_mtopts_args local_host = ""
  /\ mount all_well empty_mtopts_args local_host
     = (Raise (IndexError "string index out of range"), h1).
Proof.
  exact (mount_command all_well local_host empty_mtopts_args _
           eq_refl eq_refl (not_elem_of_nil _)).
Defined.

(** C3, the example of the specification: the command built is the one
    given there, and it is what the call runs (as root, on the local
    machine, nothing is put in front of it). *)
Example mount_example_command :
  spec_mount_cmd example_mount_args local_host
  = "mount -o vers=4,minorversion=1,hard,rsize=4096,wsize=4096,proto=tcp,sec=sys,port=2049 10.0.0.1:/x /mnt/t"
  /\ EvPopen "mount -o vers=4,minorversion=1,hard,rsize=4096,wsize=4096,proto=tcp,sec=sys,port=2049 10.0.0.1:/x /mnt/t"
     ∈ trace (snd (mount all_well example_mount_args local_host))
  /\ fst (mount all_well example_mount_args local_host) = Ok (Some "/mnt/t").
Proof.
  split; [vm_compute; reflexivity|].
  split; [|vm_compute; reflexivity].
  apply list_elem_of_In. vm_compute. tauto.
Qed.

(** C3: with an empty option string the call raises before any command. *)
Example mount_empty_mtopts :
  let r := mount all_well empty_mtopts_args local_host in
  fst r = Raise (IndexError "string index out of range")
  /\ trace (snd r) = [EvExists "/mnt/t"; EvIsdir "/mnt/t"]
  /\ mounted (snd r) = false.
Proof. vm_compute. auto. Qed.

(** C9, as the code has it.  A call of [mount] whose check of the mount
    point returns, with [nomount] set or the mount point recorded
    invalid: the call returns [None], and the object it leaves is the
    one the check left, in which [mtdir] has been set from the arguments
    of the call while [mounted] and [mtpoint] are as they were. *)
Theorem mount_short_circuit os self kwargs h1 :
  _check_mtpoint os (eff_mtpoint kwargs self) (mount_entry kwargs self)
    = (Ok tt, h1) ->
  nomount self = true \/ eff_mtpoint kwargs self ∈ _invalidmtpoint self ->
  mount os kwargs self = (Ok None, h1)
  /\ mtdir h1 = eff_mtdir kwargs self
  /\ mounted h1 = mounted self
  /\ mtpoint h1 = mtpoint self.
Proof.
  intros Hchk Hgate.
  destruct (mount_gate os kwargs self h1 Hchk) as (Gn & Gi & _ & Gd & Gm & Gp).
  split; [|auto].
  rewrite mount_unfold. cbv zeta. rewrite Hchk, Gn, Gi.
  destruct Hgate as [-> | Hin]; [reflexivity|].
  rewrite bool_decide_eq_true_2 by exact Hin.
  rewrite orb_true_r. reflexivity.
Qed.

Lemma mount_short_circuit_witness :
  let h1 := snd (_check_mtpoint all_well "/mnt/t"
                   (mount_entry datadir_args nomount_host)) in
  mount all_well datadir_args nomount_host = (Ok None, h1)
  /\ mtdir h1 = "/mnt/t/data"
  /\ mounted h1 = false
  /\ mtpoint h1 = "/mnt/t".
Proof.
  exact (mount_short_circuit all_well nomount_host datadir_args _
           eq_refl (or_introl eq_refl)).
Defined.

(** C9: a mount point recorded invalid was checked when it was recorded,
    so the check is skipped and only [mtdir] changes. *)
Lemma mount_invalid_recorded os self kwargs :
  eff_mtpoint kwargs self ∈ _checkmtpoint self ->
  eff_mtpoint kwargs self ∈ _invalidmtpoint self ->
  mount os kwargs self = (Ok None, mount_entry kwargs self).
Proof.
  intros Hc Hi. rewrite mount_unfold. cbv zeta.
  rewrite (check_mtpoint_checked os _ (mount_entry kwargs self)) by exact Hc.
  change (_invalidmtpoint (mount_entry kwargs self)) with (_invalidmtpoint self).
  rewrite bool_decide_eq_true_2 by exact Hi.
  rewrite orb_true_r. reflexivity.
Qed.

(** What is recorded invalid has been checked: the method that records
    the one records the other first. *)
Lemma check_mtpoint_invalid_checked os p h :
  (forall q, q ∈ _invalidmtpoint h -> q ∈ _checkmtpoint h) ->
  forall q, q ∈ _invalidmtpoint (snd (_check_mtpoint os p h)) ->
            q ∈ _checkmtpoint (snd (_check_mtpoint os p h)).
Proof.
  intros Inv q.
  destruct (decide (p ∈ _checkmtpoint h)) as [Hp|Hp].
  { rewrite check_mtpoint_checked by exact Hp. apply Inv. }
  rewrite check_mtpoint_unchecked by exact Hp.
  destruct (check_fresh_cases os p h) as (e & d & hp & _ & _ & S & ->).
  destruct S as (_ & _ & _ & S4 & S5 & _).
  assert (Hq : q ∈ _invalidmtpoint h -> q ∈ _checkmtpoint h ++ [p]).
  { intros H. apply elem_of_app. left. apply Inv, H. }
  destruct e; cbn [negb].
  - destruct d; cbn [negb snd]; fields.
    + rewrite S4, S5. exact Hq.
    + rewrite S4. fields. rewrite elem_of_app, list_elem_of_singleton.
      intros [H| ->]; [apply Hq, H|].
      rewrite elem_of_app, list_elem_of_singleton. auto.
  - destruct (run_outcome _ _); cbn [snd]; unfold ran; fields.
    + rewrite S4, S5. exact Hq.
    + rewrite S4, S5. exact Hq.
Qed.

(** C9 as stated fails: with [nomount] set, a mount point that exists
    and is not a directory makes the check, and so [mount], raise; the
    call does not return [None].  [mtdir] has been set all the same. *)
Lemma mount_nomount_raises :
  let r := mount plain_files datadir_args nomount_host in
  nomount nomount_host = true
  /\ fst r = Raise (Exception "Mount point /mnt/t is not a directory")
  /\ mtdir (snd r) = "/mnt/t/data".
Proof. vm_compute. auto. Qed.

(** ** The directories the object creates *)

Lemma probe_mtpoint_events os p h :
  exists evs,
    trace (snd (probe_mtpoint os p h)) = trace h ++ evs
    /\ Forall is_probe_event evs.
Proof.
  unfold probe_mtpoint. hsimpl.
  destruct (_localhost h).
  - destruct (path_exists os (clock h) p); hsimpl.
    + rewrite <- app_assoc. eexists. split; [reflexivity|].
      repeat constructor.
    + eexists. split; [reflexivity|]. repeat constructor.
  - rewrite !run_cmd_wait. hsimpl.
    match goal with |- context [if ?b then _ else _] => destruct b end.
    + rewrite !run_cmd_wait. hsimpl. unfold ran. fields.
      rewrite <- app_assoc. eexists. split; [reflexivity|].
      repeat constructor.
    + unfold ran. fields. eexists. split; [reflexivity|]. repeat constructor.
Qed.

Lemma new_events_app h h' evs :
  trace h' = trace h ++ evs -> new_events h h' = evs.
Proof. intros E. unfold new_events. rewrite E. apply drop_app_length. Qed.

(** The mkdir of [_check_mtpoint] and the list of created paths. *)
Lemma check_mtpoint_created os p self :
  let r := _check_mtpoint os p self in
  let evs := new_events self (snd r) in
  (mkdir_announced os self p ∈ evs -> fst r = Ok tt ->
   _mtpoint_created (snd r) = _mtpoint_created self ++ [p])
  /\ (~ (mkdir_announced os self p ∈ evs /\ fst r = Ok tt) ->
      _mtpoint_created (snd r) = _mtpoint_created self).
Proof.
  intros r evs. subst r evs.
  destruct (decide (p ∈ _checkmtpoint self)) as [Hp|Hp].
  { rewrite check_mtpoint_checked by exact Hp. cbn [fst snd].
    rewrite (new_events_app self self []) by (rewrite app_nil_r; reflexivity).
    split; [intros H; apply elem_of_nil in H; destruct H | reflexivity]. }
  rewrite check_mtpoint_unchecked by exact Hp.
  destruct (check_fresh_cases os p self) as (e & d & hp & Hpr & C & S & ->).
  destruct (probe_mtpoint_events os p
              (set_checkmtpoint (_checkmtpoint self ++ [p]) self))
    as (pe & Htr & Hpe).
  rewrite Hpr in Htr. cbn [snd] in Htr.
  change (trace hp = trace self ++ pe) in Htr.
  destruct S as (_ & _ & _ & _ & _ & S6 & _).
  assert (Hno : ~ mkdir_announced os self p ∈ pe).
  { intros Hin. rewrite Forall_forall in Hpe. specialize (Hpe _ Hin).
    discriminate Hpe. }
  destruct e; cbn [negb].
  - assert (Hev : forall h', trace h' = trace hp -> new_events self h' = pe).
    { intros h' E. apply new_events_app. rewrite E. exact Htr. }
    destruct d; cbn [negb fst snd].
    + rewrite (Hev hp eq_refl). split; [intros H; elim (Hno H)|].
      intros _. exact S6.
    + rewrite (Hev (set_invalidmtpoint (_invalidmtpoint self ++ [p]) hp) eq_refl).
      split; [intros H; elim (Hno H)|].
      intros _. exact S6.
  - destruct (run_outcome _ _); cbn [fst snd].
    + split; [intros _ _; reflexivity|].
      intros Hn. elim Hn. split; [|reflexivity].
      rewrite (new_events_app self _
                 (pe ++ run_events (Some "DBG3") "Creating mount point directory: "
                          (command_line os self ("mkdir -p " +:+ p) true))).
      * rewrite elem_of_app. right. left.
      * unfold ran. fields. rewrite Htr, <- app_assoc.
        rewrite (command_line_config os _ hp) by exact C. reflexivity.
    + split; [intros _ H; discriminate H|]. intros _. exact S6.
Qed.

(** Two objects with the same list of created directories. *)
#[local] Instance same_created_preorder :
  PreOrder (fun h h' => _mtpoint_created h' = _mtpoint_created h).
Proof. split; [intros h; reflexivity | intros a b c H1 H2; congruence]. Qed.

Lemma quiet_same_created :
  quiet (fun h h' => _mtpoint_created h' = _mtpoint_created h).
Proof. intros h h' _ S. apply S. Qed.

(** [mount] adds to the created directories what its check of the
    mount point adds, and nothing else: the data directory it makes is
    not recorded. *)
Lemma mount_created os kwargs self :
  _mtpoint_created (snd (mount os kwargs self))
  = _mtpoint_created
      (snd (_check_mtpoint os (eff_mtpoint kwargs self) (mount_entry kwargs self))).
Proof.
  rewrite mount_unfold. cbv zeta.
  destruct (_check_mtpoint os _ _) as [[u|e] h1]; cbn [snd]; [|reflexivity].
  destruct (nomount h1 || _); [reflexivity|].
  destruct (eff_mount_cmd kwargs self) as [cmd|]; [|reflexivity].
  destruct (run_outcome _ _); [|reflexivity].
  pose proof (keeps_create_datadir os _ quiet_same_created
                (set_mtpoint (eff_mtpoint kwargs self)
                   (set_mounted true
                      (ran os cmd true (Some "DBG2") "Mount volume: " h1))))
    as K.
  destruct (create_datadir os _) as [[u'|e] h3]; cbn [snd] in *; exact K.
Qed.

(** A handler that returns makes the whole [try] return. *)
Lemma try_except_ok (m handler : M unit) :
  (forall h, fst (handler h) = Ok tt) ->
  forall h, fst (try_except m handler h) = Ok tt.
Proof.
  intros Hh h. unfold try_except.
  destruct (m h) as [[[]|e] h']; [reflexivity | apply Hh].
Qed.

(** [network_reset] never raises. *)
Lemma network_reset_ok os h : fst (network_reset os h) = Ok tt.
Proof.
  unfold network_reset. unfold bind at 1. unfold get at 1. cbv beta iota.
  unfold bind at 1.
  match goal with
  | |- context [try_except ?m ?hd h] =>
      pose proof (try_except_ok m hd (fun _ => eq_refl) h) as E1;
      destruct (try_except m hd h) as [r1 h1]
  end.
  cbn [fst] in E1. subst r1.
  unfold bind at 1. unfold get at 1. cbv beta iota.
  apply try_except_ok. intros h2. reflexivity.
Qed.

(** [umount], step by step. *)
Lemma umount_unfold os self :
  umount os self =
  if nomount self then (Ok tt, self)
  else
    match _check_mtpoint os (mtpoint self) self with
    | (Raise e, h1) => (Raise e, h1)
    | (Ok _, h1) =>
        if bool_decide (mtpoint h1 ∈ _invalidmtpoint h1) then (Ok tt, h1)
        else
          umount_loop os 5 ("umount -f " +:+ mtpoint h1)
            (set_trace
               (trace h1 ++
                [EvDprint (Some "DBG3") "Sync all buffers to disk"; EvSync])
               h1)
    end.
Proof.
  unfold umount. unfold bind at 1. unfold get at 1. cbv beta iota.
  destruct (nomount self); [reflexivity|].
  unfold bind at 1.
  destruct (_check_mtpoint os (mtpoint self) self) as [[u|e] h1];
    [|reflexivity].
  unfold bind at 1. unfold get at 1. cbv beta iota.
  destruct (bool_decide _); [reflexivity|].
  unfold bind, dprint, emit, upd. fields.
  rewrite <- app_assoc. reflexivity.
Qed.

(** [umount] of a mount point already checked never raises, and leaves
    the configuration and the created directories as they are. *)
Lemma umount_checked os h :
  mtpoint h ∈ _checkmtpoint h ->
  fst (umount os h) = Ok tt
  /\ same_config h (snd (umount os h))
  /\ _mtpoint_created (snd (umount os h)) = _mtpoint_created h.
Proof.
  intros Hc. rewrite umount_unfold.
  destruct (nomount h); [repeat split|].
  rewrite check_mtpoint_checked by exact Hc.
  destruct (bool_decide _); [repeat split|].
  set (h2 := set_trace _ h).
  destruct (umount_loop_runs os ("umount -f " +:+ mtpoint h) 5 h2)
    as (posts & evs & final & Hrun & _).
  split; [rewrite Hrun; reflexivity|].
  split.
  - apply (keeps_umount_loop os same_config lax_same_config 5 _ h2).
  - apply (keeps_umount_loop_quiet os _ quiet_same_created 5 _
             (fun _ _ => eq_refl) h2).
Qed.

(** The loop of [__del__] over the created directories: one rmdir each,
    in order, failures swallowed. *)
Lemma rmdir_loop os l :
  forall h,
    let r := for_each l
               (fun mtpoint =>
                  try_pass (run_cmd os ("rmdir " +:+ mtpoint) true (Some "DBG3")
                              "Removing mount point directory: " true)) h in
    fst r = Ok tt
    /\ trace (snd r) = trace h ++ flat_map (rmdir_events os h) l
    /\ _mtpoint_created (snd r) = _mtpoint_created h.
Proof.
  induction l as [|q l IH]; intros h; cbn [for_each flat_map].
  - cbn. rewrite app_nil_r. auto.
  - unfold bind at 1 2 3. unfold try_pass at 1 3 5. rewrite run_cmd_wait.
    cbn [snd].
    set (h' := ran os ("rmdir " +:+ q) true (Some "DBG3")
                 "Removing mount point directory: " h).
    destruct (IH h') as (H1 & H2 & H3).
    split; [exact H1|]. split; [|rewrite H3; reflexivity].
    rewrite H2. subst h'. unfold ran. fields. rewrite <- app_assoc.
    f_equal; try (f_equal; reflexivity).
Qed.

Lemma del_unfold os h :
  __del__ os h =
  match teardown_mounts os h with
  | (Raise e, mid) => (Raise e, mid)
  | (Ok _, mid) =>
      for_each (_mtpoint_created mid)
        (fun mtpoint =>
           try_pass (run_cmd os ("rmdir " +:+ mtpoint) true (Some "DBG3")
                       "Removing mount point directory: " true)) mid
  end.
Proof.
  unfold __del__, teardown_mounts. unfold bind, get. cbv beta iota.
  destruct (when (need_network_reset h) (network_reset os) h) as [[u|e] h1];
    [|reflexivity].
  destruct (when (mounted h1) (umount os) h1) as [[u'|e] h2]; reflexivity.
Qed.

(** Before it removes directories [__del__] does not raise, provided
    the mount point of a mounted object has been checked, as [mount]
    ensures. *)
Lemma teardown_mounts_ok os h :
  (mounted h = true -> mtpoint h ∈ _checkmtpoint h) ->
  fst (teardown_mounts os h) = Ok tt
  /\ same_config h (snd (teardown_mounts os h))
  /\ _mtpoint_created (snd (teardown_mounts os h)) = _mtpoint_created h.
Proof.
  intros Inv. unfold teardown_mounts. unfold bind, get. cbv beta iota.
  assert (N : exists h1,
             when (need_network_reset h) (network_reset os) h = (Ok tt, h1)
             /\ same_config h h1 /\ same_mounts h h1).
  { destruct (need_network_reset h); cbn [when].
    - exists (snd (network_reset os h)). split.
      + pose proof (network_reset_ok os h) as E.
        destruct (network_reset os h) as [r h1]. cbn [fst snd] in *.
        rewrite E. reflexivity.
      + split; [apply (keeps_network_reset os _ quiet_same_config)
               | apply (keeps_network_reset os _ quiet_same_mounts)].
    - exists h. split; [reflexivity|]. split; reflexivity. }
  destruct N as (h1 & -> & C & S).
  destruct S as (S1 & _ & S3 & S4 & _ & S6 & _).
  destruct (mounted h1) eqn:Hm; cbn [when].
  - assert (Hc : mtpoint h1 ∈ _checkmtpoint h1).
    { rewrite S1, S4. apply Inv. symmetry. exact S3. }
    destruct (umount_checked os h1 Hc) as (U1 & U2 & U3).
    split; [exact U1|]. split; [etransitivity; eassumption|].
    rewrite U3. exact S6.
  - unfold ret. cbn [fst snd]. split; [reflexivity|]. split; assumption.
Qed.

(** A call of [mount] that returns a mount point leaves the object
    mounted on a mount point that has been checked. *)
Lemma mount_mounted_checked os kwargs self mt :
  fst (mount os kwargs self) = Ok (Some mt) ->
  mounted (snd (mount os kwargs self)) = true
  /\ mtpoint (snd (mount os kwargs self)) = mt
  /\ mt ∈ _checkmtpoint (snd (mount os kwargs self)).
Proof.
  rewrite mount_unfold. cbv zeta.
  pose proof (check_mtpoint_records os (eff_mtpoint kwargs self)
                (mount_entry kwargs self)) as Hrec.
  destruct (_check_mtpoint os _ _) as [[u|e] h1]; cbn [fst snd] in *;
    [|discriminate].
  destruct (nomount h1 || _); [discriminate|].
  destruct (eff_mount_cmd kwargs self) as [cmd|]; [|discriminate].
  destruct (run_outcome _ _); [|discriminate].
  set (h2 := set_mtpoint _ _).
  pose proof (keeps_create_datadir os _ quiet_same_mounts h2) as K.
  destruct (create_datadir os h2) as [[u'|e] h3]; cbn [fst snd] in *;
    [|discriminate].
  intros E. injection E as <-.
  destruct K as (K1 & _ & K3 & K4 & _).
  split; [rewrite K3; reflexivity|]. split; [rewrite K1; reflexivity|].
  rewrite K4. exact Hrec.
Qed.

(** C8, as the code has it.  (1) The check of a mount point appends the
    path to the created directories exactly when it has announced its
    mkdir command and returned, that is, when the command ran and
    succeeded; otherwise the list is as it was.  (2) A call of [mount]
    changes the list only through that check: the data directory it may
    make afterwards is not recorded.  (3) [__del__], on an object whose
    mount point has been checked if it is mounted, returns normally, and
    after resetting the network and unmounting as needed it runs one
    rmdir command for each recorded path, in order, and nothing else. *)
Theorem created_paths os self p kwargs :
  (mounted self = true -> mtpoint self ∈ _checkmtpoint self) ->
  (let r := _check_mtpoint os p self in
   let evs := new_events self (snd r) in
   (mkdir_announced os self p ∈ evs -> fst r = Ok tt ->
    _mtpoint_created (snd r) = _mtpoint_created self ++ [p])
   /\ (~ (mkdir_announced os self p ∈ evs /\ fst r = Ok tt) ->
       _mtpoint_created (snd r) = _mtpoint_created self))
  /\ _mtpoint_created (snd (mount os kwargs self))
     = _mtpoint_created
         (snd (_check_mtpoint os (eff_mtpoint kwargs self)
                 (mount_entry kwargs self)))
  /\ (let mid := snd (teardown_mounts os self) in
      let r := __del__ os self in
      fst r = Ok tt
      /\ trace (snd r)
         = trace mid ++ flat_map (rmdir_events os self) (_mtpoint_created self)
      /\ _mtpoint_created (snd r) = _mtpoint_created self).
Proof.
  intros Inv.
  split; [apply check_mtpoint_created|].
  split; [apply mount_created|].
  intros mid r. subst mid r. rewrite del_unfold.
  destruct (teardown_mounts_ok os self Inv) as (T1 & T2 & T3).
  destruct (teardown_mounts os self) as [res mid]. cbn [fst snd] in *.
  subst res.
  destruct (rmdir_loop os (_mtpoint_created mid) mid) as (R1 & R2 & R3).
  split; [exact R1|]. split; [|rewrite R3; exact T3].
  rewrite R2, T3. f_equal. apply flat_map_ext. intros q.
  unfold rmdir_events. rewrite (command_line_config os self mid) by exact T2.
  reflexivity.
Qed.

Lemma created_paths_witness :
  let os := remote_bare in
  let self := remote_host in
  let p := "/mnt/t" in
  (let r := _check_mtpoint os p self in
   let evs := new_events self (snd r) in
   (mkdir_announced os self p ∈ evs -> fst r = Ok tt ->
    _mtpoint_created (snd r) = _mtpoint_created self ++ [p])
   /\ (~ (mkdir_announced os self p ∈ evs /\ fst r = Ok tt) ->
       _mtpoint_created (snd r) = _mtpoint_created self))
  /\ _mtpoint_created (snd (mount os datadir_args self))
     = _mtpoint_created
         (snd (_check_mtpoint os (eff_mtpoint datadir_args self)
                 (mount_entry datadir_args self)))
  /\ (let mid := snd (teardown_mounts os self) in
      let r := __del__ os self in
      fst r = Ok tt
      /\ trace (snd r)
         = trace mid ++ flat_map (rmdir_events os self) (_mtpoint_created self)
      /\ _mtpoint_created (snd r) = _mtpoint_created self).
Proof.
  apply (created_paths remote_bare remote_host "/mnt/t" datadir_args).
  intros H. discriminate H.
Defined.

(** C8 as stated fails for the data directory.  On a remote machine
    where neither the mount point nor the data directory exists yet,
    [mount(datadir='data')] runs a mkdir command for each; only the
    mount point is recorded as created, and [__del__] afterwards runs
    rmdir for the mount point and not for the data directory. *)
Lemma datadir_not_recorded :
  let h := snd (mount remote_bare datadir_args remote_host) in
  let final := snd (__del__ remote_bare h) in
  fst (mount remote_bare datadir_args remote_host) = Ok (Some "/mnt/t")
  /\ EvPopen (over_ssh "mkdir -p /mnt/t") ∈ trace h
  /\ EvPopen (over_ssh "mkdir -m 0777 -p /mnt/t/data") ∈ trace h
  /\ _mtpoint_created h = ["/mnt/t"]
  /\ EvPopen (over_ssh "rmdir /mnt/t") ∈ trace final
  /\ EvPopen (over_ssh "rmdir /mnt/t/data") ∉ trace final.
Proof.
  repeat split;
    try (apply (bool_decide_unpack _); vm_compute; exact I);
    vm_compute; reflexivity.
Qed.

(** ** The registry of background processes *)

(** A handle that is not in the list is passed over. *)
Lemma wait_unregistered os p terminate dlevel msg h :
  p ∉ process_list h ->
  wait_cmd os (Some p) terminate dlevel msg h = (Ok None, h).
Proof.
  intros Hp. unfold wait_cmd. cbn [wait_loop]. unfold bind, get, ret.
  rewrite bool_decide_eq_false_2 by exact Hp. reflexivity.
Qed.

(** [stop_cmd] on a handle that is in the list. *)
Lemma stop_registered os p dlevel msg h :
  p ∈ process_list h ->
  stop_cmd os (Some p) dlevel msg h =
  let d := wait_dlevel dlevel h p in
  let kill := "kill " +:+ PyStr.fmt_d (pid p) in
  if bool_decide (is_Some (process_smap h !! pid p)) then
    match run_outcome (_localhost h) (child_of os h kill true) with
    | Raise e => (Raise e, ran os kill true d msg h)
    | Ok _ =>
        (Ok (Some (proc_wait os (clock (killed os d msg p h)) p)),
         reaped p (killed os d msg p h))
    end
  else
    (Ok (Some (proc_wait os (clock (terminated d msg p h)) p)),
     reaped p (terminated d msg p h)).
Proof.
  intros Hp. unfold stop_cmd, wait_cmd. rewrite bind_get. cbn [wait_loop].
  rewrite bind_get.
  rewrite bool_decide_eq_true_2 by exact Hp.
  fold (wait_dlevel dlevel h p). cbv zeta.
  destruct (bool_decide (is_Some (process_smap h !! pid p))).
  - rewrite !bind_bind, bind_run_cmd_wait.
    destruct (run_outcome _ _); [|reflexivity].
    rewrite bind_upd, bind_tick, bind_emit, bind_upd.
    cbn [wait_loop]. reflexivity.
  - rewrite !bind_bind. unfold dprint. rewrite !bind_emit, bind_tick.
    rewrite bind_emit, bind_upd. cbn [wait_loop]. reflexivity.
Qed.

Lemma list_remove_app_fresh {A} `{EqDecision A} (x : A) (l : list A) :
  x ∉ l -> list_remove x (l ++ [x]) = l.
Proof.
  induction l as [|y l IH]; intros Hx; cbn [list_remove app].
  - rewrite decide_True by reflexivity. reflexivity.
  - rewrite not_elem_of_cons in Hx. destruct Hx as [Hne Hx].
    rewrite decide_False by exact Hne. rewrite IH by exact Hx. reflexivity.
Qed.

(** A handle just made is not in the registry. *)
Lemma registry_fresh_new h z : registry_fresh h -> mkProc (clock h) z ∉ process_list h.
Proof. intros F Hin. specialize (F _ Hin). cbn in F. lia. Qed.

(** The registry stays fresh through [run_cmd]. *)
Lemma run_cmd_registry_fresh os cmd su dlevel msg w h :
  registry_fresh h -> registry_fresh (snd (run_cmd os cmd su dlevel msg w h)).
Proof.
  intros F q. destruct w; [rewrite run_cmd_wait | rewrite run_cmd_nowait];
    cbn [snd]; [unfold ran | unfold started]; fields.
  - intros Hq. specialize (F q Hq). lia.
  - rewrite elem_of_app, list_elem_of_singleton. intros [Hq| ->].
    + specialize (F q Hq). lia.
    + cbn. lia.
Qed.

Lemma init_registry_fresh a b c d e f g i j k l m n o p q :
  registry_fresh (init a b c d e f g i j k l m n o p q).
Proof. intros x Hx. apply elem_of_nil in Hx. destruct Hx. Qed.

(** What a non-blocking [run_cmd] leaves in the registry. *)
Lemma started_registry os cmd su dlevel msg h :
  let p := mkProc (clock h) (c_pid (child_of os h cmd su)) in
  let h1 := started os cmd su dlevel msg h in
  process_list h1 = process_list h ++ [p]
  /\ process_dmap h1 = <[pid p := dlevel]> (process_dmap h)
  /\ process_smap h1
     = (if su then <[pid p := 1]> (process_smap h) else process_smap h)
  /\ clock h1 = S (clock h)
  /\ same_config h h1.
Proof. unfold started. fields. repeat split. Qed.

Lemma reaped_facts p h :
  trace (reaped p h) = trace h ++ [EvWait p]
  /\ process_list (reaped p h) = list_remove p (process_list h)
  /\ process_smap (reaped p h) = process_smap h.
Proof. unfold reaped. fields. repeat split. Qed.

Lemma killed_facts os d msg p h :
  trace (killed os d msg p h)
  = trace h ++ run_events d msg
                 (command_line os h ("kill " +:+ PyStr.fmt_d (pid p)) true)
  /\ process_list (killed os d msg p h) = process_list h
  /\ process_smap (killed os d msg p h) = delete (pid p) (process_smap h)
  /\ clock (killed os d msg p h) = S (clock h).
Proof. unfold killed, ran. fields. repeat split. Qed.

Lemma terminated_facts d msg p h :
  trace (terminated d msg p h)
  = trace h ++ [EvDprint d (msg +:+ "stopping process " +:+ PyStr.fmt_d (pid p));
                EvTerminate p]
  /\ process_list (terminated d msg p h) = process_list h
  /\ clock (terminated d msg p h) = clock h.
Proof.
  unfold terminated. fields. rewrite <- app_assoc. repeat split.
Qed.

Lemma ran_facts os cmd su d msg h :
  trace (ran os cmd su d msg h)
  = trace h ++ run_events d msg (command_line os h cmd su)
  /\ process_list (ran os cmd su d msg h) = process_list h.
Proof. unfold ran. fields. repeat split. Qed.

(** C4, as the code has it.  A non-blocking [run_cmd] appends one
    handle, a new one, to [process_list].  A [stop_cmd] on that handle
    right afterwards logs with the level it is given or else the level
    of the start, and then:
    - when the process was started with sudo, it runs [kill <pid>] with
      sudo and sends no signal; if that command succeeds, the process
      is waited for, its exit status is returned and it leaves both the
      list and [process_smap]; if the command fails, the exception
      goes to the caller and the handle stays in the list;
    - when the process was started without sudo and its process id is
      not a key of [process_smap], it sends the terminate signal and
      runs no command, waits, returns the exit status and removes the
      handle.
    Once the handle is removed, a [wait_cmd] or [stop_cmd] that names it
    returns [None] and changes nothing. *)
Theorem stop_started_process os self cmd su dlevel msg dl msg' :
  registry_fresh self ->
  (su = false -> process_smap self !! c_pid (child_of os self cmd su) = None) ->
  let p := mkProc (clock self) (c_pid (child_of os self cmd su)) in
  let h1 := snd (run_cmd os cmd su dlevel msg false self) in
  let r := stop_cmd os (Some p) dl msg' h1 in
  let d := match dl with Some x => Some x | None => dlevel end in
  let kill := command_line os self ("kill " +:+ PyStr.fmt_d (pid p)) true in
  let noop :=
    forall terminate dl2 msg2,
      wait_cmd os (Some p) terminate dl2 msg2 (snd r) = (Ok None, snd r) in
  process_list h1 = process_list self ++ [p]
  /\ (p ∉ process_list self)
  /\ if su then
       match run_outcome (_localhost self) (popen os (S (clock self)) kill) with
       | Ok _ =>
           new_events h1 (snd r) = run_events d msg' kill ++ [EvWait p]
           /\ fst r = Ok (Some (proc_wait os (S (S (clock self))) p))
           /\ process_list (snd r) = process_list self
           /\ process_smap (snd r) !! pid p = None
           /\ noop
       | Raise e =>
           new_events h1 (snd r) = run_events d msg' kill
           /\ fst r = Raise e
           /\ p ∈ process_list (snd r)
       end
     else
       new_events h1 (snd r)
       = [EvDprint d (msg' +:+ "stopping process " +:+ PyStr.fmt_d (pid p));
          EvTerminate p; EvWait p]
       /\ fst r = Ok (Some (proc_wait os (S (clock self)) p))
       /\ process_list (snd r) = process_list self
       /\ noop.
Proof.
  intros Fresh Hsm p h1 r d kill noop. subst noop r h1.
  rewrite run_cmd_nowait. cbn [snd].
  destruct (started_registry os cmd su dlevel msg self)
    as (Hl & Hd & Hs & Hc & C).
  fold p in Hl, Hd, Hs.
  set (h1 := started os cmd su dlevel msg self) in *.
  assert (Hfresh : p ∉ process_list self) by apply registry_fresh_new, Fresh.
  assert (Hp : p ∈ process_list h1).
  { rewrite Hl, elem_of_app, list_elem_of_singleton. auto. }
  assert (Hrm : list_remove p (process_list h1) = process_list self).
  { rewrite Hl. apply list_remove_app_fresh, Hfresh. }
  assert (Hdl : wait_dlevel dl h1 p = d).
  { unfold wait_dlevel, d. rewrite Hd, lookup_insert_eq.
    destruct dl; [reflexivity|]. destruct dlevel; reflexivity. }
  assert (Hkill : command_line os h1 ("kill " +:+ PyStr.fmt_d (pid p)) true = kill).
  { apply command_line_config, C. }
  assert (Hloc : _localhost h1 = _localhost self) by apply C.
  assert (Hsm' : su = false -> process_smap self !! pid p = None) by exact Hsm.
  split; [exact Hl|]. split; [exact Hfresh|].
  rewrite (stop_registered os p dl msg' h1 Hp). cbv zeta. rewrite Hdl.
  clearbody h1.
  destruct su.
  - rewrite Hs, lookup_insert_eq.
    rewrite bool_decide_eq_true_2 by (eexists; reflexivity).
    unfold child_of. rewrite Hkill, Hloc, Hc.
    destruct (killed_facts os d msg' p h1) as (K1 & K2 & K3 & K4).
    rewrite Hkill in K1.
    destruct (run_outcome _ _); cbn [fst snd].
    + destruct (reaped_facts p (killed os d msg' p h1)) as (R1 & R2 & R3).
      assert (Hfin : process_list (reaped p (killed os d msg' p h1))
                     = process_list self).
      { rewrite R2, K2. exact Hrm. }
      split.
      { apply new_events_app. rewrite R1, K1, <- app_assoc. reflexivity. }
      split; [rewrite K4, Hc; reflexivity|].
      split; [exact Hfin|].
      split; [rewrite R3, K3; apply lookup_delete_eq|].
      intros terminate dl2 msg2. apply wait_unregistered.
      rewrite Hfin. exact Hfresh.
    + destruct (ran_facts os ("kill " +:+ PyStr.fmt_d (pid p)) true d msg' h1)
        as (T1 & T2).
      rewrite Hkill in T1.
      split; [apply new_events_app; exact T1|].
      split; [reflexivity|]. rewrite T2. exact Hp.
  - rewrite Hs, (Hsm' eq_refl).
    rewrite bool_decide_eq_false_2 by (intros [x Hx]; discriminate Hx).
    cbn [fst snd].
    destruct (terminated_facts d msg' p h1) as (T1 & T2 & T3).
    destruct (reaped_facts p (terminated d msg' p h1)) as (R1 & R2 & _).
    assert (Hfin : process_list (reaped p (terminated d msg' p h1))
                   = process_list self).
    { rewrite R2, T2. exact Hrm. }
    split.
    { apply new_events_app. rewrite R1, T1, <- app_assoc. reflexivity. }
    split; [rewrite T3, Hc; reflexivity|].
    split; [exact Hfin|].
    intros terminate dl2 msg2. apply wait_unregistered.
    rewrite Hfin. exact Hfresh.
Qed.

Lemma stop_started_process_witness :
  let os := all_well in
  let self := local_host in
  let p := mkProc 0 1000 in
  let h1 := snd (run_cmd os "tcpdump" true (Some "DBG1") "" false self) in
  let r := stop_cmd os (Some p) None "" h1 in
  process_list h1 = [p]
  /\ (p ∉ [])
  /\ new_events h1 (snd r)
     = run_events (Some "DBG1") "" "kill 1000" ++ [EvWait p]
  /\ fst r = Ok (Some 0)
  /\ process_list (snd r) = []
  /\ process_smap (snd r) !! 1000 = None
  /\ (forall terminate dl2 msg2,
        wait_cmd os (Some p) terminate dl2 msg2 (snd r) = (Ok None, snd r)).
Proof.
  apply (stop_started_process all_well local_host "tcpdump" true
           (Some "DBG1") "" None "").
  - apply init_registry_fresh.
  - intros H. discriminate H.
Defined.

(** C4: a process started without sudo is sent the terminate signal,
    and no command is run. *)
Example stop_unprivileged :
  let h1 := snd (run_cmd all_well "tcpdump" false (Some "DBG1") "" false local_host) in
  let r := stop_cmd all_well None None "" h1 in
  fst r = Ok (Some 0)
  /\ new_events h1 (snd r)
     = [EvDprint (Some "DBG1") "stopping process 1000";
        EvTerminate (mkProc 0 1000); EvWait (mkProc 0 1000)]
  /\ process_list (snd r) = [].
Proof. vm_compute. auto. Qed.

(** C4 as stated fails when the kill command fails.  A process is
    started with sudo; by the time it is stopped it has exited, so
    [kill] exits with status 1: [stop_cmd] raises, the handle is still
    in the list, and a second [stop_cmd] on it is not a no-op, it runs
    another kill command. *)
Lemma stop_kill_fails :
  let p := mkProc 0 1000 in
  let h1 := snd (run_cmd kill_fails "tcpdump" true (Some "DBG1") "" false local_host) in
  let r := stop_cmd kill_fails (Some p) None "" h1 in
  let r2 := stop_cmd kill_fails (Some p) None "" (snd r) in
  process_list h1 = [p]
  /\ fst r = Raise (Exception "kill: (1000) - No such process")
  /\ new_events h1 (snd r)
     = run_events (Some "DBG1") "" "/usr/bin/sudo kill 1000"
  /\ process_list (snd r) = [p]
  /\ new_events (snd r) (snd r2)
     = run_events (Some "DBG1") "" "/usr/bin/sudo kill 1000" ++ [EvWait p].
Proof. vm_compute. repeat split. Qed.

(** ** Patterns *)

Lemma str_app_assoc (a b c : string) : (a +:+ b) +:+ c = a +:+ b +:+ c.
Proof.
  induction a as [|x a IH]; [reflexivity|].
  change (String x ((a +:+ b) +:+ c) = String x (a +:+ b +:+ c)).
  f_equal. exact IH.
Qed.

Lemma rest_of_refl s : rest_of s s.
Proof. exists "". reflexivity. Qed.

Lemma rest_of_trans s1 s2 s3 : rest_of s1 s2 -> rest_of s2 s3 -> rest_of s1 s3.
Proof.
  intros [a ->] [b ->]. exists (b +:+ a). rewrite str_app_assoc. reflexivity.
Qed.

Lemma rest_of_tail c s : rest_of s (String c s).
Proof. exists (String c ""). reflexivity. Qed.

Lemma occurs_rest t s' s : occurs t s' -> rest_of s' s -> occurs t s.
Proof.
  intros (a & b & ->) [c ->]. exists (c +:+ a), b.
  rewrite str_app_assoc. reflexivity.
Qed.

Lemma occurs_prefix t s : occurs t (t +:+ s).
Proof. exists "", s. reflexivity. Qed.

(** A greedy iteration hands some rest of the input to what follows. *)
Lemma star_post {R} p s (k : string -> option R) res :
  Re.star p s k = Some res -> exists s', k s' = Some res /\ rest_of s' s.
Proof.
  induction s as [|c s IH]; cbn [Re.star]; intros H.
  - exists "". split; [exact H | apply rest_of_refl].
  - destruct (p c).
    + destruct (Re.star p s k) as [x|] eqn:E.
      * injection H as <-. destruct (IH eq_refl) as (s' & Hk & Hr).
        exists s'. split; [exact Hk|].
        eapply rest_of_trans; [exact Hr | apply rest_of_tail].
      * exists (String c s). split; [exact H | apply rest_of_refl].
    + exists (String c s). split; [exact H | apply rest_of_refl].
Qed.

(** A literal matches only at the head of the input, and sets no
    group. *)
Lemma rmatch_Lit t : forall s g k res,
  Re.rmatch (Re.Lit t) s g k = Some res ->
  exists s', s = t +:+ s' /\ k s' g = Some res.
Proof.
  induction t as [|a t IH]; intros s g k res; cbn [Re.Lit Re.rmatch].
  - intros H. exists s. split; [reflexivity | exact H].
  - destruct s as [|c s]; [discriminate|].
    destruct (Ascii.eqb a c) eqn:E; [|discriminate].
    apply Ascii.eqb_eq in E. subst c. intros H.
    destruct (IH _ _ _ _ H) as (s' & -> & Hk).
    exists s'. split; [reflexivity | exact Hk].
Qed.

Lemma is_set_insert g n m c :
  is_set g m -> is_set (<[n := Some c]> g) m.
Proof.
  intros [x Hx]. unfold is_set. destruct (decide (n = m)) as [->|Hne].
  - exists c. apply list_lookup_insert_eq. eapply lookup_lt_Some, Hx.
  - exists x. rewrite list_lookup_insert_ne by exact Hne. exact Hx.
Qed.

(** What a successful match hands to what follows: some rest of the
    input, and groups of which those the pattern cannot set are as they
    were, those that were set still are, and those the pattern must set
    are set. *)
Lemma rmatch_post r : forall s g k res,
  Re.rmatch r s g k = Some res ->
  exists s' g',
    k s' g' = Some res
    /\ rest_of s' s
    /\ length g' = length g
    /\ (forall n, n ∉ writes r -> g' !! n = g !! n)
    /\ (forall n, is_set g n -> is_set g' n)
    /\ (forall n, n ∈ must r -> (n < length g)%nat -> is_set g' n).
Proof.
  induction r as [|p|r1 IH1 r2 IH2|r1 IH1 r2 IH2|r1 IH1|p|m r1 IH1];
    intros s g k res; cbn [Re.rmatch writes must].
  - intros H. exists s, g. split; [exact H|]. split; [apply rest_of_refl|].
    split; [reflexivity|]. split; [reflexivity|]. split; [auto|].
    intros n Hn. apply elem_of_nil in Hn. destruct Hn.
  - destruct s as [|c s]; [discriminate|]. destruct (p c); [|discriminate].
    intros H. exists s, g. split; [exact H|]. split; [apply rest_of_tail|].
    split; [reflexivity|]. split; [reflexivity|]. split; [auto|].
    intros n Hn. apply elem_of_nil in Hn. destruct Hn.
  - intros H.
    destruct (IH1 _ _ _ _ H) as (s1 & g1 & H1 & R1 & L1 & W1 & S1 & M1).
    destruct (IH2 _ _ _ _ H1) as (s2 & g2 & H2 & R2 & L2 & W2 & S2 & M2).
    exists s2, g2. split; [exact H2|].
    split; [eapply rest_of_trans; eassumption|].
    split; [congruence|].
    split.
    { intros n Hn. rewrite not_elem_of_app in Hn. destruct Hn as [Hn1 Hn2].
      rewrite W2, W1 by assumption. reflexivity. }
    split; [auto|].
    intros n Hn Hlt. apply elem_of_app in Hn. destruct Hn as [Hn|Hn].
    + apply S2, M1; assumption.
    + apply M2; [exact Hn | congruence].
  - destruct (Re.rmatch r1 s g k) as [x|] eqn:E.
    + intros H. injection H as <-.
      destruct (IH1 _ _ _ _ E) as (s1 & g1 & H1 & R1 & L1 & W1 & S1 & _).
      exists s1, g1. repeat (split; [assumption|]).
      split.
      { intros n Hn. rewrite not_elem_of_app in Hn. apply W1, Hn. }
      split; [exact S1|].
      intros n Hn. apply elem_of_nil in Hn. destruct Hn.
    + intros H.
      destruct (IH2 _ _ _ _ H) as (s1 & g1 & H1 & R1 & L1 & W1 & S1 & _).
      exists s1, g1. repeat (split; [assumption|]).
      split.
      { intros n Hn. rewrite not_elem_of_app in Hn. apply W1, Hn. }
      split; [exact S1|].
      intros n Hn. apply elem_of_nil in Hn. destruct Hn.
  - destruct (Re.rmatch r1 s g k) as [x|] eqn:E.
    + intros H. injection H as <-.
      destruct (IH1 _ _ _ _ E) as (s1 & g1 & H1 & R1 & L1 & W1 & S1 & _).
      exists s1, g1. repeat (split; [assumption|]).
      intros n Hn. apply elem_of_nil in Hn. destruct Hn.
    + intros H. exists s, g. split; [exact H|]. split; [apply rest_of_refl|].
      split; [reflexivity|]. split; [reflexivity|]. split; [auto|].
      intros n Hn. apply elem_of_nil in Hn. destruct Hn.
  - intros H. destruct (star_post _ _ _ _ H) as (s' & Hk & Hr).
    exists s', g. split; [exact Hk|]. split; [exact Hr|].
    split; [reflexivity|]. split; [reflexivity|]. split; [auto|].
    intros n Hn. apply elem_of_nil in Hn. destruct Hn.
  - intros H.
    destruct (IH1 _ _ _ _ H) as (s1 & g1 & H1 & R1 & L1 & W1 & S1 & M1).
    exists s1, (<[m := Some (Re.consumed s s1)]> g1).
    split; [exact H1|]. split; [exact R1|].
    split; [rewrite length_insert; exact L1|].
    split.
    { intros n Hn. rewrite not_elem_of_cons in Hn. destruct Hn as [Hne Hn].
      rewrite list_lookup_insert_ne by congruence. apply W1, Hn. }
    split; [intros n Hn; apply is_set_insert, S1, Hn|].
    intros n Hn Hlt. apply elem_of_cons in Hn. destruct Hn as [->|Hn].
    + eexists. apply list_lookup_insert_eq. rewrite L1. exact Hlt.
    + apply is_set_insert, M1; assumption.
Qed.

(** A successful search is a match at some rest of the text. *)
Lemma search_from_match r ng : forall s g,
  Re.search_from r ng s = Some g ->
  exists s0,
    rest_of s0 s
    /\ Re.rmatch r s0 (replicate (S ng) None) (fun _ g => Some g) = Some g.
Proof.
  induction s as [|c s IH]; intros g; cbn [Re.search_from].
  - destruct (Re.rmatch r "" _ _) as [x|] eqn:E; [|discriminate].
    intros H. injection H as <-. exists "". split; [apply rest_of_refl | exact E].
  - destruct (Re.rmatch r (String c s) _ _) as [x|] eqn:E.
    + intros H. injection H as <-. exists (String c s).
      split; [apply rest_of_refl | exact E].
    + intros H. destruct (IH g H) as (s0 & Hr & Hm).
      exists s0. split; [|exact Hm].
      eapply rest_of_trans; [exact Hr | apply rest_of_tail].
Qed.

(** *** The pattern of get_route *)

Lemma re_route_groups :
  writes re_route = [1; 2; 3; 4]%nat /\ must re_route = [3; 4]%nat.
Proof. split; reflexivity. Qed.

(** A concatenation, one step at a time. *)
Lemma rmatch_Cat_post r1 r2 s g k res :
  Re.rmatch (Re.Cat r1 r2) s g k = Some res ->
  exists s1 g1,
    Re.rmatch r2 s1 g1 k = Some res
    /\ rest_of s1 s
    /\ (forall n, n ∉ writes r1 -> g1 !! n = g !! n).
Proof.
  cbn [Re.rmatch]. intros H.
  destruct (rmatch_post _ _ _ _ _ H) as (s1 & g1 & H1 & R1 & _ & W1 & _).
  exists s1, g1. auto.
Qed.

Lemma rmatch_Cat_Lit t r2 s g k res :
  Re.rmatch (Re.Cat (Re.Lit t) r2) s g k = Some res ->
  exists s1, s = t +:+ s1 /\ Re.rmatch r2 s1 g k = Some res.
Proof. cbn [Re.rmatch]. apply rmatch_Lit. Qed.

(** A match of the part from [dev] on reads [dev] and [src] in the text
    and leaves group 2 alone. *)
Lemma re_route_dev_src_match s1 g1 k res :
  Re.rmatch re_route_dev_src s1 g1 k = Some res ->
  occurs "dev" s1 /\ occurs "src" s1
  /\ exists s' g', k s' g' = Some res /\ g' !! 2%nat = g1 !! 2%nat.
Proof.
  unfold re_route_dev_src. intros H1.
  destruct (rmatch_Cat_post _ _ _ _ _ _ H1) as (s2 & g2 & H2 & R2 & W2).
  destruct (rmatch_Cat_Lit _ _ _ _ _ _ H2) as (s3 & -> & H3).
  destruct (rmatch_Cat_post _ _ _ _ _ _ H3) as (s4 & g4 & H4 & R4 & W4).
  destruct (rmatch_Cat_post _ _ _ _ _ _ H4) as (s5 & g5 & H5 & R5 & W5).
  destruct (rmatch_Cat_post _ _ _ _ _ _ H5) as (s6 & g6 & H6 & R6 & W6).
  destruct (rmatch_Cat_post _ _ _ _ _ _ H6) as (s7 & g7 & H7 & R7 & W7).
  destruct (rmatch_Cat_Lit _ _ _ _ _ _ H7) as (s8 & -> & H8).
  destruct (rmatch_Cat_post _ _ _ _ _ _ H8) as (s9 & g9 & H9 & R9 & W9).
  destruct (rmatch_post _ _ _ _ _ H9) as (s10 & g10 & H10 & R10 & _ & W10 & _).
  split; [eapply occurs_rest; [apply occurs_prefix | exact R2]|].
  split.
  { eapply occurs_rest; [apply occurs_prefix|].
    eapply rest_of_trans; [exact R7|].
    eapply rest_of_trans; [exact R6|].
    eapply rest_of_trans; [exact R5|].
    eapply rest_of_trans; [exact R4|].
    eapply rest_of_trans; [|exact R2].
    exists "dev". reflexivity. }
  exists s10, g10. split; [exact H10|].
  rewrite W10, W9, W7, W6, W5, W4, W2; [reflexivity|..];
    cbn; rewrite ?elem_of_cons, ?elem_of_nil; intuition discriminate.
Qed.

(** A match of the group of [via] reads [via] after one character. *)
Lemma re_route_via_match s g k res :
  Re.rmatch re_route_via s g k = Some res -> occurs "via" s.
Proof.
  unfold re_route_via.
  change (Re.rmatch (Re.Grp 1 ?r) s g k)
    with (Re.rmatch r s g
            (fun s' g' => k s' (<[1%nat := Some (Re.consumed s s')]> g'))).
  intros E.
  destruct (rmatch_Cat_post _ _ _ _ _ _ E) as (s1 & g1 & H1 & R1 & _).
  destruct (rmatch_Cat_Lit _ _ _ _ _ _ H1) as (s2 & -> & _).
  eapply occurs_rest; [apply occurs_prefix | exact R1].
Qed.

(** A match of the route pattern reads [dev] and [src] in the text, and
    leaves group 2 alone when the text has no [via]. *)
Lemma re_route_match s g k res :
  Re.rmatch re_route s g k = Some res ->
  occurs "dev" s /\ occurs "src" s
  /\ (~ occurs "via" s -> exists s' g',
        k s' g' = Some res /\ g' !! 2%nat = g !! 2%nat).
Proof.
  unfold re_route.
  change (Re.rmatch (Re.Cat (Re.Opt re_route_via) re_route_dev_src) s g k)
    with (match Re.rmatch re_route_via s g
                  (fun s' g' => Re.rmatch re_route_dev_src s' g' k) with
          | Some x => Some x
          | None => Re.rmatch re_route_dev_src s g k
          end).
  intros H.
  destruct (Re.rmatch re_route_via s g _) as [x|] eqn:E.
  - injection H as <-.
    destruct (rmatch_post _ _ _ _ _ E) as (s1 & g1 & H1 & R1 & _).
    destruct (re_route_dev_src_match _ _ _ _ H1) as (Hd & Hs & _).
    split; [eapply occurs_rest; eassumption|].
    split; [eapply occurs_rest; eassumption|].
    intros Hvia. elim Hvia. eapply re_route_via_match, E.
  - destruct (re_route_dev_src_match _ _ _ _ H) as (Hd & Hs & Hk).
    split; [exact Hd|]. split; [exact Hs|]. intros _. exact Hk.
Qed.

(** The groups of a successful search for the route pattern. *)
Lemma re_route_search out g :
  Re.search re_route 4 out = Some g ->
  exists gw dev src,
    drop 1 (Re.groups_of g) = [gw; Some dev; Some src]
    /\ occurs "dev" out /\ occurs "src" out
    /\ (~ occurs "via" out -> gw = None).
Proof.
  unfold Re.search. intros H.
  destruct (search_from_match _ _ _ _ H) as (s0 & R0 & Hm).
  destruct (rmatch_post _ _ _ _ _ Hm) as (s' & g' & Hk & _ & L & _ & _ & M).
  injection Hk as ->.
  destruct (re_route_match _ _ _ _ Hm) as (Hd & Hs & Hv).
  destruct (M 3%nat) as [dev Hdev]; [rewrite (proj2 re_route_groups);
    rewrite !elem_of_cons; auto | cbn; lia |].
  destruct (M 4%nat) as [src Hsrc]; [rewrite (proj2 re_route_groups);
    rewrite !elem_of_cons; auto | cbn; lia |].
  cbn [length replicate] in L.
  destruct g as [|a0 [|a1 [|a2 [|a3 [|a4 [|]]]]]]; try discriminate L.
  cbn in Hdev, Hsrc. injection Hdev as ->. injection Hsrc as ->.
  exists a2, dev, src. split; [reflexivity|].
  split; [eapply occurs_rest; eassumption|].
  split; [eapply occurs_rest; eassumption|].
  intros Hvia.
  destruct (Hv (fun O => Hvia (occurs_rest _ _ _ O R0)))
    as (s1 & g1 & Hk1 & Hg1).
  injection Hk1 as ->. cbn in Hg1. congruence.
Qed.
(** *** get_route *)

(** What [get_route] returns, from what the routing query returns. *)
Lemma get_route_result os ipaddr self :
  fst (get_route os ipaddr self) =
  Ok match fst (run_cmd os ("ip route get " +:+ ipaddr) false (Some "DBG1")
                  "Get routing info: " true self) with
     | Ok (RStdout out) =>
         match Re.search re_route 4 out with
         | Some regex => drop 1 (Re.groups_of regex)
         | None => [None; None; None]
         end
     | _ => [None; None; None]
     end.
Proof.
  unfold get_route, try_except. unfold bind at 1.
  destruct (run_cmd os _ false _ _ true self) as [[[|out]|e] h'];
    cbn [fst]; try reflexivity.
  destruct (Re.search re_route 4 out); reflexivity.
Qed.

(** C7, as the code has it: [get_route] always returns a triple.  The
    triple is [(None, None, None)] when the routing query fails.  When the
    query prints [out], the triple is either [(None, None, None)] or has
    both a device and a source address, which happens only when [out]
    reads [dev] and [src]; the gateway is [None] when [out] has no [via].
    So the gateway is the one optional field, the device and the source
    address are both required.  The output
    [10.0.0.1 via 10.0.0.254 dev eth0 src 10.0.0.5] gives
    [(10.0.0.254, eth0, 10.0.0.5)]. *)
Theorem get_route_parse os ipaddr self :
  exists gw dev src,
    fst (get_route os ipaddr self) = Ok [gw; dev; src]
    /\ (dev = None <-> src = None)
    /\ (dev = None -> gw = None)
    /\ (forall e,
          fst (run_cmd os ("ip route get " +:+ ipaddr) false (Some "DBG1")
                 "Get routing info: " true self) = Raise e ->
          gw = None /\ dev = None /\ src = None)
    /\ (forall out,
          fst (run_cmd os ("ip route get " +:+ ipaddr) false (Some "DBG1")
                 "Get routing info: " true self) = Ok (RStdout out) ->
          (dev <> None -> occurs "dev" out /\ occurs "src" out)
          /\ (~ occurs "via" out -> gw = None)
          /\ (out = "10.0.0.1 via 10.0.0.254 dev eth0 src 10.0.0.5" ->
              gw = Some "10.0.0.254" /\ dev = Some "eth0"
              /\ src = Some "10.0.0.5")).
Proof.
  rewrite get_route_result.
  destruct (fst (run_cmd os _ false _ _ true self)) as [[|out]|e] eqn:Q.
  1, 3: exists None, None, None; repeat split; auto; try discriminate.
  destruct (Re.search re_route 4 out) as [g|] eqn:S.
  - destruct (re_route_search _ _ S) as (gw & dev & src & Hg & Hd & Hs & Hv).
    exists gw, (Some dev), (Some src).
    split; [rewrite Hg; reflexivity|]. split; [split; discriminate|].
    split; [discriminate|]. split; [discriminate|].
    intros out' E. injection E as <-.
    split; [auto|]. split; [exact Hv|].
    intros ->. vm_compute in S. injection S as <-.
    vm_compute in Hg. injection Hg as <- <- <-. auto.
  - exists None, None, None. split; [reflexivity|].
    split; [tauto|]. split; [auto|]. split; [auto|].
    intros out' E. injection E as <-.
    split; [congruence|]. split; [auto|].
    intros ->. vm_compute in S. discriminate S.
Qed.
(** C7: the output of the specification, from a command that succeeds. *)
Example get_route_example :
  fst (get_route (prints "10.0.0.1 via 10.0.0.254 dev eth0 src 10.0.0.5")
         "10.0.0.1" local_host)
  = Ok [Some "10.0.0.254"; Some "eth0"; Some "10.0.0.5"].
Proof. vm_compute. reflexivity. Qed.

(** C7: an output with no [via]: the gateway is absent. *)
Example get_route_no_via :
  fst (get_route (prints "10.0.0.1 dev eth0 src 10.0.0.5 uid 1000")
         "10.0.0.1" local_host)
  = Ok [None; Some "eth0"; Some "10.0.0.5"].
Proof. vm_compute. reflexivity. Qed.

(** C7: the query fails; the triple is empty and the error message is
    logged at level DBG7. *)
Example get_route_query_fails :
  let os := scripted 1000 [] (exits 2 "" "RTNETLINK answers: Network is unreachable")
              0 true true in
  let r := get_route os "10.9.9.9" local_host in
  fst r = Ok [None; None; None]
  /\ last (trace (snd r))
     = Some (EvDprint (Some "DBG7") "RTNETLINK answers: Network is unreachable").
Proof. vm_compute. auto. Qed.

(** C7, where the claim fails: the query succeeds and its output names
    the device but no source address; the device is not returned. *)
Lemma get_route_source_required :
  let os := prints "10.0.0.1 dev eth0" in
  fst (run_cmd os "ip route get 10.0.0.1" false (Some "DBG1")
         "Get routing info: " true local_host)
  = Ok (RStdout "10.0.0.1 dev eth0")
  /\ fst (get_route os "10.0.0.1" local_host) = Ok [None; None; None].
Proof. vm_compute. auto. Qed.
(** ** Addresses and construction *)

Lemma usable_false family info : usable family info = false -> skipped family info.
Proof.
  unfold usable, skipped. intros H.
  apply andb_false_iff in H. destruct H as [H|H].
  - left. apply Z.eqb_neq, H.
  - right. apply negb_false_iff in H. apply bool_decide_eq_true in H. exact H.
Qed.

Lemma usable_true family info :
  usable family info = true ->
  ai_family info = family /\ ai_addr info ∉ ["127.0.0.1"; "::1"].
Proof.
  unfold usable. intros H. apply andb_true_iff in H. destruct H as [H1 H2].
  split; [apply Z.eqb_eq, H1|].
  apply negb_true_iff in H2. apply bool_decide_eq_false in H2. exact H2.
Qed.

(** The loop returns the address of the first entry it does not pass
    over. *)
Lemma first_address_spec family infolist :
  match first_address family infolist with
  | Some addr =>
      exists before info after,
        infolist = before ++ info :: after
        /\ Forall (skipped family) before
        /\ ai_family info = family /\ ai_addr info = addr
        /\ addr ∉ ["127.0.0.1"; "::1"]
  | None => Forall (skipped family) infolist
  end.
Proof.
  induction infolist as [|info l IH]; cbn [first_address]; [constructor|].
  destruct (usable family info) eqn:U.
  - apply usable_true in U. destruct U as [U1 U2].
    exists [], info, l. repeat split; auto.
  - apply usable_false in U.
    destruct (first_address family l) as [addr|].
    + destruct IH as (before & i & after & -> & Hb & Hi).
      exists (info :: before), i, after. split; [reflexivity|].
      split; [constructor; assumption | exact Hi].
    + constructor; assumption.
Qed.

(** X1.  [get_ip_address] returns the address of the first entry of the
    look-up that is of the family asked for and is not a loopback
    address; the look-up is for the name of the machine when [host] is
    empty.  It raises when there is no such entry, in particular when
    the look-up fails, and the message tells the family, the name looked
    up and whether it was the local one. *)
Theorem get_ip_address_first (net : Net) (host : string) (ipv6 : bool) :
  let family := if ipv6 then AF_INET6 else AF_INET in
  let name := if PyStr.nonempty host then host else gethostname net in
  let infolist := default [] (getaddrinfo net name) in
  match get_ip_address net host ipv6 with
  | Ok addr =>
      addr <> "127.0.0.1" /\ addr <> "::1"
      /\ exists before info after,
           infolist = before ++ info :: after
           /\ Forall (skipped family) before
           /\ ai_family info = family /\ ai_addr info = addr
  | Raise e =>
      Forall (skipped family) infolist
      /\ e = Exception
               ("Unable to get IP" +:+ (if ipv6 then "v6" else "v4")
                +:+ " address for "
                +:+ (if PyStr.nonempty host then "" else "local ")
                +:+ "host '" +:+ name +:+ "'")
  end.
Proof.
  intros family name infolist. unfold get_ip_address. cbv zeta.
  change (if ipv6 then AF_INET6 else AF_INET) with family.
  change (if PyStr.nonempty host then host else gethostname net) with name.
  assert (E : match getaddrinfo net name with Some l => l | None => [] end
              = infolist).
  { subst infolist. destruct (getaddrinfo net name); reflexivity. }
  rewrite E.
  pose proof (first_address_spec family infolist) as S.
  destruct (first_address family infolist) as [addr|].
  - destruct S as (before & info & after & H1 & H2 & H3 & H4 & H5).
    split; [intros ->; apply H5; set_solver|].
    split; [intros ->; apply H5; set_solver|].
    exists before, info, after. auto.
  - split; [exact S | reflexivity].
Qed.

Example get_ip_address_local :
  get_ip_address example_net "" false = Ok "10.0.0.5"
  /\ get_ip_address example_net "" true = Ok "fe80::1"
  /\ get_ip_address example_net "nowhere" false
     = Raise (Exception "Unable to get IPv4 address for host 'nowhere'").
Proof. vm_compute. auto. Qed.
(** A string without a last character is empty, and conversely. *)
Lemma last_some_nonempty s c : PyStr.last s = Some c -> s <> "".
Proof. intros H ->. discriminate H. Qed.

(** [__del__] on an object that is not mounted, has dropped no network
    and has created no directory does nothing. *)
Lemma del_idle os h :
  need_network_reset h = false -> mounted h = false ->
  _mtpoint_created h = [] ->
  __del__ os h = (Ok tt, h).
Proof.
  intros H1 H2 H3. unfold __del__. rewrite bind_get, H1. cbn [when].
  rewrite bind_ret, bind_get, H2. cbn [when].
  rewrite bind_ret, bind_get, H3. reflexivity.
Qed.

(** X2.  The constructor raises [IndexError] when [proto] is empty, since it
    reads its last character; otherwise it raises what the address
    look-up raises, for IPv6 exactly when [proto] ends in 6, or else
    what the loading of libc raises.  When it returns, the object is
    idle: not mounted, no process registered, its data directory the
    mount point, local exactly when [host] is empty, and its destructor
    would do nothing. *)
Theorem init_outcomes (net : Net) (os : OS) (host user server : string)
    (nfsversion minorversion : Z) (proto : string) (port : Z)
    (sec export mtpoint datadir mtopts interface : string)
    (nomount : bool) (iptables sudo : string) :
  let lookup := get_ip_address net host (PyStr.endswith "6" proto) in
  match __init__ net host user server nfsversion minorversion proto port sec
          export mtpoint datadir mtopts interface nomount iptables sudo with
  | Raise e =>
      (proto = "" /\ e = IndexError "string index out of range")
      \/ (proto <> "" /\ lookup = Raise e)
      \/ (proto <> "" /\ (exists addr, lookup = Ok addr)
          /\ load_libc net = Some e)
  | Ok o =>
      proto <> "" /\ lookup = Ok (ipaddr o) /\ load_libc net = None
      /\ fqdn o = getfqdn net host
      /\ (_localhost (attrs o) = true <-> host = "")
      /\ mtdir (attrs o) = mtpoint
      /\ mounted (attrs o) = false
      /\ process_list (attrs o) = []
      /\ __del__ os (attrs o) = (Ok tt, attrs o)
  end.
Proof.
  intros lookup. subst lookup. unfold __init__, PyStr.endswith.
  destruct (PyStr.last proto) as [c|] eqn:L.
  - pose proof (last_some_nonempty _ _ L) as Hne.
    destruct (get_ip_address net host (Ascii.eqb c "6")) as [addr|e] eqn:G.
    + destruct (load_libc net) as [e|] eqn:LL.
      * right. right. split; [exact Hne|]. split; [eauto | reflexivity].
      * cbn [attrs ipaddr fqdn]. split; [exact Hne|].
        split; [reflexivity|]. split; [reflexivity|]. split; [reflexivity|].
        split.
        { unfold init. fields. destruct host; cbn; split; congruence. }
        split; [reflexivity|]. split; [reflexivity|]. split; [reflexivity|].
        apply del_idle; reflexivity.
    + right. left. split; [exact Hne | reflexivity].
  - left. split; [apply last_none_empty, L | reflexivity].
Qed.

(** Construction on the example machine: a local object; no protocol,
    no object. *)
Example init_example :
  (exists o,
     __init__ example_net "" "" "10.0.0.1" 4 1 "tcp" 2049 "sys" "/" "/mnt/t" ""
       "hard,rsize=4096,wsize=4096" "eth0" false "/usr/sbin/iptables"
       "/usr/bin/sudo" = Ok o
     /\ attrs o = local_host /\ ipaddr o = "10.0.0.5"
     /\ fqdn o = "client.example.com")
  /\ __init__ example_net "" "" "10.0.0.1" 4 1 "" 2049 "sys" "/" "/mnt/t" ""
       "hard,rsize=4096,wsize=4096" "eth0" false "/usr/sbin/iptables"
       "/usr/bin/sudo" = Raise (IndexError "string index out of range")
  /\ __init__ example_net "" "" "10.0.0.1" 4 1 "tcp6" 2049 "sys" "/" "/mnt/t" ""
       "hard,rsize=4096,wsize=4096" "eth0" false "/usr/sbin/iptables"
       "/usr/bin/sudo" = Ok (mkHostObject
                               (init "" "" "10.0.0.1" 4 1 "tcp6" 2049 "sys" "/"
                                  "/mnt/t" "" "hard,rsize=4096,wsize=4096"
                                  "eth0" false "/usr/sbin/iptables"
                                  "/usr/bin/sudo")
                               "client.example.com" "fe80::1").
Proof.
  split; [eexists; split; [reflexivity|]; repeat split|].
  split; reflexivity.
Qed.
(** ** The command line *)

(** Escaping leaves no double quote without a backslash before it. *)
Lemma replace_dquote_escaped cmd : forall a b,
  PyStr.replace PyStr.dquote
    (String PyStr.backslash (PyStr.of_char PyStr.dquote)) cmd
  = a +:+ String PyStr.dquote b ->
  exists a', a = a' +:+ PyStr.of_char PyStr.backslash.
Proof.
  induction cmd as [|x cmd IH]; intros a b; cbn [PyStr.replace].
  - destruct a; discriminate.
  - destruct (Ascii.eqb_spec x PyStr.dquote) as [->|Hx].
    + cbn [append PyStr.of_char].
      destruct a as [|y a]; [discriminate|].
      intros E. injection E as <- E.
      destruct a as [|z a].
      * exists "". reflexivity.
      * injection E as <- E. destruct (IH _ _ E) as (a' & ->).
        exists (String PyStr.backslash (String PyStr.dquote a')). reflexivity.
    + cbn [append PyStr.of_char].
      destruct a as [|y a]; intros E.
      * injection E as E _. contradiction.
      * injection E as <- E. destruct (IH _ _ E) as (a' & ->).
        exists (String x a'). reflexivity.
Qed.

(** A command without double quotes goes through unchanged. *)
Lemma replace_no_dquote cmd :
  (forall a b, cmd <> a +:+ String PyStr.dquote b) ->
  PyStr.replace PyStr.dquote
    (String PyStr.backslash (PyStr.of_char PyStr.dquote)) cmd = cmd.
Proof.
  induction cmd as [|x cmd IH]; intros H; cbn [PyStr.replace]; [reflexivity|].
  destruct (Ascii.eqb_spec x PyStr.dquote) as [->|Hx].
  - elim (H "" cmd). reflexivity.
  - cbn [append PyStr.of_char].
    f_equal. apply IH. intros a b ->. apply (H (String x a) b). reflexivity.
Qed.

(** X3.  What [run_cmd] hands to the shell for a remote host: an ssh command
    whose last argument, between double quotes, is the command (behind
    the sudo prefix when sudo is asked for and the caller is not root)
    with a backslash put before each of its double quotes, so that no
    double quote of the argument is left bare; the login name is given
    only when [user] is not empty.  Whether sudo is prefixed depends on
    the user id of the calling process, on the local machine: as root,
    asking for sudo changes nothing. *)
Theorem command_line_remote (os : OS) (self : Host) (cmd : string) (su : bool) :
  _localhost self = false ->
  let login := if PyStr.nonempty (user self) then user self +:+ "@" else "" in
  let inner :=
    if su && negb (getuid os =? 0)%Z then sudo self +:+ " " +:+ cmd else cmd in
  exists arg,
    command_line os self cmd su
    = "ssh -t -t " +:+ login +:+ host self +:+ " "
      +:+ PyStr.of_char PyStr.dquote +:+ arg +:+ PyStr.of_char PyStr.dquote
    /\ (forall a b, arg = a +:+ String PyStr.dquote b ->
          exists a', a = a' +:+ PyStr.of_char PyStr.backslash)
    /\ ((forall a b, inner <> a +:+ String PyStr.dquote b) -> arg = inner)
    /\ (getuid os = 0 ->
        command_line os self cmd true = command_line os self cmd false).
Proof.
  intros Hl login inner.
  exists (PyStr.replace PyStr.dquote
            (String PyStr.backslash (PyStr.of_char PyStr.dquote)) inner).
  split.
  { unfold command_line, sudo_cmd. rewrite Hl. cbn [negb].
    subst inner login. destruct su; cbn [andb]; [|reflexivity].
    destruct (negb (getuid os =? 0)%Z); reflexivity. }
  split; [apply replace_dquote_escaped|].
  split; [apply replace_no_dquote|].
  intros Hu. unfold command_line, sudo_cmd. rewrite Hu. reflexivity.
Qed.

Lemma command_line_remote_witness :
  exists arg,
    command_line (scripted 500 [] (exits 0 "" "") 0 true true) remote_host
      "ls -l" true
    = "ssh -t -t 192.168.0.11 "
      +:+ PyStr.of_char PyStr.dquote +:+ arg +:+ PyStr.of_char PyStr.dquote
    /\ (forall a b, arg = a +:+ String PyStr.dquote b ->
          exists a', a = a' +:+ PyStr.of_char PyStr.backslash)
    /\ ((forall a b, "/usr/bin/sudo ls -l" <> a +:+ String PyStr.dquote b) ->
        arg = "/usr/bin/sudo ls -l")
    /\ (500 = 0 ->
        command_line (scripted 500 [] (exits 0 "" "") 0 true true) remote_host
          "ls -l" true
        = command_line (scripted 500 [] (exits 0 "" "") 0 true true) remote_host
            "ls -l" false).
Proof.
  exact (command_line_remote (scripted 500 [] (exits 0 "" "") 0 true true)
           remote_host "ls -l" true eq_refl).
Defined.

(** A command with double quotes, sent to a remote host by a caller who
    is not root. *)
Example command_line_quotes :
  command_line (scripted 500 [] (exits 0 "" "") 0 true true) remote_host
    ("echo " +:+ PyStr.of_char PyStr.dquote +:+ "a b" +:+ PyStr.of_char PyStr.dquote)
    true
  = "ssh -t -t 192.168.0.11 " +:+ PyStr.of_char PyStr.dquote
    +:+ "/usr/bin/sudo echo \" +:+ PyStr.of_char PyStr.dquote +:+ "a b\"
    +:+ PyStr.of_char PyStr.dquote +:+ PyStr.of_char PyStr.dquote.
Proof. vm_compute. reflexivity. Qed.
(** ** Steps *)

Section CoreSteps.

Context (os : OS) (R : relation Host) `{!PreOrder R} (St : core_steps R).

Lemma sk_emit e : keeps R (emit e).
Proof. apply keeps_upd. intros h. apply (st_trace R St). Qed.

Lemma sk_dprint d t : keeps R (dprint d t).
Proof. apply sk_emit. Qed.

Lemma sk_tick : keeps R tick.
Proof. intros h. apply (st_clock R St). Qed.

(** One step of a proof that a method body keeps [R]. *)
Ltac sk_upd :=
  lazymatch goal with
  | |- keeps _ (upd _) =>
      apply keeps_upd; intros ?; cbv beta;
      lazymatch goal with
      | |- _ _ (set_process _ _) => apply (st_process R St)
      | |- _ _ (set_pstdout _ _) => apply (st_pstdout R St)
      | |- _ _ (set_pstderr _ _) => apply (st_pstderr R St)
      | |- _ _ (set_perror _ _) => apply (st_perror R St)
      | |- _ _ (set_returncode _ _) => apply (st_returncode R St)
      | |- _ _ (set_process_list _ _) => apply (st_process_list R St)
      | |- _ _ (set_process_smap _ _) => apply (st_process_smap R St)
      | |- _ _ (set_process_dmap _ _) => apply (st_process_dmap R St)
      | |- _ _ (set_checkmtpoint _ _) => apply (st_checked R St)
      | |- _ _ (set_invalidmtpoint _ _) => apply (st_invalid R St)
      | |- _ _ (set_mtpoint_created _ _) => apply (st_created R St)
      | |- _ _ (set_mounted false _) => apply (st_unmounted R St)
      end
  end.

Ltac sk :=
  first
    [ sk_upd
    | lazymatch goal with
      | |- keeps _ (ret _) => apply keeps_ret; typeclasses eauto
      | |- keeps _ (raise _) => apply keeps_raise; typeclasses eauto
      | |- keeps _ get => apply keeps_get; typeclasses eauto
      | |- keeps _ (dprint _ _) => apply sk_dprint
      | |- keeps _ (emit _) => apply sk_emit
      | |- keeps _ tick => apply sk_tick
      | |- keeps _ (try_pass _) => apply keeps_try_pass
      | |- keeps _ (when _ _) => apply keeps_when; [typeclasses eauto|]
      | |- keeps _ (try_except _ _) =>
          apply keeps_try_except; [typeclasses eauto| |]
      | |- keeps _ (for_each _ _) =>
          apply keeps_for_each; [typeclasses eauto|]; intros ?
      | |- keeps _ (bind _ _) =>
          apply keeps_bind; [typeclasses eauto| |intros ?]
      | |- keeps _ (if ?b then _ else _) => destruct b
      | |- keeps _ (match ?x with _ => _ end) => destruct x
      end ].

Lemma sk_run_cmd cmd su dlevel msg w : keeps R (run_cmd os cmd su dlevel msg w).
Proof. unfold run_cmd, Popen. repeat (cbv zeta; sk). Qed.

Lemma sk_os_path_exists p : keeps R (os_path_exists os p).
Proof. unfold os_path_exists. repeat sk. Qed.

Lemma sk_os_path_isdir p : keeps R (os_path_isdir os p).
Proof. unfold os_path_isdir. repeat sk. Qed.

Lemma sk_os_mkdir p mode : keeps R (os_mkdir os p mode).
Proof. unfold os_mkdir. repeat sk. Qed.

Ltac sk1 :=
  lazymatch goal with
  | |- keeps _ (run_cmd _ _ _ _ _ _) => apply sk_run_cmd
  | |- keeps _ (os_path_exists _ _) => apply sk_os_path_exists
  | |- keeps _ (os_path_isdir _ _) => apply sk_os_path_isdir
  | |- keeps _ (os_mkdir _ _ _) => apply sk_os_mkdir
  | |- _ => sk
  end.

Lemma sk_wait_loop plist terminate dlevel msg out :
  keeps R (wait_loop os plist terminate dlevel msg out).
Proof.
  revert dlevel out.
  induction plist as [|proc plist IH]; intros dlevel out; cbn [wait_loop].
  - apply keeps_ret; typeclasses eauto.
  - apply keeps_bind; [typeclasses eauto|apply keeps_get; typeclasses eauto|].
    intros self. destruct (bool_decide _); [|apply IH].
    cbv zeta.
    repeat lazymatch goal with
           | |- keeps _ (wait_loop _ _ _ _ _ _) => apply IH
           | |- _ => sk1
           end.
Qed.

Lemma sk_wait_cmd p terminate dlevel msg :
  keeps R (wait_cmd os p terminate dlevel msg).
Proof.
  unfold wait_cmd.
  apply keeps_bind; [typeclasses eauto|apply keeps_get; typeclasses eauto|].
  intros self. apply sk_wait_loop.
Qed.

Lemma sk_probe_mtpoint p : keeps R (probe_mtpoint os p).
Proof. unfold probe_mtpoint. repeat (cbv zeta; sk1). Qed.

Lemma sk_check_mtpoint p : keeps R (_check_mtpoint os p).
Proof.
  unfold _check_mtpoint.
  repeat (cbv zeta;
          lazymatch goal with
          | |- keeps _ (probe_mtpoint _ _) => apply sk_probe_mtpoint
          | |- _ => sk1
          end).
Qed.

Lemma sk_create_datadir : keeps R (create_datadir os).
Proof. unfold create_datadir. repeat (cbv zeta; sk1). Qed.

Lemma sk_umount_loop n cmd : keeps R (umount_loop os n cmd).
Proof.
  induction n as [|n IH]; cbn [umount_loop].
  - apply keeps_ret; typeclasses eauto.
  - repeat lazymatch goal with
           | |- keeps _ (umount_loop _ _ _) => apply IH
           | |- _ => sk1
           end.
Qed.

Lemma sk_umount : keeps R (umount os).
Proof.
  unfold umount.
  repeat lazymatch goal with
         | |- keeps _ (umount_loop _ _ _) => apply sk_umount_loop
         | |- keeps _ (_check_mtpoint _ _) => apply sk_check_mtpoint
         | |- _ => sk1
         end.
Qed.

Lemma sk_network_reset : keeps R (network_reset os).
Proof. unfold network_reset. repeat sk1. Qed.

Lemma sk_get_route ip : keeps R (get_route os ip).
Proof. unfold get_route. repeat (cbv zeta; sk1). Qed.

Lemma sk_network_drop ip port :
  (forall h, R h (set_need_network_reset true h)) ->
  keeps R (network_drop os ip port).
Proof.
  intros Hf. unfold network_drop.
  apply keeps_bind; [typeclasses eauto|apply keeps_upd; exact Hf|].
  intros _. repeat sk1.
Qed.

Lemma sk_mount kwargs :
  (forall h v, R h (set_mtdir v h)) ->
  (forall h, R h (set_mounted true h)) ->
  (forall h v, R h (set_mtpoint v h)) ->
  keeps R (mount os kwargs).
Proof.
  intros Hd Hm Hp. unfold mount. cbv zeta.
  repeat lazymatch goal with
         | |- keeps _ (_check_mtpoint _ _) => apply sk_check_mtpoint
         | |- keeps _ (create_datadir _) => apply sk_create_datadir
         | |- keeps _ (upd (set_mtdir _)) => apply keeps_upd; intros ?; apply Hd
         | |- keeps _ (upd (set_mounted true)) => apply keeps_upd; exact Hm
         | |- keeps _ (upd (set_mtpoint _)) => apply keeps_upd; intros ?; apply Hp
         | |- _ => sk1
         end.
Qed.

(** The destructor is made of the same steps. *)
Lemma sk_del : keeps R (__del__ os).
Proof.
  unfold __del__.
  repeat lazymatch goal with
         | |- keeps _ (network_reset _) => apply sk_network_reset
         | |- keeps _ (umount _) => apply sk_umount
         | |- _ => sk1
         end.
Qed.

Lemma sk_del_after_reset : keeps R (del_after_reset os).
Proof.
  unfold del_after_reset.
  repeat lazymatch goal with
         | |- keeps _ (umount _) => apply sk_umount
         | |- _ => sk1
         end.
Qed.

End CoreSteps.

Section AllSteps.

Context (os : OS) (R : relation Host) `{!PreOrder R} (St : all_steps R).

Lemma sk_call c : forall h, R h (call os c h).
Proof.
  pose proof (st_core R St) as Sc.
  destruct c; cbn [call].
  - apply (sk_run_cmd os R Sc).
  - apply (sk_wait_cmd os R Sc).
  - apply (sk_wait_cmd os R Sc).
  - apply (sk_check_mtpoint os R Sc).
  - apply (sk_mount os R Sc);
      [apply (st_mtdir R St) | apply (st_mounted R St) | apply (st_mtpoint R St)].
  - apply (sk_umount os R Sc).
  - apply (sk_network_drop os R Sc). apply (st_flag R St).
  - apply (sk_network_reset os R Sc).
  - apply (sk_get_route os R Sc).
Qed.

Lemma sk_session calls : forall h, R h (session os calls h).
Proof.
  unfold session. induction calls as [|c calls IH]; intros h; cbn [fold_left].
  - reflexivity.
  - etransitivity; [apply sk_call | apply IH].
Qed.

End AllSteps.
(** ** Relations that the steps respect *)

#[local] Instance trace_grows_preorder : PreOrder trace_grows.
Proof.
  split.
  - intros h. exists []. rewrite app_nil_r. reflexivity.
  - intros a b c [e1 H1] [e2 H2]. exists (e1 ++ e2).
    rewrite H2, H1, app_assoc. reflexivity.
Qed.

#[local] Instance flag_stays_preorder : PreOrder flag_stays.
Proof.
  split.
  - intros h H. exact H.
  - intros a b c H1 H2 H. apply H2, H1, H.
Qed.

#[local] Instance records_grow_preorder : PreOrder records_grow.
Proof.
  split.
  - intros h. repeat split; try (exists []; rewrite app_nil_r; reflexivity).
    intros k Hk. exact Hk.
  - intros a b c (A1 & A2 & A3 & A4) (B1 & B2 & B3 & B4).
    destruct A1 as [l1 A1], A2 as [l2 A2], A3 as [l3 A3].
    destruct B1 as [m1 B1], B2 as [m2 B2], B3 as [m3 B3].
    split; [exists (l1 ++ m1); rewrite B1, A1, app_assoc; reflexivity|].
    split; [exists (l2 ++ m2); rewrite B2, A2, app_assoc; reflexivity|].
    split; [exists (l3 ++ m3); rewrite B3, A3, app_assoc; reflexivity|].
    intros k Hk. apply B4, A4, Hk.
Qed.

#[local] Instance no_new_mount_preorder : PreOrder no_new_mount.
Proof.
  split.
  - intros h. split; [auto|]. split; [reflexivity|]. intros p Hp. exact Hp.
  - intros a b c (A1 & A2 & A3) (B1 & B2 & B3).
    split; [auto|]. split; [congruence|]. intros p Hp. apply B3, A3, Hp.
Qed.

Lemma trace_grows_steps : all_steps trace_grows.
Proof.
  split; [split|..]; intros; unfold trace_grows; fields;
    first [ eexists; reflexivity
          | exists []; rewrite app_nil_r; reflexivity ].
Qed.

Lemma flag_stays_steps : all_steps flag_stays.
Proof.
  split; [split|..]; intros; unfold flag_stays; fields; auto.
Qed.

Lemma same_config_steps : all_steps same_config.
Proof. split; [split|..]; intros; repeat split. Qed.

Lemma records_grow_steps : all_steps records_grow.
Proof.
  split; [split|..]; intros; unfold records_grow; fields;
    (split; [first [eexists; reflexivity | exists []; rewrite app_nil_r; reflexivity]|]);
    (split; [first [eexists; reflexivity | exists []; rewrite app_nil_r; reflexivity]|]);
    (split; [first [eexists; reflexivity | exists []; rewrite app_nil_r; reflexivity]|]);
    try (intros ? Hk; exact Hk).
  intros k' Hk. destruct (decide (k = k')) as [->|Hne].
  - rewrite lookup_insert_eq. eauto.
  - rewrite lookup_insert_ne by exact Hne. exact Hk.
Qed.

Lemma no_new_mount_steps : core_steps no_new_mount.
Proof.
  split; intros; unfold no_new_mount, checked_grows; fields;
    (split; [first [intros H; exact H | intros H; discriminate H]|]);
    (split; [reflexivity|]); intros q Hq;
    rewrite ?elem_of_app; auto.
Qed.

Lemma no_new_mount_flag h : no_new_mount h (set_need_network_reset true h).
Proof. split; [auto|]. split; [reflexivity|]. intros p Hp. exact Hp. Qed.
(** ** network_reset and network_drop *)

(** One command of [network_reset] with its handler. *)
Lemma reset_try os args h :
  try_except
    (run_cmd os (iptables h +:+ args) true (Some "DBG6") "Network reset: " true ;;
     ret tt)
    (self <- get ;;
     dprint (Some "DBG6") ("Network reset error <" +:+ perror self +:+ ">")) h
  = (Ok tt, reset_step os args h).
Proof.
  unfold try_except. rewrite bind_run_cmd_wait. unfold reset_step.
  destruct (run_outcome _ _); [reflexivity|].
  rewrite bind_get. reflexivity.
Qed.

Lemma network_reset_unfold os h :
  network_reset os h
  = (Ok tt, reset_step os " --delete-chain" (reset_step os " --flush" h)).
Proof.
  unfold network_reset. rewrite bind_get. unfold bind at 1.
  rewrite reset_try. rewrite bind_get. apply reset_try.
Qed.

Lemma reset_step_facts os args h :
  trace (reset_step os args h) = trace h ++ reset_events os h (clock h) args
  /\ clock (reset_step os args h) = S (clock h)
  /\ same_config h (reset_step os args h)
  /\ same_mounts h (reset_step os args h)
  /\ same_registry h (reset_step os args h).
Proof.
  unfold reset_step, reset_events, child_of.
  destruct (run_outcome _ _); unfold ran; fields.
  - rewrite app_nil_r. repeat split.
  - rewrite <- app_assoc. repeat split.
Qed.

Lemma reset_events_config os h h' t args :
  same_config h h' -> reset_events os h' t args = reset_events os h t args.
Proof.
  intros C. unfold reset_events.
  rewrite (command_line_config os h h') by exact C.
  destruct C as (_ & _ & _ & _ & _ & _ & _ & _ & _ & _ & _ & _ & _ & Hi & _ & Hl).
  rewrite Hi, Hl. reflexivity.
Qed.

(** The events of [network_reset]. *)
Lemma network_reset_trace os h :
  trace (snd (network_reset os h))
  = trace h ++ reset_events os h (clock h) " --flush"
    ++ reset_events os h (S (clock h)) " --delete-chain".
Proof.
  rewrite network_reset_unfold. cbn [snd].
  destruct (reset_step_facts os " --flush" h) as (T1 & K1 & C1 & _).
  destruct (reset_step_facts os " --delete-chain" (reset_step os " --flush" h))
    as (T2 & _).
  rewrite T2, T1, K1, <- app_assoc.
  rewrite (reset_events_config os h (reset_step os " --flush" h)) by exact C1.
  reflexivity.
Qed.

(** X4.  [network_reset] never raises.  It runs [<iptables> --flush] and then
    [<iptables> --delete-chain], both with sudo, the second whether or
    not the first failed; a command that fails is followed by a log
    line at level DBG6 with the error recorded.  It leaves the
    configuration, the mount bookkeeping (so [need_network_reset] is
    not cleared) and the registry of processes as they were. *)
Theorem network_reset_runs (os : OS) (h : Host) :
  let r := network_reset os h in
  fst r = Ok tt
  /\ trace (snd r)
     = trace h ++ reset_events os h (clock h) " --flush"
       ++ reset_events os h (S (clock h)) " --delete-chain"
  /\ need_network_reset (snd r) = need_network_reset h
  /\ same_config h (snd r) /\ same_mounts h (snd r) /\ same_registry h (snd r).
Proof.
  intros r. subst r. rewrite network_reset_unfold. cbn [fst snd].
  destruct (reset_step_facts os " --flush" h) as (T1 & K1 & C1 & M1 & R1).
  set (h1 := reset_step os " --flush" h) in *.
  destruct (reset_step_facts os " --delete-chain" h1) as (T2 & K2 & C2 & M2 & R2).
  split; [reflexivity|].
  split.
  { rewrite T2, T1, K1, <- app_assoc.
    rewrite (reset_events_config os h h1) by exact C1. reflexivity. }
  assert (M : same_mounts h (reset_step os " --delete-chain" h1))
    by (etransitivity; eassumption).
  split; [apply M|].
  split; [etransitivity; eassumption|]. split; [exact M|].
  destruct R1 as (A1 & A2 & A3), R2 as (B1 & B2 & B3).
  repeat split; congruence.
Qed.

(** On a machine where both commands fail, [network_reset] logs both
    failures and returns. *)
Example network_reset_failing :
  let r := network_reset all_fail local_host in
  fst r = Ok tt
  /\ trace (snd r)
     = [EvDprint (Some "DBG6") "Network reset: /usr/bin/sudo /usr/sbin/iptables --flush";
        EvPopen "/usr/bin/sudo /usr/sbin/iptables --flush";
        EvDprint (Some "DBG6") "Network reset error <denied>";
        EvDprint (Some "DBG6") "Network reset: /usr/bin/sudo /usr/sbin/iptables --delete-chain";
        EvPopen "/usr/bin/sudo /usr/sbin/iptables --delete-chain";
        EvDprint (Some "DBG6") "Network reset error <denied>"].
Proof. vm_compute. auto. Qed.
Lemma network_drop_unfold os ip port h :
  network_drop os ip port h =
  let h0 := set_need_network_reset true h in
  (match run_outcome (_localhost h) (child_of os h (drop_cmd h ip port) true) with
   | Ok _ => Ok tt
   | Raise e => Raise e
   end,
   ran os (drop_cmd h ip port) true (Some "DBG6") "Network drop: " h0).
Proof.
  unfold network_drop. rewrite bind_upd, bind_get, bind_run_cmd_wait.
  cbv zeta. unfold drop_cmd, child_of.
  destruct (run_outcome _ _); reflexivity.
Qed.

(** The destructor of an object whose network was dropped begins with
    [network_reset]. *)
Lemma del_flagged os h :
  need_network_reset h = true ->
  __del__ os h = del_after_reset os (snd (network_reset os h)).
Proof.
  intros H. unfold __del__, del_after_reset. rewrite bind_get, H. cbn [when].
  unfold bind at 1. rewrite network_reset_unfold. reflexivity.
Qed.

(** X5.  [network_drop] sets [need_network_reset] before it runs its
    iptables command, so the flag is set also when the command fails
    and the call raises.  No method clears the flag afterwards, not even
    [network_reset]; so whatever is called in between, the destructor
    begins by running the two commands of [network_reset]. *)
Theorem network_drop_teardown (os os' os'' : OS) (ipaddr : string) (port : Z)
    (calls : list Call) (h : Host) :
  let cmd := drop_cmd h ipaddr port in
  let r := network_drop os ipaddr port h in
  let h2 := session os' calls (snd r) in
  fst r = match run_outcome (_localhost h) (child_of os h cmd true) with
          | Ok _ => Ok tt
          | Raise e => Raise e
          end
  /\ trace (snd r)
     = trace h ++ run_events (Some "DBG6") "Network drop: "
                    (command_line os h cmd true)
  /\ need_network_reset (snd r) = true
  /\ need_network_reset h2 = true
  /\ exists rest,
       trace (snd (__del__ os'' h2))
       = trace h2 ++ reset_events os'' h2 (clock h2) " --flush"
         ++ reset_events os'' h2 (S (clock h2)) " --delete-chain" ++ rest.
Proof.
  intros cmd r h2. subst r cmd.
  assert (F : need_network_reset (snd (network_drop os ipaddr port h)) = true).
  { rewrite network_drop_unfold. reflexivity. }
  assert (F2 : need_network_reset h2 = true).
  { apply (sk_session os' flag_stays flag_stays_steps calls _ F). }
  split; [rewrite network_drop_unfold; reflexivity|].
  split; [rewrite network_drop_unfold; reflexivity|].
  split; [exact F|]. split; [exact F2|].
  rewrite (del_flagged os'' h2 F2).
  pose proof (network_reset_trace os'' h2) as T.
  destruct (sk_del_after_reset os'' trace_grows (st_core _ trace_grows_steps)
              (snd (network_reset os'' h2))) as [rest Hrest].
  exists rest. rewrite Hrest, T, <- !app_assoc. reflexivity.
Qed.

(** Dropping the network fails; the network is reset, a route is asked
    for, and the destructor
    still flushes the tables first. *)
Example network_drop_failing :
  let r := network_drop all_fail "10.0.0.1" 2049 local_host in
  let h2 := session all_fail [CallNetworkReset; CallGetRoute "10.0.0.1"] (snd r) in
  fst r = Raise (Exception "denied")
  /\ need_network_reset h2 = true
  /\ EvPopen "/usr/bin/sudo /usr/sbin/iptables -A OUTPUT -p tcp -d 10.0.0.1 --dport 2049 -j DROP"
     ∈ trace (snd r)
  /\ nth_error (new_events h2 (snd (__del__ all_fail h2))) 1
     = Some (EvPopen "/usr/bin/sudo /usr/sbin/iptables --flush").
Proof.
  repeat split; try (vm_compute; reflexivity).
  apply (bool_decide_unpack _). vm_compute. exact I.
Qed.

(** ** What no method ever changes *)

(** X6.  No method assigns to an attribute that [__init__] takes from its
    arguments, other than [mtpoint], nor to [_localhost]: whatever is
    called, however the calls end, and through the destructor, [host],
    [user], [server], [nfsversion], [minorversion], [proto], [port],
    [sec], [export], [datadir], [mtopts], [interface], [nomount],
    [iptables] and [sudo] are as the constructor left them.  The
    keyword arguments of a call of [mount] hold for that call only. *)
Theorem configuration_fixed (os os' : OS) (calls : list Call) (h : Host) :
  same_config h (session os calls h)
  /\ same_config h (snd (__del__ os' (session os calls h))).
Proof.
  assert (S : same_config h (session os calls h))
    by apply (sk_session os same_config same_config_steps).
  split; [exact S|].
  etransitivity; [exact S|].
  apply (sk_del os' same_config (st_core _ same_config_steps)).
Qed.

(** X7.  Nothing recorded is ever forgotten: whatever is called, and through
    the destructor, the lists of the mount points checked, found
    invalid and created keep what they hold and are added to at their
    end, and a process id that has a debug level recorded keeps one,
    also once its process has been waited for or stopped, the volume
    unmounted or the directories removed. *)
Theorem records_only_grow (os os' : OS) (calls : list Call) (h : Host) :
  records_grow h (session os calls h)
  /\ records_grow h (snd (__del__ os' (session os calls h))).
Proof.
  assert (S : records_grow h (session os calls h))
    by apply (sk_session os records_grow records_grow_steps).
  split; [exact S|].
  etransitivity; [exact S|].
  apply (sk_del os' records_grow (st_core _ records_grow_steps)).
Qed.
(** ** The destructor *)

Lemma same_mounts_no_new_mount h h' : same_mounts h h' -> no_new_mount h h'.
Proof.
  intros (S1 & _ & S3 & S4 & _). split; [rewrite S3; auto|].
  split; [exact S1|]. intros p Hp. rewrite S4. exact Hp.
Qed.

Lemma mounted_checked_step h h' :
  no_new_mount h h' -> mounted_checked h -> mounted_checked h'.
Proof.
  intros (N1 & N2 & N3) Inv Hm. rewrite N2. apply N3, Inv, N1, Hm.
Qed.

(** [mount] leaves a mounted object with its mount point checked,
    however it ends. *)
Lemma mount_keeps_mounted_checked os kwargs h :
  mounted_checked h -> mounted_checked (snd (mount os kwargs h)).
Proof.
  intros Inv. rewrite mount_unfold. cbv zeta.
  pose proof (check_mtpoint_records os (eff_mtpoint kwargs h)
                (mount_entry kwargs h)) as Hrec.
  pose proof (sk_check_mtpoint os no_new_mount no_new_mount_steps
                (eff_mtpoint kwargs h) (mount_entry kwargs h)) as N1.
  assert (Inv0 : mounted_checked (mount_entry kwargs h)) by exact Inv.
  destruct (_check_mtpoint os _ _) as [[u|e] h1]; cbn [snd] in *;
    [|exact (mounted_checked_step _ _ N1 Inv0)].
  assert (Inv1 : mounted_checked h1) by exact (mounted_checked_step _ _ N1 Inv0).
  destruct (nomount h1 || _); [exact Inv1|].
  destruct (eff_mount_cmd kwargs h) as [cmd|]; [|exact Inv1].
  destruct (run_outcome _ _); cbn [snd].
  - set (h2 := set_mtpoint _ _).
    pose proof (sk_create_datadir os no_new_mount no_new_mount_steps h2) as K.
    assert (Inv2 : mounted_checked h2) by (intros _; exact Hrec).
    destruct (create_datadir os h2) as [[u'|e] h3]; cbn [snd] in *;
      exact (mounted_checked_step _ _ K Inv2).
  - exact Inv1.
Qed.

Lemma call_keeps_mounted_checked os c h :
  mounted_checked h -> mounted_checked (call os c h).
Proof.
  pose proof no_new_mount_steps as Sc.
  destruct c; cbn [call];
    try (apply mounted_checked_step;
         first [ apply (sk_run_cmd os no_new_mount Sc)
               | apply (sk_wait_cmd os no_new_mount Sc)
               | apply (sk_check_mtpoint os no_new_mount Sc)
               | apply (sk_umount os no_new_mount Sc)
               | apply (sk_network_reset os no_new_mount Sc)
               | apply (sk_get_route os no_new_mount Sc)
               | apply (sk_network_drop os no_new_mount Sc);
                 exact no_new_mount_flag ]).
  apply mount_keeps_mounted_checked.
Qed.

Lemma session_keeps_mounted_checked os calls :
  forall h, mounted_checked h -> mounted_checked (session os calls h).
Proof.
  unfold session. induction calls as [|c calls IH]; intros h Inv; cbn [fold_left].
  - exact Inv.
  - apply IH, call_keeps_mounted_checked, Inv.
Qed.

(** X8.  The destructor never raises.  On an object that, if it is mounted,
    has had its mount point checked (as a new object has, not being
    mounted), whatever methods are called and however they end, this
    remains so, and [__del__] then returns normally: a network reset, an
    unmount or an rmdir that fails is logged or passed over. *)
Theorem del_never_raises (os os' : OS) (calls : list Call) (h : Host) :
  mounted_checked h ->
  mounted_checked (session os calls h)
  /\ fst (__del__ os' (session os calls h)) = Ok tt.
Proof.
  intros Inv.
  pose proof (session_keeps_mounted_checked os calls h Inv) as Inv'.
  split; [exact Inv'|].
  set (h' := session os calls h) in *.
  rewrite del_unfold.
  destruct (teardown_mounts_ok os' h' Inv') as (T1 & _).
  destruct (teardown_mounts os' h') as [res mid]. cbn [fst] in T1. subst res.
  apply (rmdir_loop os' (_mtpoint_created mid) mid).
Qed.

Lemma del_never_raises_witness :
  let calls := [CallMount datadir_args; CallNetworkDrop "10.0.0.1" 2049;
                CallRunCmd "tcpdump" true (Some "DBG1") "" false] in
  mounted_checked (session all_fail calls local_host)
  /\ fst (__del__ all_fail (session all_fail calls local_host)) = Ok tt.
Proof.
  apply (del_never_raises all_fail all_fail _ local_host).
  intros H. discriminate H.
Defined.
(** ** Waiting for all the processes *)

(** One round of the loop of [wait_cmd] that runs no kill command. *)
Lemma wait_loop_round os p rest (terminate : bool) dlevel msg out h :
  p ∈ process_list h ->
  (terminate = true -> process_smap h !! pid p = None) ->
  let d := wait_dlevel dlevel h p in
  let h1 := if terminate then terminated d msg p h else waiting d msg p h in
  wait_loop os (p :: rest) terminate dlevel msg out h
  = wait_loop os rest terminate d msg (Some (proc_wait os (clock h) p))
      (reaped p h1).
Proof.
  intros Hp Hs. cbn [wait_loop]. rewrite bind_get.
  rewrite bool_decide_eq_true_2 by exact Hp.
  fold (wait_dlevel dlevel h p). cbv zeta.
  destruct terminate.
  - rewrite (Hs eq_refl).
    rewrite bool_decide_eq_false_2 by (intros [x Hx]; discriminate Hx).
    rewrite !bind_bind. unfold dprint. rewrite !bind_emit, bind_tick.
    rewrite bind_emit, bind_upd. reflexivity.
  - unfold dprint. rewrite bind_emit, bind_tick.
    rewrite bind_emit, bind_upd. reflexivity.
Qed.

Lemma waiting_facts d msg p h :
  trace (waiting d msg p h)
  = trace h ++ [EvDprint d (msg +:+ "waiting for process " +:+ PyStr.fmt_d (pid p))]
  /\ process_list (waiting d msg p h) = process_list h
  /\ clock (waiting d msg p h) = clock h.
Proof. unfold waiting. fields. repeat split. Qed.

(** After a round: the list has lost its head, the rest is as it was. *)
Lemma wait_round_facts (terminate : bool) d msg p rest h :
  process_list h = p :: rest ->
  let h1 := reaped p (if terminate then terminated d msg p h
                      else waiting d msg p h) in
  process_list h1 = rest
  /\ trace h1 = trace h ++ announce_events terminate d msg p ++ [EvWait p]
  /\ process_smap h1 = process_smap h
  /\ process_dmap h1 = process_dmap h
  /\ clock h1 = S (clock h).
Proof.
  intros Hl h1. subst h1. unfold announce_events.
  destruct terminate; unfold reaped, terminated, waiting; fields;
    rewrite Hl; cbn [list_remove]; rewrite decide_True by reflexivity;
    rewrite <- ?app_assoc; repeat split.
Qed.

Lemma wait_loop_all os (terminate : bool) msg : forall plist dlevel out h,
  process_list h = plist ->
  (terminate = true -> forall p, p ∈ plist -> process_smap h !! pid p = None) ->
  let r := wait_loop os plist terminate dlevel msg out h in
  fst r = Ok (match last plist with
              | Some p => Some (proc_wait os (clock h + length plist - 1) p)
              | None => out
              end)
  /\ process_list (snd r) = []
  /\ trace (snd r)
     = trace h ++ wait_events (process_dmap h) plist terminate dlevel msg
  /\ process_smap (snd r) = process_smap h
  /\ process_dmap (snd r) = process_dmap h.
Proof.
  induction plist as [|p rest IH]; intros dlevel out h Hl Hs r; subst r.
  - cbn [wait_loop wait_events last]. unfold ret. cbn [fst snd].
    rewrite app_nil_r. auto.
  - assert (Hp : p ∈ process_list h) by (rewrite Hl; left).
    rewrite (wait_loop_round os p rest terminate dlevel msg out h Hp)
      by (intros T; apply (Hs T); left).
    cbv zeta.
    set (d := wait_dlevel dlevel h p).
    destruct (wait_round_facts terminate d msg p rest h Hl)
      as (F1 & F2 & F3 & F4 & F5).
    set (h1 := reaped p _) in *.
    destruct (IH d (Some (proc_wait os (clock h) p)) h1 F1) as (I1 & I2 & I3 & I4 & I5).
    { intros T q Hq. rewrite F3. apply (Hs T). right. exact Hq. }
    split.
    { rewrite I1, F5. destruct rest as [|q rest'].
      - cbn [last length]. rewrite Nat.add_sub. reflexivity.
      - change (last (p :: q :: rest')) with (last (q :: rest')).
        replace (clock h + length (p :: q :: rest') - 1)%nat
          with (S (clock h) + length (q :: rest') - 1)%nat
          by (cbn [length]; lia).
        destruct (last (q :: rest')) eqn:E; [reflexivity|].
        apply last_None in E. discriminate E. }
    split; [exact I2|].
    split.
    { rewrite I3, F2, F4. cbn [wait_events]. fold d.
      unfold wait_dlevel in d. fold d. rewrite <- !app_assoc. reflexivity. }
    split; [rewrite I4; exact F3 | rewrite I5; exact F4].
Qed.

(** X9.  [wait_cmd()] for all the processes: it waits for every registered
    process, in the order of the registry, removes each one, and
    returns the exit status of the last, [None] when there is none; it
    does not raise.  [stop_cmd()] does the same, sending each process
    the terminate signal first, provided no process id of the registry
    is marked as started with sudo.  The registry is empty afterwards;
    the two maps are as they were. *)
Theorem wait_all (os : OS) (terminate : bool) (dlevel : option string)
    (msg : string) (h : Host) :
  (terminate = true ->
   forall p, p ∈ process_list h -> process_smap h !! pid p = None) ->
  let plist := process_list h in
  let r := wait_cmd os None terminate dlevel msg h in
  fst r = Ok (match last plist with
              | Some p => Some (proc_wait os (clock h + length plist - 1) p)
              | None => None
              end)
  /\ process_list (snd r) = []
  /\ trace (snd r)
     = trace h ++ wait_events (process_dmap h) plist terminate dlevel msg
  /\ process_smap (snd r) = process_smap h
  /\ process_dmap (snd r) = process_dmap h.
Proof.
  intros Hs plist r. subst r plist. unfold wait_cmd. rewrite bind_get.
  apply wait_loop_all; [reflexivity | exact Hs].
Qed.

Lemma wait_all_witness :
  let h := session all_well
             [CallRunCmd "tcpdump" false (Some "DBG1") "" false;
              CallRunCmd "vmstat 5" false (Some "DBG2") "" false] local_host in
  let r := wait_cmd all_well None true None "" h in
  fst r = Ok (Some 0)
  /\ process_list (snd r) = []
  /\ trace (snd r)
     = trace h ++ [EvDprint (Some "DBG1") "stopping process 1000";
                   EvTerminate (mkProc 0 1000); EvWait (mkProc 0 1000);
                   EvDprint (Some "DBG1") "stopping process 1001";
                   EvTerminate (mkProc 1 1001); EvWait (mkProc 1 1001)]
  /\ process_smap (snd r) = process_smap h
  /\ process_dmap (snd r) = process_dmap h.
Proof.
  apply (wait_all all_well true None ""
           (session all_well
              [CallRunCmd "tcpdump" false (Some "DBG1") "" false;
               CallRunCmd "vmstat 5" false (Some "DBG2") "" false] local_host)).
  intros _ p Hp. vm_compute. reflexivity.
Defined.
(** X10.  When [wait_cmd] or [stop_cmd] is given no debug level and no
    process, the level recorded for the first process of the registry is
    used for that process and for every one after it, whatever level
    was recorded for those: the call is the one with that level given. *)
Theorem wait_level_of_first (os : OS) (terminate : bool) (msg : string)
    (h : Host) (p : Proc) (rest : list Proc) (d : string) :
  process_list h = p :: rest ->
  process_dmap h !! pid p = Some (Some d) ->
  wait_cmd os None terminate None msg h
  = wait_cmd os None terminate (Some d) msg h.
Proof.
  intros Hl Hd. unfold wait_cmd. rewrite !bind_get. rewrite Hl.
  cbn [wait_loop]. rewrite !bind_get.
  rewrite bool_decide_eq_true_2 by (rewrite Hl; left).
  rewrite Hd. reflexivity.
Qed.

Lemma wait_level_of_first_witness :
  let h := session all_well
             [CallRunCmd "tcpdump" false (Some "DBG1") "" false;
              CallRunCmd "vmstat 5" false (Some "DBG2") "" false] local_host in
  wait_cmd all_well None false None "" h
  = wait_cmd all_well None false (Some "DBG1") "" h.
Proof.
  apply (wait_level_of_first all_well false ""
           (session all_well
              [CallRunCmd "tcpdump" false (Some "DBG1") "" false;
               CallRunCmd "vmstat 5" false (Some "DBG2") "" false] local_host)
           (mkProc 0 1000) [mkProc 1 1001] "DBG1");
    vm_compute; reflexivity.
Defined.

(** X11.  A process started with sudo and then waited for, not stopped: the
    call logs that it waits, waits, returns the exit status and removes
    the handle from the list, and it sends no signal and runs no
    command; but the process id stays marked in [process_smap] as
    started with sudo, the process being gone. *)
Theorem wait_leaves_sudo_mark (os : OS) (self : Host) (cmd : string)
    (dlevel : option string) (msg : string) (dl : option string) (msg' : string) :
  registry_fresh self ->
  let p := mkProc (clock self) (c_pid (child_of os self cmd true)) in
  let h1 := snd (run_cmd os cmd true dlevel msg false self) in
  let r := wait_cmd os (Some p) false dl msg' h1 in
  let d := match dl with Some x => Some x | None => dlevel end in
  fst r = Ok (Some (proc_wait os (S (clock self)) p))
  /\ new_events h1 (snd r)
     = [EvDprint d (msg' +:+ "waiting for process " +:+ PyStr.fmt_d (pid p));
        EvWait p]
  /\ process_list (snd r) = process_list self
  /\ process_smap (snd r) !! pid p = Some 1.
Proof.
  intros Fresh p h1 r d. subst r h1.
  rewrite run_cmd_nowait. cbn [snd].
  destruct (started_registry os cmd true dlevel msg self)
    as (Hl & Hd & Hs & Hc & C).
  fold p in Hl, Hd, Hs.
  set (h1 := started os cmd true dlevel msg self) in *.
  assert (Hfresh : p ∉ process_list self) by apply registry_fresh_new, Fresh.
  assert (Hp : p ∈ process_list h1).
  { rewrite Hl, elem_of_app, list_elem_of_singleton. auto. }
  assert (Hdl : wait_dlevel dl h1 p = d).
  { unfold wait_dlevel, d. rewrite Hd, lookup_insert_eq.
    destruct dl; [reflexivity|]. destruct dlevel; reflexivity. }
  unfold wait_cmd. rewrite bind_get.
  rewrite (wait_loop_round os p [] false dl msg' None h1 Hp)
    by (intros T; discriminate T).
  cbv zeta. rewrite Hdl. cbn [wait_loop]. unfold ret. cbn [fst snd].
  destruct (waiting_facts d msg' p h1) as (W1 & W2 & W3).
  destruct (reaped_facts p (waiting d msg' p h1)) as (R1 & R2 & R3).
  clearbody h1.
  split; [rewrite Hc; reflexivity|].
  split; [apply new_events_app; rewrite R1, W1, <- app_assoc; reflexivity|].
  split; [rewrite R2, W2, Hl; apply list_remove_app_fresh, Hfresh|].
  rewrite R3. change (process_smap (waiting d msg' p h1)) with (process_smap h1).
  rewrite Hs. apply lookup_insert_eq.
Qed.

Lemma wait_leaves_sudo_mark_witness :
  let p := mkProc 0 4242 in
  let h1 := snd (run_cmd one_pid "tcpdump" true (Some "DBG1") "" false local_host) in
  let r := wait_cmd one_pid (Some p) false None "" h1 in
  fst r = Ok (Some 0)
  /\ new_events h1 (snd r)
     = [EvDprint (Some "DBG1") "waiting for process 4242"; EvWait p]
  /\ process_list (snd r) = []
  /\ process_smap (snd r) !! 4242 = Some 1.
Proof.
  apply (wait_leaves_sudo_mark one_pid local_host "tcpdump" (Some "DBG1") ""
           None "").
  apply init_registry_fresh.
Defined.

(** What the mark left behind does: a later process that gets the same
    process id, started without sudo, is stopped with a sudo kill
    command and is sent no signal. *)
Example stale_sudo_mark :
  let h1 := snd (run_cmd one_pid "tcpdump" true (Some "DBG1") "" false local_host) in
  let h2 := snd (wait_cmd one_pid None false None "" h1) in
  let h3 := snd (run_cmd one_pid "vmstat 5" false (Some "DBG1") "" false h2) in
  let r := stop_cmd one_pid None None "" h3 in
  process_list h3 = [mkProc 2 4242]
  /\ new_events h3 (snd r)
     = [EvDprint (Some "DBG1") "/usr/bin/sudo kill 4242";
        EvPopen "/usr/bin/sudo kill 4242"; EvWait (mkProc 2 4242)].
Proof. vm_compute. auto. Qed.
(** ** More about mount *)

Lemma rstrip_endswith c s : PyStr.endswith c (PyStr.rstrip c s) = false.
Proof.
  induction s as [|a s IH]; [reflexivity|]. cbn [PyStr.rstrip].
  destruct (PyStr.rstrip c s) as [|b r] eqn:E.
  - destruct (Ascii.eqb a c) eqn:Ea; [reflexivity|].
    unfold PyStr.endswith, PyStr.of_char. cbn [PyStr.last]. exact Ea.
  - unfold PyStr.endswith in *. exact IH.
Qed.

Lemma rstrip_fixed c s : PyStr.endswith c s = false -> PyStr.rstrip c s = s.
Proof.
  induction s as [|a s IH]; [reflexivity|]. intros H. cbn [PyStr.rstrip].
  destruct s as [|b s'].
  - cbn [PyStr.rstrip]. unfold PyStr.endswith in H. cbn [PyStr.last] in H.
    rewrite H. reflexivity.
  - rewrite IH by exact H. reflexivity.
Qed.

(** What is known of a call of [mount] that returned a mount point. *)
Lemma mount_returned os kwargs self mt :
  fst (mount os kwargs self) = Ok (Some mt) ->
  mt = eff_mtpoint kwargs self
  /\ nomount (snd (mount os kwargs self)) = false
  /\ (mt ∉ _invalidmtpoint (snd (mount os kwargs self)))
  /\ same_config self (snd (mount os kwargs self)).
Proof.
  rewrite mount_unfold. cbv zeta.
  pose proof (sk_check_mtpoint os same_config (st_core _ same_config_steps)
                (eff_mtpoint kwargs self) (mount_entry kwargs self)) as C1.
  destruct (_check_mtpoint os _ _) as [[u|e] h1]; cbn [fst snd] in *;
    [|discriminate].
  destruct (nomount h1) eqn:Hn; [discriminate|]. cbn [orb].
  destruct (bool_decide _) eqn:Hi; [discriminate|].
  apply bool_decide_eq_false in Hi.
  destruct (eff_mount_cmd kwargs self) as [cmd|]; [|discriminate].
  destruct (run_outcome _ _); [|discriminate].
  set (h2 := set_mtpoint _ _).
  pose proof (keeps_create_datadir os _ quiet_same_mounts h2) as K.
  pose proof (keeps_create_datadir os _ quiet_same_config h2) as C.
  destruct (create_datadir os h2) as [[u'|e] h3]; cbn [fst snd] in *;
    [|discriminate].
  intros E. injection E as <-.
  split; [reflexivity|].
  split; [transitivity (nomount h2); [apply C | exact Hn]|].
  split.
  { destruct K as (_ & _ & _ & _ & K5 & _). rewrite K5. exact Hi. }
  etransitivity; [|exact C]. etransitivity; [exact C1|]. repeat split.
Qed.

(** X12.  The mount point [mount] returns is the one asked for without its
    trailing slashes; it is what the object records as its mount point,
    and what a later call without a mount point of its own uses, as it
    is.  A mount point made of slashes only becomes the empty path. *)
Theorem mount_returns_stripped (os : OS) (kwargs : MountArgs) (self : Host)
    (mt : string) :
  fst (mount os kwargs self) = Ok (Some mt) ->
  mt = PyStr.rstrip "/" (kwargs_pop (kw_mtpoint kwargs) (mtpoint self))
  /\ PyStr.endswith "/" mt = false
  /\ mtpoint (snd (mount os kwargs self)) = mt
  /\ (forall kwargs',
        kw_mtpoint kwargs' = None ->
        eff_mtpoint kwargs' (snd (mount os kwargs self)) = mt).
Proof.
  intros E.
  destruct (mount_returned os kwargs self mt E) as (-> & _).
  destruct (mount_mounted_checked os kwargs self _ E) as (_ & Hp & _).
  split; [reflexivity|]. split; [apply rstrip_endswith|].
  split; [exact Hp|].
  intros kwargs' Hk. unfold eff_mtpoint at 1. rewrite Hk. cbn [kwargs_pop].
  rewrite Hp. apply rstrip_fixed, rstrip_endswith.
Qed.

Lemma mount_returns_stripped_witness :
  "/mnt/t" = PyStr.rstrip "/" "/mnt/t///"
  /\ PyStr.endswith "/" "/mnt/t" = false
  /\ mtpoint (snd (mount all_well slashes_args local_host)) = "/mnt/t"
  /\ (forall kwargs',
        kw_mtpoint kwargs' = None ->
        eff_mtpoint kwargs' (snd (mount all_well slashes_args local_host))
        = "/mnt/t").
Proof.
  exact (mount_returns_stripped all_well slashes_args local_host "/mnt/t" eq_refl).
Defined.

(** X13.  A call of [mount] that gets as far as its command.  When the
    command fails the call raises with [mounted] and [mtpoint] as they
    were.  When it succeeds, the object is mounted on the new mount
    point from then on, also when the call goes on to raise because the
    data directory cannot be made.  [mtdir] has its new value in every
    case. *)
Theorem mount_outcomes (os : OS) (kwargs : MountArgs) (self h1 : Host)
    (cmd : string) :
  _check_mtpoint os (eff_mtpoint kwargs self) (mount_entry kwargs self)
    = (Ok tt, h1) ->
  nomount self = false ->
  eff_mtpoint kwargs self ∉ _invalidmtpoint self ->
  eff_mount_cmd kwargs self = Some cmd ->
  let r := mount os kwargs self in
  mtdir (snd r) = eff_mtdir kwargs self
  /\ match run_outcome (_localhost self) (child_of os h1 cmd true) with
     | Raise e =>
         fst r = Raise e
         /\ mounted (snd r) = mounted self
         /\ mtpoint (snd r) = mtpoint self
     | Ok _ =>
         mounted (snd r) = true
         /\ mtpoint (snd r) = eff_mtpoint kwargs self
         /\ (fst r = Ok (Some (eff_mtpoint kwargs self))
             \/ exists e, fst r = Raise e)
     end.
Proof.
  intros Hchk Hnm Hinv Hcmd r. subst r.
  destruct (mount_gate os kwargs self h1 Hchk) as (Gn & Gi & C & Gd & Gm & Gp).
  rewrite mount_unfold. cbv zeta. rewrite Hchk, Gn, Gi, Hnm.
  rewrite bool_decide_eq_false_2 by exact Hinv. cbn [orb]. rewrite Hcmd.
  assert (Hl : _localhost h1 = _localhost self) by apply C.
  rewrite Hl.
  destruct (run_outcome _ _).
  - set (h2 := set_mtpoint _ _).
    pose proof (keeps_create_datadir os _ quiet_same_mounts h2) as K.
    destruct K as (K1 & K2 & K3 & _).
    destruct (create_datadir os h2) as [[u|e] h3]; cbn [fst snd] in *;
      (split; [rewrite K2; exact Gd|]);
      (split; [rewrite K3; reflexivity|]);
      (split; [rewrite K1; reflexivity|]); eauto.
  - cbn [fst snd]. split; [exact Gd|]. split; [reflexivity|].
    split; [exact Gm | exact Gp].
Qed.

(** The mount command succeeds and the data directory cannot be made:
    the call raises [OSError] and leaves the object mounted. *)
Lemma mount_outcomes_witness :
  let r := mount no_datadir datadir_args local_host in
  mtdir (snd r) = "/mnt/t/data"
  /\ mounted (snd r) = true
  /\ mtpoint (snd r) = "/mnt/t"
  /\ (fst r = Ok (Some "/mnt/t") \/ exists e, fst r = Raise e).
Proof.
  exact (mount_outcomes no_datadir datadir_args local_host _ _
           eq_refl eq_refl (not_elem_of_nil _) eq_refl).
Defined.

Example mount_datadir_fails :
  fst (mount no_datadir datadir_args local_host) = Raise (OSError "/mnt/t/data")
  /\ mounted (snd (mount no_datadir datadir_args local_host)) = true.
Proof. vm_compute. auto. Qed.
(** ** mount and umount, one after the other *)




(** ** A mount point found invalid *)

(** X15.  A mount point that has been checked and found not to be a
    directory is remembered: whatever is called afterwards, a call of
    [mount] for it returns [None] at once, without an exception, a
    probe or a command, having only set [mtdir]; and [umount], when it
    is the mount point of the object, does nothing at all. *)
Theorem invalid_mount_point_remembered (os os' os'' : OS) (p : string)
    (h : Host) (calls : list Call) (kwargs : MountArgs) :
  p ∈ _checkmtpoint h ->
  p ∈ _invalidmtpoint h ->
  let h2 := session os' calls h in
  eff_mtpoint kwargs h2 = p ->
  mount os'' kwargs h2 = (Ok None, mount_entry kwargs h2)
  /\ (mtpoint h2 = p -> umount os h2 = (Ok tt, h2)).
Proof.
  intros Hc Hi h2 Hp.
  destruct (sk_session os' records_grow records_grow_steps calls h)
    as ([lc Gc] & [li Gi] & _).
  fold h2 in Gc, Gi.
  assert (Hc2 : p ∈ _checkmtpoint h2) by (rewrite Gc, elem_of_app; auto).
  assert (Hi2 : p ∈ _invalidmtpoint h2) by (rewrite Gi, elem_of_app; auto).
  split.
  - apply mount_invalid_recorded; rewrite Hp; assumption.
  - intros Hm. rewrite umount_unfold. destruct (nomount h2); [reflexivity|].
    rewrite Hm. rewrite check_mtpoint_checked by exact Hc2.
    rewrite Hm. rewrite bool_decide_eq_true_2 by exact Hi2. reflexivity.
Qed.

Lemma invalid_mount_point_remembered_witness :
  let h := snd (mount plain_files no_args local_host) in
  let h2 := session all_well [CallRunCmd "ls" false (Some "DBG1") "" true] h in
  mount all_well no_args h2 = (Ok None, mount_entry no_args h2)
  /\ (mtpoint h2 = "/mnt/t" -> umount plain_files h2 = (Ok tt, h2)).
Proof.
  apply (invalid_mount_point_remembered plain_files all_well all_well "/mnt/t"
           (snd (mount plain_files no_args local_host))
           [CallRunCmd "ls" false (Some "DBG1") "" true] no_args).
  - apply (bool_decide_unpack _). vm_compute. exact I.
  - apply (bool_decide_unpack _). vm_compute. exact I.
  - vm_compute. reflexivity.
Defined.

(** The first call raises, every later one returns [None]. *)
Example invalid_mount_point_twice :
  let r1 := mount plain_files no_args local_host in
  let r2 := mount plain_files no_args (snd r1) in
  fst r1 = Raise (Exception "Mount point /mnt/t is not a directory")
  /\ fst r2 = Ok None
  /\ trace (snd r2) = trace (snd r1).
Proof. vm_compute. auto. Qed.
(** ** A mount point that could not be created *)




(** ** Patterns: what they find *)

(** A text matches itself. *)
Lemma rmatch_Lit_app t : forall b g k,
  Re.rmatch (Re.Lit t) (t +:+ b) g k = k b g.
Proof.
  induction t as [|a t IH]; intros b g k.
  - reflexivity.
  - change (String a t +:+ b) with (String a (t +:+ b)).
    cbn [Re.Lit Re.rmatch]. rewrite Ascii.eqb_refl. apply IH.
Qed.

(** A match somewhere in the text makes the search succeed. *)
Lemma search_from_found r ng s0 :
  is_Some (Re.rmatch r s0 (replicate (S ng) None) (fun _ g => Some g)) ->
  forall a, is_Some (Re.search_from r ng (a +:+ s0)).
Proof.
  intros [g Hg] a. induction a as [|c a IH].
  - change ("" +:+ s0) with s0.
    destruct s0; cbn [Re.search_from]; rewrite Hg; eexists; reflexivity.
  - change (String c a +:+ s0) with (String c (a +:+ s0)).
    cbn [Re.search_from].
    destruct (Re.rmatch r (String c (a +:+ s0)) _ _); [eexists; reflexivity|].
    exact IH.
Qed.

(** A match of the pattern of [umount] begins with one of its two
    texts. *)
Lemma re_not_mounted_match s g k res :
  Re.rmatch re_not_mounted s g k = Some res ->
  (exists b, s = "not mounted" +:+ b) \/ (exists b, s = "not found" +:+ b).
Proof.
  unfold re_not_mounted. intros H.
  destruct (rmatch_Cat_Lit _ _ _ _ _ _ H) as (s1 & -> & H1).
  change (Re.rmatch (Re.Grp 1 ?r) s1 g k)
    with (Re.rmatch r s1 g
            (fun s' g' => k s' (<[1%nat := Some (Re.consumed s1 s')]> g')))
    in H1.
  cbn [Re.rmatch] in H1.
  change (match Re.rmatch (Re.Lit "mounted") s1 g
                  (fun s' g' => k s' (<[1%nat := Some (Re.consumed s1 s')]> g')) with
          | Some x => Some x
          | None => Re.rmatch (Re.Lit "found") s1 g
                      (fun s' g' => k s' (<[1%nat := Some (Re.consumed s1 s')]> g'))
          end = Some res) in H1.
  destruct (Re.rmatch (Re.Lit "mounted") s1 g _) as [x|] eqn:E.
  - destruct (rmatch_Lit _ _ _ _ _ E) as (b & -> & _). left. exists b. reflexivity.
  - destruct (rmatch_Lit _ _ _ _ _ H1) as (b & -> & _). right. exists b. reflexivity.
Qed.

Lemma re_not_mounted_search s :
  is_Some (Re.search re_not_mounted 1 s)
  <-> occurs "not mounted" s \/ occurs "not found" s.
Proof.
  unfold Re.search. split.
  - intros [g Hg]. destruct (search_from_match _ _ _ _ Hg) as (s0 & Hr & Hm).
    destruct (re_not_mounted_match _ _ _ _ Hm) as [[b ->]|[b ->]];
      [left | right]; (eapply occurs_rest; [apply occurs_prefix | exact Hr]).
  - intros [(a & b & ->)|(a & b & ->)]; apply search_from_found.
    + destruct (Re.rmatch re_not_mounted ("not mounted" +:+ b) _ _) eqn:E;
        [eexists; reflexivity|].
      cbv in E. discriminate E.
    + destruct (Re.rmatch re_not_mounted ("not found" +:+ b) _ _) eqn:E;
        [eexists; reflexivity|].
      cbv in E. discriminate E.
Qed.

(** X17.  The test that ends the retries of [umount]: the last command
    exited with status 0, or the error recorded for it has [not mounted]
    or [not found] somewhere in it. *)
Theorem umount_success_criterion (h : Host) :
  umount_done h = true
  <-> returncode h = 0
      \/ occurs "not mounted" (perror h) \/ occurs "not found" (perror h).
Proof.
  unfold umount_done. rewrite orb_true_iff, Z.eqb_eq, bool_decide_eq_true.
  rewrite re_not_mounted_search. reflexivity.
Qed.

(** The error of a volume that is not mounted ends the retries at the
    first attempt although the command failed. *)
Example umount_criterion_example :
  let os := scripted 0 [] (exits 32 "" "umount: /mnt/t: not mounted.") 0 true true in
  let h := umount_attempt os "umount -f /mnt/t" (synced (set_mounted true local_host)) in
  returncode h = 32 /\ umount_done h = true
  /\ occurs "not mounted" (perror h).
Proof.
  split; [reflexivity|]. split; [vm_compute; reflexivity|].
  exists "umount: /mnt/t: ", ".". reflexivity.
Qed.
(** ** The pattern of get_route on a well-formed line *)

Lemma rmatch_Cat_eq r1 r2 s g k :
  Re.rmatch (Re.Cat r1 r2) s g k
  = Re.rmatch r1 s g (fun s' g' => Re.rmatch r2 s' g' k).
Proof. reflexivity. Qed.

Lemma rmatch_Cls_eq p c s g k :
  Re.rmatch (Re.Cls p) (String c s) g k = if p c then k s g else None.
Proof. reflexivity. Qed.

Lemma rmatch_Grp_eq n r s g k :
  Re.rmatch (Re.Grp n r) s g k
  = Re.rmatch r s g (fun s' g' => k s' (<[n := Some (Re.consumed s s')]> g')).
Proof. reflexivity. Qed.

Lemma rmatch_Star_eq p s g k :
  Re.rmatch (Re.Star p) s g k = Re.star p s (fun s' => k s' g).
Proof. reflexivity. Qed.

Lemma rmatch_Opt_eq r s g k :
  Re.rmatch (Re.Opt r) s g k
  = match Re.rmatch r s g k with
    | Some x => Some x
    | None => k s g
    end.
Proof. reflexivity. Qed.

Lemma str_app_cons c a b : String c a +:+ b = String c (a +:+ b).
Proof. reflexivity. Qed.

Lemma str_length_app a b :
  String.length (a +:+ b) = (String.length a + String.length b)%nat.
Proof.
  induction a as [|c a IH]; [reflexivity|].
  rewrite str_app_cons. cbn [String.length]. rewrite IH. reflexivity.
Qed.

Lemma substring_prefix a b : substring 0 (String.length a) (a +:+ b) = a.
Proof.
  induction a as [|c a IH].
  - destruct b; reflexivity.
  - rewrite str_app_cons. cbn [String.length substring]. rewrite IH. reflexivity.
Qed.

(** What a match has consumed when it leaves [b] of [a +:+ b]. *)
Lemma consumed_app a b : Re.consumed (a +:+ b) b = a.
Proof.
  unfold Re.consumed. rewrite str_length_app, Nat.add_sub.
  apply substring_prefix.
Qed.

(** A greedy iteration takes all of a run of the class that ends where
    the class ends, when what follows accepts that. *)
Lemma star_run {R} p a b (k : string -> option R) res :
  all_chars p a = true ->
  match b with
  | EmptyString => True
  | String c _ => p c = false
  end ->
  k b = Some res ->
  Re.star p (a +:+ b) k = Some res.
Proof.
  intros Ha Hb Hk. induction a as [|c a IH].
  - change ("" +:+ b) with b. destruct b as [|c b]; cbn [Re.star].
    + exact Hk.
    + rewrite Hb. exact Hk.
  - rewrite str_app_cons. cbn [Re.star all_chars] in *.
    apply andb_true_iff in Ha. destruct Ha as [Hc Ha].
    rewrite Hc, (IH Ha). reflexivity.
Qed.

(** A greedy iteration takes nothing when what follows refuses every
    later rest of the text. *)
Lemma star_none {R} p (k : string -> option R) : forall s,
  (forall a u, s = a +:+ u -> a <> "" -> k u = None) ->
  Re.star p s k = k s.
Proof.
  induction s as [|c s IH]; intros H; cbn [Re.star]; [reflexivity|].
  destruct (p c); [|reflexivity].
  rewrite IH.
  - rewrite (H (String c "") s eq_refl) by discriminate. reflexivity.
  - intros a u -> Ha. apply (H (String c a) u); [reflexivity | discriminate].
Qed.

(** One or more characters of a class, a whole run of them. *)
Lemma rmatch_Plus_run p w b g k res :
  PyStr.nonempty w = true -> all_chars p w = true ->
  match b with
  | EmptyString => True
  | String c _ => p c = false
  end ->
  k b g = Some res ->
  Re.rmatch (Re.Plus p) (w +:+ b) g k = Some res.
Proof.
  intros Hn Hw Hb Hk. destruct w as [|c w]; [discriminate|].
  cbn [all_chars] in Hw. apply andb_true_iff in Hw. destruct Hw as [Hc Hw].
  unfold Re.Plus. rewrite rmatch_Cat_eq, str_app_cons, rmatch_Cls_eq, Hc.
  rewrite rmatch_Star_eq. apply star_run; assumption.
Qed.

(** A group that is a word. *)
Lemma rmatch_Grp_word n w b g k res :
  is_word w = true -> ends_word b = true ->
  k b (<[n := Some w]> g) = Some res ->
  Re.rmatch (Re.Grp n (Re.Plus Re.nonspace)) (w +:+ b) g k = Some res.
Proof.
  intros Hw Hb Hk. unfold is_word in Hw.
  apply andb_true_iff in Hw. destruct Hw as [Hn Hw].
  rewrite rmatch_Grp_eq. apply rmatch_Plus_run; try assumption.
  - destruct b as [|c b]; [exact I|]. cbn [ends_word] in Hb.
    unfold Re.nonspace. rewrite Hb. reflexivity.
  - rewrite consumed_app. exact Hk.
Qed.

(** One space before a word. *)
Lemma rmatch_space_word w b g k res :
  is_word w = true ->
  k (w +:+ b) g = Some res ->
  Re.rmatch (Re.Plus Re.space) (String " " (w +:+ b)) g k = Some res.
Proof.
  intros Hw Hk. unfold is_word in Hw.
  apply andb_true_iff in Hw. destruct Hw as [Hn Hw].
  destruct w as [|c w]; [discriminate|].
  cbn [all_chars] in Hw. apply andb_true_iff in Hw. destruct Hw as [Hc _].
  apply (rmatch_Plus_run Re.space " " (String c w +:+ b)); try reflexivity.
  - rewrite str_app_cons. unfold Re.nonspace in Hc.
    apply negb_true_iff in Hc. exact Hc.
  - exact Hk.
Qed.
Lemma starts_with_app t b : starts_with t (t +:+ b) = true.
Proof.
  induction t as [|a t IH]; [reflexivity|].
  rewrite str_app_cons. cbn [starts_with]. rewrite Ascii.eqb_refl. exact IH.
Qed.

Lemma occurs_contains t s : occurs t s -> contains t s = true.
Proof.
  intros (a & b & ->). induction a as [|c a IH].
  - change ("" +:+ t +:+ b) with (t +:+ b).
    destruct (t +:+ b) eqn:E; cbn [contains]; rewrite <- E, starts_with_app;
      reflexivity.
  - rewrite str_app_cons. cbn [contains]. rewrite IH. apply orb_true_r.
Qed.

Lemma not_contains t s : contains t s = false -> ~ occurs t s.
Proof. intros H O. apply occurs_contains in O. congruence. Qed.

(** The clause [\ssrc\s+(\S+)] on [ src <word>]. *)
Lemma src_clause_match S T g k res :
  is_word S = true -> ends_word T = true ->
  k T (<[4%nat := Some S]> g) = Some res ->
  Re.rmatch
    (Re.Cat (Re.Cls Re.space)
       (Re.Cat (Re.Lit "src")
          (Re.Cat (Re.Plus Re.space) (Re.Grp 4 (Re.Plus Re.nonspace)))))
    (" src " +:+ S +:+ T) g k = Some res.
Proof.
  intros HS HT Hk.
  change (" src " +:+ S +:+ T) with (String " " ("src" +:+ String " " (S +:+ T))).
  rewrite rmatch_Cat_eq, rmatch_Cls_eq.
  change (Re.space " ") with true. cbv iota.
  rewrite rmatch_Cat_eq, rmatch_Lit_app, rmatch_Cat_eq.
  apply rmatch_space_word; [exact HS|].
  apply rmatch_Grp_word; assumption.
Qed.

(** Where a match of that clause begins. *)
Lemma src_clause_start u g k res :
  Re.rmatch
    (Re.Cat (Re.Cls Re.space)
       (Re.Cat (Re.Lit "src")
          (Re.Cat (Re.Plus Re.space) (Re.Grp 4 (Re.Plus Re.nonspace)))))
    u g k = Some res ->
  exists c b, u = String c ("src" +:+ b) /\ Re.space c = true.
Proof.
  rewrite rmatch_Cat_eq. destruct u as [|c u]; [discriminate|].
  rewrite rmatch_Cls_eq. destruct (Re.space c) eqn:Hc; [|discriminate].
  intros H. destruct (rmatch_Cat_Lit _ _ _ _ _ _ H) as (b & -> & _).
  exists c, b. auto.
Qed.

(** There is no later [src] clause when [src] does not occur after the
    first one. *)
Lemma src_clause_later S T g k a u :
  " src " +:+ S +:+ T = a +:+ u -> a <> "" ->
  contains "src" (S +:+ T) = false ->
  Re.rmatch
    (Re.Cat (Re.Cls Re.space)
       (Re.Cat (Re.Lit "src")
          (Re.Cat (Re.Plus Re.space) (Re.Grp 4 (Re.Plus Re.nonspace)))))
    u g k = None.
Proof.
  intros E Ha Hno.
  match goal with |- ?x = None => destruct x as [res|] eqn:M end;
    [exfalso | reflexivity].
  destruct (src_clause_start _ _ _ _ M) as (c & b & -> & Hc).
  apply not_contains in Hno. apply Hno. clear Hno M.
  change (" src " +:+ S +:+ T)
    with (String " " (String "s" (String "r" (String "c"
            (String " " (S +:+ T)))))) in E.
  destruct a as [|x0 a]; [contradiction|].
  rewrite str_app_cons in E. injection E as _ E.
  destruct a as [|x1 a].
  { change ("" +:+ ?x) with x in E. injection E as E _. subst c.
    discriminate Hc. }
  rewrite str_app_cons in E. injection E as _ E.
  destruct a as [|x2 a].
  { change ("" +:+ ?x) with x in E. injection E as E _. subst c.
    discriminate Hc. }
  rewrite str_app_cons in E. injection E as _ E.
  destruct a as [|x3 a].
  { change ("" +:+ ?x) with x in E. injection E as E _. subst c.
    discriminate Hc. }
  rewrite str_app_cons in E. injection E as _ E.
  destruct a as [|x4 a].
  { change ("" +:+ ?x) with x in E. injection E as _ E.
    exists "", b. exact E. }
  rewrite str_app_cons in E. injection E as _ E.
  exists (a +:+ String c ""), b. rewrite E, str_app_assoc. reflexivity.
Qed.

(** The part of the pattern from [dev] on, on [ dev <word> src <word>]. *)
Lemma dev_src_match D S T g k res :
  is_word D = true -> is_word S = true -> ends_word T = true ->
  contains "src" (S +:+ T) = false ->
  k T (<[4%nat := Some S]> (<[3%nat := Some D]> g)) = Some res ->
  Re.rmatch re_route_dev_src (" dev " +:+ D +:+ " src " +:+ S +:+ T) g k
  = Some res.
Proof.
  intros HD HS HT Hno Hk. unfold re_route_dev_src.
  change (" dev " +:+ D +:+ " src " +:+ S +:+ T)
    with (String " " ("dev" +:+ String " " (D +:+ " src " +:+ S +:+ T))).
  rewrite rmatch_Cat_eq, rmatch_Cls_eq.
  change (Re.space " ") with true. cbv iota.
  rewrite rmatch_Cat_eq, rmatch_Lit_app, rmatch_Cat_eq.
  apply rmatch_space_word; [exact HD|].
  rewrite rmatch_Cat_eq.
  apply rmatch_Grp_word; [exact HD | reflexivity|].
  rewrite rmatch_Cat_eq, rmatch_Star_eq.
  rewrite star_none.
  - apply src_clause_match; assumption.
  - intros a u E Ha. apply (src_clause_later S T _ _ a u); assumption.
Qed.
(** Where a match of the route pattern begins: at white space followed
    by [via] or by [dev]. *)
Lemma re_route_start s g k res :
  Re.rmatch re_route s g k = Some res ->
  exists c s1,
    s = String c s1 /\ Re.space c = true
    /\ ((exists b, s1 = "via" +:+ b) \/ (exists b, s1 = "dev" +:+ b)).
Proof.
  unfold re_route. rewrite rmatch_Cat_eq, rmatch_Opt_eq.
  destruct (Re.rmatch re_route_via s g _) as [x|] eqn:E.
  - intros _. unfold re_route_via in E. rewrite rmatch_Grp_eq, rmatch_Cat_eq in E.
    destruct s as [|c s]; [discriminate|].
    rewrite rmatch_Cls_eq in E. destruct (Re.space c) eqn:Hc; [|discriminate].
    destruct (rmatch_Cat_Lit _ _ _ _ _ _ E) as (b & -> & _).
    exists c, ("via" +:+ b). eauto.
  - unfold re_route_dev_src. rewrite rmatch_Cat_eq.
    destruct s as [|c s]; [discriminate|].
    rewrite rmatch_Cls_eq. destruct (Re.space c) eqn:Hc; [|discriminate].
    intros H. destruct (rmatch_Cat_Lit _ _ _ _ _ _ H) as (b & -> & _).
    exists c, ("dev" +:+ b). eauto.
Qed.

(** A word of three letters that begins before a space ends before
    it. *)
Lemma three_letters x y z a s b :
  a +:+ String " " s = String x (String y (String z b)) ->
  x <> " "%char -> y <> " "%char -> z <> " "%char ->
  exists a', a = String x (String y (String z a')).
Proof.
  intros E Hx Hy Hz.
  destruct a as [|a0 a]; [injection E as E _; congruence|].
  rewrite str_app_cons in E. injection E as -> E.
  destruct a as [|a1 a]; [injection E as E _; congruence|].
  rewrite str_app_cons in E. injection E as -> E.
  destruct a as [|a2 a]; [injection E as E _; congruence|].
  rewrite str_app_cons in E. injection E as -> E.
  exists a. reflexivity.
Qed.

(** No match begins in a text that has neither [via] nor [dev] and is
    followed by a space. *)
Lemma re_route_not_before pre s g k :
  contains "via" pre = false -> contains "dev" pre = false ->
  forall a1 a2, pre = a1 +:+ a2 -> a2 <> "" ->
  Re.rmatch re_route (a2 +:+ String " " s) g k = None.
Proof.
  intros Hv Hd a1 a2 -> Ha.
  match goal with |- ?x = None => destruct x as [res|] eqn:M end;
    [exfalso | reflexivity].
  destruct (re_route_start _ _ _ _ M) as (c & s1 & E & _ & Hs1).
  destruct a2 as [|c' a2]; [contradiction|].
  rewrite str_app_cons in E. injection E as -> E.
  destruct Hs1 as [[b ->]|[b ->]].
  - destruct (three_letters "v" "i" "a" a2 s b E) as (a' & ->);
      try discriminate.
    apply (not_contains _ _ Hv). exists (a1 +:+ String c ""), a'.
    rewrite str_app_assoc. reflexivity.
  - destruct (three_letters "d" "e" "v" a2 s b E) as (a' & ->);
      try discriminate.
    apply (not_contains _ _ Hd). exists (a1 +:+ String c ""), a'.
    rewrite str_app_assoc. reflexivity.
Qed.

(** The search passes over a text in which no match begins. *)
Lemma search_from_skip r ng s0 g : forall pre,
  (forall a1 a2, pre = a1 +:+ a2 -> a2 <> "" ->
     Re.rmatch r (a2 +:+ s0) (replicate (S ng) None) (fun _ g => Some g) = None) ->
  Re.rmatch r s0 (replicate (S ng) None) (fun _ g => Some g) = Some g ->
  Re.search_from r ng (pre +:+ s0) = Some g.
Proof.
  induction pre as [|c pre IH]; intros H Hm.
  - change ("" +:+ s0) with s0.
    destruct s0; cbn [Re.search_from]; rewrite Hm; reflexivity.
  - rewrite str_app_cons. cbn [Re.search_from].
    rewrite <- str_app_cons.
    rewrite (H "" (String c pre) eq_refl) by discriminate.
    apply IH; [|exact Hm].
    intros a1 a2 -> Ha. apply (H (String c a1) a2); [reflexivity | exact Ha].
Qed.

(** The groups the search finds on a well-formed line. *)
Lemma route_line_search pre gw dev src rest :
  contains "via" pre = false -> contains "dev" pre = false ->
  match gw with
  | Some g => is_word g = true
  | None => True
  end ->
  is_word dev = true -> is_word src = true -> ends_word rest = true ->
  contains "src" (src +:+ rest) = false ->
  exists g,
    Re.search re_route 4 (route_line pre gw dev src rest) = Some g
    /\ drop 1 (Re.groups_of g) = [gw; Some dev; Some src].
Proof.
  intros Hv Hd Hg HD HS HT Hno. unfold Re.search, route_line.
  destruct gw as [G|].
  - rewrite str_app_assoc.
    change (" via " +:+ G +:+ " dev " +:+ dev +:+ " src " +:+ src +:+ rest)
      with (String " " ("via" +:+ String " "
              (G +:+ " dev " +:+ dev +:+ " src " +:+ src +:+ rest))).
    eexists. split.
    + apply search_from_skip; [apply re_route_not_before; assumption|].
      unfold re_route. rewrite rmatch_Cat_eq, rmatch_Opt_eq.
      match goal with
      | |- match ?x with _ => _ end = _ =>
          assert (E : x = Some (<[4%nat := Some src]>
                                  (<[3%nat := Some dev]>
                                     (<[1%nat := Some (Re.consumed
                                        (String " " ("via" +:+ String " "
                                           (G +:+ " dev " +:+ dev +:+ " src "
                                              +:+ src +:+ rest)))
                                        (" dev " +:+ dev +:+ " src " +:+ src
                                           +:+ rest))]>
                                        (<[2%nat := Some G]>
                                           (replicate 5 None))))));
          [|rewrite E; reflexivity]
      end.
      unfold re_route_via. rewrite rmatch_Grp_eq, rmatch_Cat_eq, rmatch_Cls_eq.
      change (Re.space " ") with true. cbv iota.
      rewrite rmatch_Cat_eq, rmatch_Lit_app, rmatch_Cat_eq.
      apply rmatch_space_word; [exact Hg|].
      apply rmatch_Grp_word; [exact Hg | reflexivity|].
      apply dev_src_match; try assumption. reflexivity.
    + reflexivity.
  - change ("" +:+ " dev " +:+ dev +:+ " src " +:+ src +:+ rest)
      with (String " " ("dev " +:+ dev +:+ " src " +:+ src +:+ rest)).
    eexists. split.
    + apply search_from_skip; [apply re_route_not_before; assumption|].
      unfold re_route. rewrite rmatch_Cat_eq, rmatch_Opt_eq.
      assert (E : forall k,
                 Re.rmatch re_route_via
                   (String " " ("dev " +:+ dev +:+ " src " +:+ src +:+ rest))
                   (replicate 5 None) k = None).
      { intros k. unfold re_route_via.
        rewrite rmatch_Grp_eq, rmatch_Cat_eq, rmatch_Cls_eq. reflexivity. }
      rewrite E.
      apply (dev_src_match dev src rest); try assumption. reflexivity.
    + reflexivity.
Qed.

(** X18.  On a line [<pre> via <gateway> dev <device> src <source><rest>]
    printed by a routing query that succeeds, [get_route] returns the
    gateway, the device and the source; without the [via] clause it
    returns [None] for the gateway.  The three are words, what follows
    the source is empty or begins with white space, [pre] has neither
    [via] nor [dev] in it, and [src] does not occur again from the
    source on. *)
Theorem get_route_well_formed (os : OS) (ipaddr : string) (self : Host)
    (pre : string) (gw : option string) (dev src rest : string) :
  fst (run_cmd os ("ip route get " +:+ ipaddr) false (Some "DBG1")
         "Get routing info: " true self)
  = Ok (RStdout (route_line pre gw dev src rest)) ->
  contains "via" pre = false -> contains "dev" pre = false ->
  match gw with
  | Some g => is_word g = true
  | None => True
  end ->
  is_word dev = true -> is_word src = true -> ends_word rest = true ->
  contains "src" (src +:+ rest) = false ->
  fst (get_route os ipaddr self) = Ok [gw; Some dev; Some src].
Proof.
  intros Hrun Hv Hd Hg HD HS HT Hno.
  rewrite get_route_result, Hrun.
  destruct (route_line_search pre gw dev src rest Hv Hd Hg HD HS HT Hno)
    as (g & -> & ->).
  reflexivity.
Qed.

Lemma get_route_well_formed_witness :
  fst (get_route
         (prints "local 10.0.0.5 dev lo src 10.0.0.5 uid 1000 ")
         "10.0.0.5" local_host)
  = Ok [None; Some "lo"; Some "10.0.0.5"].
Proof.
  exact (get_route_well_formed
           (prints "local 10.0.0.5 dev lo src 10.0.0.5 uid 1000 ")
           "10.0.0.5" local_host "local 10.0.0.5" None "lo" "10.0.0.5"
           " uid 1000 " eq_refl eq_refl eq_refl I eq_refl eq_refl eq_refl
           eq_refl).
Defined.
(** ** umount of a mount point never checked *)



